(** * iskwela-grading-attendance-system: registration, attendance, grade
      and promotion handlers

    A shallow embedding of the handlers that carry the portal's business
    rules:

    - [Utils] / [Attendance]: [isLateAttendance] (components/common/Layout.tsx)
      and [isLate], [markAttendance], [handleExcuseAbsence] of the Attendance
      page (pages/Users.tsx);
    - [Registration]: [handleApproveRegistration] (pages/Users.tsx);
    - [Grades] / [Averages]: [saveClassGrades] and [calculateClassAverages]
      of the Grades page;
    - [Pupils]: [handlePromotePupils] of the Pupils page and [promoteStudent]
      (components/common/Layout.tsx).

    Conventions.  A JavaScript value that may be [undefined] or [null] is an
    [option]; a whole number that may be [NaN] is an [option Z]; a text is
    the list of its UTF-8 bytes; the grades of the store are decimals, held
    as exact rationals ([Qc]), and the averages that the Grades page computes
    from them are JavaScript numbers, binary64 values with their rounding
    ([Double]); the remote tables are lists of rows, in insertion order; what
    a handler shows to the person at the screen (toasts, alerts) is appended
    to the page's output log. *)

From Stdlib Require Import ZArith List String Ascii Bool Lia.
From Stdlib Require Import QArith Qcanon Qround DecimalString Lqa SpecFloat.
Import ListNotations.
Open Scope string_scope.
Open Scope Z_scope.

(** ** JavaScript strings *)

Module Js.

(** [!s] on a value of type [string | undefined | null]. *)
Definition truthy (s : option string) : bool :=
  match s with
  | Some s => negb (String.eqb s "")
  | None => false
  end.

(** [hay.includes(needle)]. *)
Fixpoint includes (needle hay : string) : bool :=
  String.prefix needle hay
  || match hay with
     | EmptyString => false
     | String _ rest => includes needle rest
     end.

(** A text is held as its UTF-8 bytes, as the literals of this file are.
    [chars] cuts it into its characters: a well-formed sequence of two,
    three or four bytes is one character, and a byte outside such a sequence
    stands alone, for the code point of its value. *)
Definition byte_between (lo hi : N) (c : ascii) : bool :=
  ((lo <=? N_of_ascii c) && (N_of_ascii c <=? hi))%N.

Definition continuation (c : ascii) : bool := byte_between 128 191 c.

Fixpoint chars (s : string) : list string :=
  match s with
  | EmptyString => []
  | String c1 r1 =>
      match r1 with
      | EmptyString => [String c1 ""]
      | String c2 r2 =>
          if byte_between 194 223 c1 && continuation c2
          then String c1 (String c2 "") :: chars r2
          else
            match r2 with
            | EmptyString => String c1 "" :: chars r1
            | String c3 r3 =>
                if byte_between 224 239 c1 && continuation c2 && continuation c3
                then String c1 (String c2 (String c3 "")) :: chars r3
                else
                  match r3 with
                  | EmptyString => String c1 "" :: chars r1
                  | String c4 r4 =>
                      if byte_between 240 244 c1 && continuation c2
                         && continuation c3 && continuation c4
                      then String c1 (String c2 (String c3 (String c4 "")))
                           :: chars r4
                      else String c1 "" :: chars r1
                  end
            end
      end
  end.

(** The code point of a character cut by [chars]. *)
Definition code_point (ch : string) : N :=
  let low c := (N_of_ascii c - 128)%N in
  match ch with
  | String c1 (String c2 (String c3 (String c4 _))) =>
      ((N_of_ascii c1 - 240) * 262144 + low c2 * 4096 + low c3 * 64 + low c4)%N
  | String c1 (String c2 (String c3 _)) =>
      ((N_of_ascii c1 - 224) * 4096 + low c2 * 64 + low c3)%N
  | String c1 (String c2 _) => ((N_of_ascii c1 - 192) * 64 + low c2)%N
  | String c1 _ => N_of_ascii c1
  | EmptyString => 0%N
  end.

(** The code points that [String.prototype.trim] and [parseInt] strip:
    WhiteSpace and LineTerminator of ECMAScript.  Tab to carriage return,
    space, no-break space, U+1680, U+2000 to U+200A, the line and paragraph
    separators, U+202F, U+205F, U+3000 and the byte order mark. *)
Definition white_space (cp : N) : bool :=
  (((9 <=? cp) && (cp <=? 13)) || (cp =? 32) || (cp =? 160) || (cp =? 5760)
   || ((8192 <=? cp) && (cp <=? 8202)) || (cp =? 8232) || (cp =? 8233)
   || (cp =? 8239) || (cp =? 8287) || (cp =? 12288) || (cp =? 65279))%N.

Fixpoint drop_white_space (characters : list string) : list string :=
  match characters with
  | [] => []
  | ch :: rest =>
      if white_space (code_point ch) then drop_white_space rest
      else characters
  end.

Definition trimStart (s : string) : string :=
  String.concat "" (drop_white_space (chars s)).

Definition trimEnd (s : string) : string :=
  String.concat "" (rev (drop_white_space (rev (chars s)))).

Definition trim (s : string) : string := trimEnd (trimStart s).

(** [!s.trim()]. *)
Definition blank (s : string) : bool := String.eqb (trim s) "".

Definition digit_of_ascii (c : ascii) : option Z :=
  let n := Z.of_N (N_of_ascii c) in
  if (48 <=? n) && (n <=? 57) then Some (n - 48) else None.

Definition ascii_of_digit (d : Z) : ascii :=
  ascii_of_N (Z.to_N (48 + d)).

Definition two_digits (c1 c2 : ascii) : option Z :=
  match digit_of_ascii c1, digit_of_ascii c2 with
  | Some a, Some b => Some (10 * a + b)
  | _, _ => None
  end.

(** A number below 100 printed on two digits ([2-digit]). *)
Definition pad2 (n : Z) : string :=
  String (ascii_of_digit (n / 10)) (String (ascii_of_digit (n mod 10)) "").

End Js.

Module JsSamples.

Definition text_of_bytes (l : list N) : string :=
  fold_right (fun n s => String (ascii_of_N n) s) "" l.

(** U+00A0 in UTF-8, and as the single byte of its code point. *)
Definition no_break_space : string := text_of_bytes [194; 160]%N.
Definition no_break_byte : string := text_of_bytes [160]%N.

(** U+2003, U+2028, U+3000 and U+FEFF. *)
Definition em_space : string := text_of_bytes [226; 128; 131]%N.
Definition line_separator : string := text_of_bytes [226; 128; 168]%N.
Definition ideographic_space : string := text_of_bytes [227; 128; 128]%N.
Definition byte_order_mark : string := text_of_bytes [239; 187; 191]%N.

(** U+200B, the zero width space, which [trim] keeps. *)
Definition zero_width_space : string := text_of_bytes [226; 128; 139]%N.

End JsSamples.

(** ** Dates built from a time of day

    Both lateness helpers build [new Date(`2000-01-01T${t}`)].  A date-time
    string without offset is local time, so the time value is the time value
    of local midnight of 2000-01-01 plus the milliseconds of the time of day.
    The time-of-day forms read here are those of the ECMAScript date-time
    string format: [HH:mm], [HH:mm:ss] and [HH:mm:ss.sss]; [24:00] is accepted
    as the end of the day.  Any other text gives an Invalid Date, whose time
    value is [NaN] ([None]). *)

Module JsDate.
Import Js.

Definition colon : ascii := ":"%char.
Definition dot : ascii := "."%char.

Definition parseMillis (s : string) : option Z :=
  match s with
  | EmptyString => Some 0
  | String p (String d1 (String d2 (String d3 EmptyString))) =>
      if Ascii.eqb p dot then
        match digit_of_ascii d1, two_digits d2 d3 with
        | Some a, Some b => Some (100 * a + b)
        | _, _ => None
        end
      else None
  | _ => None
  end.

Definition parseSeconds (s : string) : option (Z * Z) :=
  match s with
  | EmptyString => Some (0, 0)
  | String p (String s1 (String s2 rest)) =>
      if Ascii.eqb p colon then
        match two_digits s1 s2, parseMillis rest with
        | Some ss, Some ms => Some (ss, ms)
        | _, _ => None
        end
      else None
  | _ => None
  end.

Definition validTime (hh mm ss ms : Z) : bool :=
  ((hh <=? 23) && (mm <=? 59) && (ss <=? 59))
  || ((hh =? 24) && (mm =? 0) && (ss =? 0) && (ms =? 0)).

(** Milliseconds since midnight denoted by a time-of-day text. *)
Definition parseTimeOfDay (s : string) : option Z :=
  match s with
  | String h1 (String h2 (String p (String m1 (String m2 rest)))) =>
      if Ascii.eqb p colon then
        match two_digits h1 h2, two_digits m1 m2, parseSeconds rest with
        | Some hh, Some mm, Some (ss, ms) =>
            if validTime hh mm ss ms
            then Some (((hh * 60 + mm) * 60 + ss) * 1000 + ms)
            else None
        | _, _, _ => None
        end
      else None
  | _ => None
  end.

(** [hh:mm], the text [toLocaleTimeString] gives with two-digit hour and
    minute on a 24-hour clock. *)
Definition hhmm (h m : Z) : string :=
  pad2 h ++ String colon (pad2 m).

Section LocalTime.
(** Time value of 2000-01-01T00:00 in the local time zone. *)
Variable midnight2000 : Z.

(** [new Date(`2000-01-01T${t}`).getTime()]. *)
Definition newDate2000 (t : string) : option Z :=
  option_map (fun ms => midnight2000 + ms) (parseTimeOfDay t).

(** [new Date(d.getTime() + minutes * 60000)]. *)
Definition addMinutes (d : option Z) (minutes : Z) : option Z :=
  option_map (fun t => t + minutes * 60000) d.

(** [a > b] on two dates: a comparison of time values, false as soon as
    one of them is [NaN]. *)
Definition dateGt (a b : option Z) : bool :=
  match a, b with
  | Some x, Some y => x >? y
  | _, _ => false
  end.
End LocalTime.

End JsDate.

(** ** Constants of the shared types file *)

Module Types.

Inductive UserRole := admin | teacher | parent.

Inductive AttendanceStatus := present | absent | late | excused.

Definition UserRole_eqb (a b : UserRole) : bool :=
  match a, b with
  | admin, admin | teacher, teacher | parent, parent => true
  | _, _ => false
  end.

Definition AttendanceStatus_eqb (a b : AttendanceStatus) : bool :=
  match a, b with
  | present, present | absent, absent | late, late | excused, excused => true
  | _, _ => false
  end.

Module ATTENDANCE_RULES.
Definition LATE_THRESHOLD_MINUTES : Z := 15.
Definition GRACE_PERIOD_MINUTES : Z := 5.
Definition MINIMUM_ATTENDANCE_RATE : Z := 75.
End ATTENDANCE_RULES.

Module VALIDATION_RULES.
Definition LRN_LENGTH : Z := 12.
Definition MIN_GRADE : Z := 0.
Definition MAX_GRADE : Z := 100.
End VALIDATION_RULES.

End Types.

(** ** components/common/Layout.tsx: attendance utilities *)

Module Utils.
Import Js JsDate Types.

Definition isLateAttendance (midnight2000 : Z)
    (timeIn classStartTime : option string) : bool :=
  if negb (truthy timeIn) || negb (truthy classStartTime) then false
  else
    match timeIn, classStartTime with
    | Some timeIn, Some classStartTime =>
        let timeInDate := newDate2000 midnight2000 timeIn in
        let startTimeDate := newDate2000 midnight2000 classStartTime in
        let lateThreshold :=
          addMinutes startTimeDate ATTENDANCE_RULES.LATE_THRESHOLD_MINUTES in
        dateGt timeInDate lateThreshold
    | _, _ => false
    end.

End Utils.

(** ** pages/Users.tsx, Attendance page: the lateness rule *)

Module Lateness.
Import Js JsDate Types.

Definition isLate (midnight2000 : Z)
    (timeIn classStartTime : option string) : bool :=
  if negb (truthy timeIn) || negb (truthy classStartTime) then false
  else
    match timeIn, classStartTime with
    | Some timeIn, Some classStartTime =>
        let timeInDate := newDate2000 midnight2000 timeIn in
        let startTimeDate := newDate2000 midnight2000 classStartTime in
        let lateThreshold := addMinutes startTimeDate 15 in
        dateGt timeInDate lateThreshold
    | _, _ => false
    end.

End Lateness.

(** ** pages/Users.tsx, Attendance page: [markAttendance] and
       [handleExcuseAbsence]

    The [attendance] table is a list of rows with a unique constraint on
    (pupil_id, subject_id, date), the conflict target of both upserts.  An
    upsert sends only the columns present in its body: a column whose value
    is [undefined] is left out of the JSON body, so that on conflict it keeps
    its stored value and on insertion it is NULL. *)

Module Attendance.
Import Js Types Lateness.

Record User := { user_id : string; user_role : UserRole }.

Record Subject := {
  subject_id_of : string;
  subject_name : string;
  start_time : option string
}.

Record Pupil := {
  pupil_row_id : string;
  first_name : string;
  last_name : string;
  parent_id : option string
}.

Record AttendanceRow := {
  att_id : nat;
  att_pupil_id : string;
  att_subject_id : string;
  att_date : string;
  att_time_in : option string;
  att_status : AttendanceStatus;
  att_remarks : option string;
  att_excuse_reason : option string;
  att_teacher_id : option string;
  att_updated_at : string
}.

(** Body of an upsert; [None] in an optional column: the key is absent. *)
Record AttendanceData := {
  d_pupil_id : string;
  d_subject_id : string;
  d_date : string;
  d_time_in : option (option string);
  d_status : AttendanceStatus;
  d_remarks : option string;
  d_excuse_reason : option string;
  d_teacher_id : option string;
  d_updated_at : string
}.

Inductive AuditValues :=
| AttendanceValues (d : AttendanceData)
| StatusOnly (s : AttendanceStatus)
| StatusAndReason (s : AttendanceStatus) (excuse_reason : string).

Record AuditLog := {
  log_user_id : option string;
  log_action : string;
  log_entity_type : string;
  log_entity_id : nat;
  log_old_values : option AuditValues;
  log_new_values : option AuditValues
}.

Record Notification := {
  recipient_id : string;
  notif_type : string;
  title : string;
  message : string;
  sender_id : option string
}.

Inductive Toast := ToastSuccess (msg : string) | ToastError (msg : string).

(** The remote tables and what the page has shown so far. *)
Record World := {
  attendance : list AttendanceRow;
  next_id : nat;
  audit_logs : list AuditLog;
  notifications : list Notification;
  toasts : list Toast
}.

(** State of the Attendance component.  [selectedDate] is kept as the text
    [formatDate(selectedDate)]. *)
Record Page := {
  user : option User;
  pupils : list Pupil;
  subjects : list Subject;
  selectedSubject : string;
  selectedDate : string
}.

(** What the surroundings answer during one call: the clock, the time zone
    and the error, if any, with which the store refuses the upsert. *)
Record Env := {
  getCurrentTime : string;
  nowISOString : string;
  midnight2000 : Z;
  upsert_error : option string
}.

Definition isRole (st : Page) (role : UserRole) : bool :=
  match user st with
  | Some u => UserRole_eqb (user_role u) role
  | None => false
  end.

Definition user_id_opt (st : Page) : option string :=
  option_map user_id (user st).

Definition status_name (s : AttendanceStatus) : string :=
  match s with
  | present => "present" | absent => "absent"
  | late => "late" | excused => "excused"
  end.

Definition toast (t : Toast) (w : World) : World :=
  {| attendance := attendance w; next_id := next_id w;
     audit_logs := audit_logs w; notifications := notifications w;
     toasts := (toasts w ++ [t])%list |}.

(** [error.message || fallback]. *)
Definition message_or (msg fallback : string) : string :=
  if String.eqb msg "" then fallback else msg.

Definition same_key (d : AttendanceData) (r : AttendanceRow) : bool :=
  String.eqb (att_pupil_id r) (d_pupil_id d)
  && String.eqb (att_subject_id r) (d_subject_id d)
  && String.eqb (att_date r) (d_date d).

Definition keep {A} (sent : option A) (stored : option A) : option A :=
  match sent with Some v => Some v | None => stored end.

(** ON CONFLICT DO UPDATE: the columns of the body replace the stored
    ones. *)
Definition merge (d : AttendanceData) (r : AttendanceRow) : AttendanceRow :=
  {| att_id := att_id r;
     att_pupil_id := att_pupil_id r;
     att_subject_id := att_subject_id r;
     att_date := att_date r;
     att_time_in :=
       match d_time_in d with Some v => v | None => att_time_in r end;
     att_status := d_status d;
     att_remarks := keep (d_remarks d) (att_remarks r);
     att_excuse_reason := keep (d_excuse_reason d) (att_excuse_reason r);
     att_teacher_id := keep (d_teacher_id d) (att_teacher_id r);
     att_updated_at := d_updated_at d |}.

Definition fresh_row (id : nat) (d : AttendanceData) : AttendanceRow :=
  {| att_id := id;
     att_pupil_id := d_pupil_id d;
     att_subject_id := d_subject_id d;
     att_date := d_date d;
     att_time_in := match d_time_in d with Some v => v | None => None end;
     att_status := d_status d;
     att_remarks := d_remarks d;
     att_excuse_reason := d_excuse_reason d;
     att_teacher_id := d_teacher_id d;
     att_updated_at := d_updated_at d |}.

Fixpoint update_conflicting (d : AttendanceData) (rows : list AttendanceRow)
  : option (AttendanceRow * list AttendanceRow) :=
  match rows with
  | [] => None
  | r :: rest =>
      if same_key d r then Some (merge d r, merge d r :: rest)
      else
        match update_conflicting d rest with
        | Some (r', rest') => Some (r', r :: rest')
        | None => None
        end
  end.

(** [.upsert(d, { onConflict: 'pupil_id,subject_id,date' }).select()]:
    the written row, the table and the id counter afterwards. *)
Definition upsert (d : AttendanceData) (rows : list AttendanceRow)
    (next : nat) : AttendanceRow * list AttendanceRow * nat :=
  match update_conflicting d rows with
  | Some (r, rows') => (r, rows', next)
  | None => (fresh_row next d, (rows ++ [fresh_row next d])%list, S next)
  end.

(** The record of a (pupil, subject, date) key. *)
Definition find_record (rows : list AttendanceRow)
    (pupilId subjectId date : string) : option AttendanceRow :=
  find (fun r => String.eqb (att_pupil_id r) pupilId
                 && String.eqb (att_subject_id r) subjectId
                 && String.eqb (att_date r) date) rows.

Definition find_subject (st : Page) : option Subject :=
  find (fun s => String.eqb (subject_id_of s) (selectedSubject st))
       (subjects st).

Definition sendAbsenceNotification (st : Page) (pupilId : string)
    (w : World) : World :=
  match find (fun p => String.eqb (pupil_row_id p) pupilId) (pupils st) with
  | Some pupil =>
      if truthy (parent_id pupil) then
        match parent_id pupil with
        | Some guardian =>
            let subject := find_subject st in
            let name :=
              match subject with
              | Some s => message_or (subject_name s) "class"
              | None => "class"
              end in
            {| attendance := attendance w; next_id := next_id w;
               audit_logs := audit_logs w;
               notifications := (notifications w ++ [
                 {| recipient_id := guardian;
                    notif_type := "attendance_alert";
                    title := "Attendance Alert";
                    message := "Your child " ++ first_name pupil ++ " "
                               ++ last_name pupil ++ " was marked absent in "
                               ++ name ++ " today (" ++ selectedDate st
                               ++ ").";
                    sender_id := user_id_opt st |} ])%list;
               toasts := toasts w |}
        | None => w
        end
      else w
  | None => w
  end.

(** [timeIn || getCurrentTime()]. *)
Definition observedTime (env : Env) (timeIn : option string) : string :=
  match timeIn with
  | Some t => if truthy timeIn then t else getCurrentTime env
  | None => getCurrentTime env
  end.

(** The status written by [markAttendance]: a nominal present is looked at
    again when the selected subject has a start time. *)
Definition finalStatus (env : Env) (st : Page) (status : AttendanceStatus)
    (currentTime : string) : AttendanceStatus :=
  match find_subject st with
  | Some subject =>
      if AttendanceStatus_eqb status present && truthy (start_time subject)
      then
        if isLate (midnight2000 env) (Some currentTime) (start_time subject)
        then late else status
      else status
  | None => status
  end.

Definition markAttendance (env : Env) (st : Page) (pupilId : string)
    (status : AttendanceStatus) (timeIn remarks : option string)
    (w : World) : World :=
  if match user st with None => true | Some _ => false end
     || isRole st parent
  then toast (ToastError "You do not have permission to mark attendance") w
  else if String.eqb (selectedSubject st) ""
  then toast (ToastError "Please select a subject first") w
  else
    let currentTime := observedTime env timeIn in
    let finalStatus := finalStatus env st status currentTime in
    let attendanceData :=
      {| d_pupil_id := pupilId;
         d_subject_id := selectedSubject st;
         d_date := selectedDate st;
         d_time_in :=
           Some (if AttendanceStatus_eqb status present
                    || AttendanceStatus_eqb status late
                 then Some currentTime else None);
         d_status := finalStatus;
         d_remarks := remarks;
         d_excuse_reason := None;
         d_teacher_id := user_id_opt st;
         d_updated_at := nowISOString env |} in
    match upsert_error env with
    | Some msg => toast (ToastError (message_or msg "Failed to mark attendance")) w
    | None =>
        let '(row, rows, next) := upsert attendanceData (attendance w) (next_id w) in
        let w1 :=
          {| attendance := rows; next_id := next;
             audit_logs := (audit_logs w ++ [
               {| log_user_id := user_id_opt st;
                  log_action := "mark_attendance";
                  log_entity_type := "attendance";
                  log_entity_id := att_id row;
                  log_old_values := None;
                  log_new_values := Some (AttendanceValues attendanceData) |} ])%list;
             notifications := notifications w;
             toasts := toasts w |} in
        let w2 :=
          toast (ToastSuccess ("Attendance marked as " ++ status_name finalStatus)) w1 in
        if AttendanceStatus_eqb finalStatus absent
        then sendAbsenceNotification st pupilId w2
        else w2
    end.

Definition handleExcuseAbsence (env : Env) (st : Page) (pupilId : string)
    (excuseReason : string) (w : World) : World :=
  if blank excuseReason
  then toast (ToastError "Please provide a reason for the excuse") w
  else
    let attendanceData :=
      {| d_pupil_id := pupilId;
         d_subject_id := selectedSubject st;
         d_date := selectedDate st;
         d_time_in := None;
         d_status := excused;
         d_remarks := None;
         d_excuse_reason := Some excuseReason;
         d_teacher_id := user_id_opt st;
         d_updated_at := nowISOString env |} in
    match upsert_error env with
    | Some msg => toast (ToastError (message_or msg "Failed to excuse absence")) w
    | None =>
        let '(row, rows, next) := upsert attendanceData (attendance w) (next_id w) in
        toast (ToastSuccess "Absence excused successfully")
          {| attendance := rows; next_id := next;
             audit_logs := (audit_logs w ++ [
               {| log_user_id := user_id_opt st;
                  log_action := "excuse_absence";
                  log_entity_type := "attendance";
                  log_entity_id := att_id row;
                  log_old_values := Some (StatusOnly absent);
                  log_new_values := Some (StatusAndReason excused excuseReason) |} ])%list;
             notifications := notifications w;
             toasts := toasts w |}
    end.

(** The row found by the conflict target of an upsert body. *)
Definition key_of (d : AttendanceData) (rows : list AttendanceRow)
  : option AttendanceRow :=
  find (same_key d) rows.

(** The caller may mark attendance: signed in, and not a parent. *)
Definition may_mark (st : Page) : Prop :=
  exists u, user st = Some u /\ user_role u <> parent.

End Attendance.

(** A class, a teacher and an empty store, for the examples. *)

Module AttendanceSamples.
Import Types Attendance.

Definition manila : Env :=
  {| getCurrentTime := "08:20";
     nowISOString := "2024-06-10T00:20:00.000Z";
     midnight2000 := 946656000000;
     upsert_error := None |}.

Definition teacher1 : User := {| user_id := "t-1"; user_role := teacher |}.

Definition math : Subject :=
  {| subject_id_of := "math-1"; subject_name := "Mathematics";
     start_time := Some "08:00:00" |}.

Definition ana : Pupil :=
  {| pupil_row_id := "p-1"; first_name := "Ana"; last_name := "Cruz";
     parent_id := Some "par-1" |}.

Definition page1 : Page :=
  {| user := Some teacher1; pupils := [ana]; subjects := [math];
     selectedSubject := "math-1"; selectedDate := "2024-06-10" |}.

Definition nothing : World :=
  {| attendance := []; next_id := 1%nat; audit_logs := [];
     notifications := []; toasts := [] |}.

End AttendanceSamples.

(** ** pages/Users.tsx, Users page: [handleApproveRegistration]

    The handler drives three remote parties: the stored procedures
    [approve_user_registration] and [create_user_profile_after_auth], the
    identity provider ([supabase.auth.signUp]) and the [user_registrations]
    table.  The identity provider and the profile procedure are fallible:
    what they answer during a call is part of [Env]. *)

Module Registration.
Import Js Types.

Inductive RegistrationStatus := pending | under_review | approved | rejected.

Record RegistrationData := {
  email : string;
  password : string;
  full_name : string;
  role : UserRole;
  phone_number : option string;
  address : option string;
  profile_picture : option string
}.

Record UserRegistration := {
  registration_id : string;
  status : RegistrationStatus;
  registration_data : RegistrationData
}.

(** A row of [users]: an Account. *)
Record Account := {
  account_id : string;
  account_email : string;
  account_full_name : string;
  account_role : UserRole;
  account_phone : option string;
  account_address : option string;
  account_picture : option string
}.

(** A credential held by the identity provider. *)
Record Credential := {
  credential_id : string;
  credential_email : string;
  credential_password : string
}.

Inductive Shown :=
| ToastSuccess (msg : string)
| ToastError (msg : string)
| AlertRegistrationApproved (full_name email : string)
| AlertUserApproved (full_name email : string)
| AlertApproved.

Record World := {
  user_registrations : list UserRegistration;
  users : list Account;
  credentials : list Credential;
  signUp_calls : list (string * string);
  shown : list Shown
}.

(** Answer of [supabase.auth.signUp]: an error, no error and no user, or
    the new user with its id. *)
Inductive SignUpAnswer :=
| SignUpError (message : string)
| SignUpNoUser
| SignUpUser (id : string).

(** Answer of [create_user_profile_after_auth]: a transport error, a
    refusal ([success] false, with or without text), or the row created. *)
Inductive ProfileAnswer :=
| ProfileError (message : string)
| ProfileRefused (error : option string)
| ProfileCreated.

Record Env := {
  getUser : option string;
  approve_rpc_error : option string;
  signUp_answer : SignUpAnswer;
  (** The error with which the store answers the update that puts the
      registration back to [pending]; the handler does not read it. *)
  revert_error : option string;
  profile_answer : ProfileAnswer
}.

Record ApproveResult := {
  success : bool;
  error : option string;
  approved_data : option RegistrationData;
  already_exists : bool
}.

Definition terminal (s : RegistrationStatus) : bool :=
  match s with
  | approved | rejected => true
  | pending | under_review => false
  end.

Definition find_registration (id : string) (rs : list UserRegistration)
  : option UserRegistration :=
  find (fun r => String.eqb (registration_id r) id) rs.

Definition account_exists (mail : string) (accounts : list Account) : bool :=
  existsb (fun a => String.eqb (account_email a) mail) accounts.

(** [.update({ status: s }).eq('id', id)] on [user_registrations]. *)
Definition set_status (id : string) (s : RegistrationStatus)
    (rs : list UserRegistration) : list UserRegistration :=
  map (fun r =>
         if String.eqb (registration_id r) id
         then {| registration_id := registration_id r; status := s;
                 registration_data := registration_data r |}
         else r) rs.

Definition with_registrations (rs : list UserRegistration) (w : World) : World :=
  {| user_registrations := rs; users := users w;
     credentials := credentials w; signUp_calls := signUp_calls w;
     shown := shown w |}.

Definition show (items : list Shown) (w : World) : World :=
  {| user_registrations := user_registrations w; users := users w;
     credentials := credentials w; signUp_calls := signUp_calls w;
     shown := (shown w ++ items)%list |}.

(** Modelled from the spec: the stored procedure
    [approve_user_registration], which is not part of the TypeScript
    sources.  It checks and moves the registration to [approved] in one
    step and hands back the registration data: an unknown id and a status
    that is already terminal are refused, and [already_exists] tells
    whether an Account holds the registration's email.  The two refusal
    texts carry the words the handler looks for. *)
Definition approve_user_registration (id admin_user_id : string) (w : World)
  : ApproveResult * World :=
  match find_registration id (user_registrations w) with
  | None =>
      ({| success := false; error := Some "Registration does not exist";
          approved_data := None; already_exists := false |}, w)
  | Some r =>
      if terminal (status r) then
        ({| success := false; error := Some "Registration already processed";
            approved_data := None; already_exists := false |}, w)
      else
        ({| success := true; error := None;
            approved_data := Some (registration_data r);
            already_exists :=
              account_exists (email (registration_data r)) (users w) |},
         with_registrations (set_status id approved (user_registrations w)) w)
  end.

(** Modelled from the spec: the stored procedure
    [create_user_profile_after_auth] creates the Account row keyed to the
    new identity id. *)
Definition create_user_profile_after_auth (auth_user_id : string)
    (d : RegistrationData) (w : World) : World :=
  {| user_registrations := user_registrations w;
     users := (users w ++ [
       {| account_id := auth_user_id;
          account_email := email d;
          account_full_name := full_name d;
          account_role := role d;
          account_phone := phone_number d;
          account_address := address d;
          account_picture := profile_picture d |} ])%list;
     credentials := credentials w; signUp_calls := signUp_calls w;
     shown := shown w |}.

(** The identity provider receives a sign-up request and, when it answers
    with a user, holds a credential for it. *)
Definition signUp (env : Env) (d : RegistrationData) (w : World)
  : SignUpAnswer * World :=
  let asked := (signUp_calls w ++ [(email d, password d)])%list in
  (signUp_answer env,
   {| user_registrations := user_registrations w; users := users w;
      credentials :=
        match signUp_answer env with
        | SignUpUser id =>
            (credentials w ++ [
               {| credential_id := id; credential_email := email d;
                  credential_password := password d |} ])%list
        | _ => credentials w
        end;
      signUp_calls := asked;
      shown := shown w |}).

(** How the [try] block ends: by falling through or returning, or by a
    thrown error with its message. *)
Inductive Completion := Normal | Thrown (message : string).

Definition approved_toast : Shown :=
  ToastSuccess "Registration approved! Please check email for confirmation.".

(** [s || fallback] on an optional text. *)
Definition text_or (s : option string) (fallback : string) : string :=
  match s with
  | Some t => if String.eqb t "" then fallback else t
  | None => fallback
  end.

(** The update sent after a sign-up error, [.update({ status: 'pending' })
    .eq('id', id)]: the table afterwards.  A refused update changes
    nothing, and the handler goes on all the same. *)
Definition revert_to_pending (env : Env) (registrationId : string) (w : World)
  : World :=
  match revert_error env with
  | Some _ => w
  | None =>
      with_registrations
        (set_status registrationId pending (user_registrations w)) w
  end.

(** The [try] block, after the signed-in check.  The call of
    [debug_registration_status] only writes to the console and is left out.
    Reading a field of registration data that the procedure did not send is
    a TypeError. *)
Definition approve_try (env : Env) (admin_id registrationId : string)
    (w : World) : Completion * World :=
  match approve_rpc_error env with
  | Some msg => (Thrown msg, w)
  | None =>
      let '(data, w1) := approve_user_registration registrationId admin_id w in
      if negb (success data) then
        (Thrown (text_or (error data) "Failed to approve registration"), w1)
      else
        match approved_data data with
        | None => (Thrown "Cannot read properties of undefined", w1)
        | Some regData =>
            if already_exists data then
              (Normal,
               show [approved_toast;
                     AlertRegistrationApproved (full_name regData) (email regData)] w1)
            else
              let '(answer, w2) := signUp env regData w1 in
              match answer with
              | SignUpError msg =>
                  (Thrown ("Failed to create user account: " ++ msg),
                   revert_to_pending env registrationId w2)
              | SignUpNoUser => (Thrown "Failed to create user account", w2)
              | SignUpUser id =>
                  match profile_answer env with
                  | ProfileError msg =>
                      (Thrown ("Failed to create user profile: " ++ msg), w2)
                  | ProfileRefused err =>
                      (Thrown (text_or err "Failed to create user profile"), w2)
                  | ProfileCreated =>
                      (Normal,
                       show [approved_toast;
                             AlertUserApproved (full_name regData) (email regData)]
                         (create_user_profile_after_auth id regData w2))
                  end
              end
        end
  end.

(** The [catch] block: what is shown for a thrown message. *)
Definition approve_catch (message : string) : list Shown :=
  if includes "already processed" message then
    [ToastError "This registration has already been processed. Please refresh the page."]
  else if includes "does not exist" message then
    [ToastError "Registration not found. Please refresh the page."]
  else if includes "duplicate key" message || includes "already exists" message then
    [approved_toast; AlertApproved]
  else
    [ToastError (text_or (Some message) "Failed to approve registration")].

Definition handleApproveRegistration (env : Env) (registrationId : string)
    (w : World) : World :=
  match getUser env with
  | None => show [ToastError "You must be logged in to approve registrations"] w
  | Some admin_id =>
      match approve_try env admin_id registrationId w with
      | (Normal, w') => w'
      | (Thrown message, w') => show (approve_catch message) w'
      end
  end.

(** What one call reports: an approval, or an error toast. *)
Definition reports_success (before after : World) : bool :=
  existsb (fun s => match s with ToastSuccess _ => true | _ => false end)
    (skipn (List.length (shown before)) (shown after)).

Definition reports_error (before after : World) : bool :=
  existsb (fun s => match s with ToastError _ => true | _ => false end)
    (skipn (List.length (shown before)) (shown after)).

Definition accounts_for (mail : string) (accounts : list Account) : nat :=
  List.length (filter (fun a => String.eqb (account_email a) mail) accounts).

Definition status_of (id : string) (w : World) : option RegistrationStatus :=
  option_map status (find_registration id (user_registrations w)).

End Registration.

Module RegistrationSamples.
Import Types Registration.

Definition maria : RegistrationData :=
  {| email := "maria@example.com"; password := "s3cret-pw";
     full_name := "Maria Santos"; role := teacher;
     phone_number := None; address := None; profile_picture := None |}.

Definition request : UserRegistration :=
  {| registration_id := "reg-1"; status := pending;
     registration_data := maria |}.

Definition maria_account : Account :=
  {| account_id := "auth-9"; account_email := "maria@example.com";
     account_full_name := "Maria Santos"; account_role := teacher;
     account_phone := None; account_address := None;
     account_picture := None |}.

(** One pending registration and no Account. *)
Definition fresh : World :=
  {| user_registrations := [request]; users := []; credentials := [];
     signUp_calls := []; shown := [] |}.

(** The same registration when an Account already holds its email. *)
Definition known : World :=
  {| user_registrations := [request]; users := [maria_account];
     credentials := []; signUp_calls := []; shown := [] |}.

Definition provider (a : SignUpAnswer) : Env :=
  {| getUser := Some "admin-1"; approve_rpc_error := None;
     signUp_answer := a; revert_error := None;
     profile_answer := ProfileCreated |}.

(** The same, with a store that refuses the update back to [pending]. *)
Definition provider_no_revert (a : SignUpAnswer) : Env :=
  {| getUser := Some "admin-1"; approve_rpc_error := None;
     signUp_answer := a;
     revert_error := Some "permission denied for table user_registrations";
     profile_answer := ProfileCreated |}.

End RegistrationSamples.

(** ** JavaScript numbers

    A number of JavaScript is an IEEE 754 binary64 value: [spec_float] at
    precision 53 and maximal exponent 1024, every operation rounding its
    exact result to the nearest value, ties to even. *)

Module Double.

Definition double : Set := spec_float.

Definition prec : Z := 53.
Definition emax : Z := 1024.

Definition add : double -> double -> double := SFadd prec emax.
Definition mul : double -> double -> double := SFmul prec emax.
Definition div : double -> double -> double := SFdiv prec emax.

(** The number of a whole number: the nearest one. *)
Definition of_Z (n : Z) : double := binary_normalize prec emax n 0 false.

(** The number that the client reads for a decimal of the store: the
    nearest one to the rational. *)
Definition of_Qc (q : Qc) : double :=
  match Qnum q with
  | Z0 => S754_zero false
  | Zpos n => div (S754_finite false n 0) (S754_finite false (Qden q) 0)
  | Zneg n => div (S754_finite true n 0) (S754_finite false (Qden q) 0)
  end.

(** [x > y]: false when either is [NaN]. *)
Definition gt (x y : double) : bool :=
  match SFcompare x y with Some Gt => true | _ => false end.

(** A number used as a condition: false for the zeros and for [NaN]. *)
Definition truthy (x : double) : bool :=
  match x with
  | S754_zero _ | S754_nan => false
  | _ => true
  end.

(** The whole number [floor (x + 1/2)] of a finite number, on its exact
    value. *)
Definition nearest_integer (s : bool) (m : positive) (e : Z) : Z :=
  let n := if s then Z.neg m else Z.pos m in
  if 0 <=? e then n * 2 ^ e
  else (2 * n + 2 ^ (- e)) / 2 ^ (1 - e).

(** [Math.round]: the nearest whole number, a tie going up; a result of
    zero keeps the sign of the argument; [NaN] and the infinities are
    returned as they are. *)
Definition round (x : double) : double :=
  match x with
  | S754_finite s m e =>
      let r := nearest_integer s m e in
      if r =? 0 then S754_zero s else of_Z r
  | _ => x
  end.

End Double.

(** ** The Grades page: records, [saveClassGrades] *)

Module Grades.
Import Js Types.

(** *** Numbers

    The grades of the store and of the grade fields are decimals, held as
    exact rationals. *)

Definition num (n : Z) : Qc := Q2Qc (inject_Z n).

(** [Math.round(x * 100) / 100] on the exact value, [Math.round] being
    the floor of [x + 0.5]. *)
Definition round2 (x : Qc) : Qc :=
  Q2Qc (inject_Z (Qfloor (x * num 100 + Q2Qc (1 # 2))%Qc) / inject_Z 100)%Q.

Definition gt (x y : Qc) : bool :=
  match (x ?= y)%Qc with Gt => true | _ => false end.

Definition le (x y : Qc) : bool := negb (gt x y).

(** [values.reduce((sum, v) => sum + v, 0)]. *)
Definition sum (values : list Qc) : Qc :=
  fold_left Qcplus values (num 0).

Definition count {A} (l : list A) : Qc := num (Z.of_nat (List.length l)).

Fixpoint digits_prefix (s : string) (acc : option Z) : option Z :=
  match s with
  | String c rest =>
      match digit_of_ascii c with
      | Some d =>
          digits_prefix rest
            (Some (10 * match acc with Some a => a | None => 0 end + d))
      | None => acc
      end
  | EmptyString => acc
  end.

(** [parseInt(s)] on decimal text: leading white space, a sign, then the
    longest run of digits; [None] is [NaN].  The quarter selector offers
    the texts 1 to 4. *)
Definition parseInt (s : string) : option Z :=
  match trimStart s with
  | String c rest =>
      if Ascii.eqb c "-"%char then option_map Z.opp (digits_prefix rest None)
      else if Ascii.eqb c "+"%char then digits_prefix rest None
      else digits_prefix (String c rest) None
  | EmptyString => None
  end.

(** *** Rows and page state *)

Record User := { user_id : string; user_role : UserRole }.

Record Pupil := {
  pupil_row_id : string;
  first_name : string;
  last_name : string;
  middle_name : option string
}.

Record GradeRecord := {
  grade_id : nat;
  pupil_id : string;
  subject_id : string;
  quarter : Z;
  final_grade : Qc;
  teacher_id : option string;
  updated_at : string
}.

Record GradeData := {
  d_pupil_id : string;
  d_subject_id : string;
  d_quarter : Z;
  d_final_grade : Qc;
  d_teacher_id : option string;
  d_updated_at : string
}.

Inductive AuditValues :=
| FinalGrade (final_grade : Qc)
| GradeValues (d : GradeData).

Record AuditLog := {
  log_user_id : option string;
  log_action : string;
  log_entity_type : string;
  log_entity_id : nat;
  log_old_values : option AuditValues;
  log_new_values : option AuditValues
}.

Inductive Toast := ToastSuccess (msg : string) | ToastError (msg : string).

Record World := {
  grades : list GradeRecord;
  next_id : nat;
  audit_logs : list AuditLog;
  toasts : list Toast
}.

(** A row of the averages table of the page: JavaScript numbers, or
    [null]. *)
Record ClassAverages := {
  avg_pupil_id : string;
  pupil_name : string;
  q1_avg : option Double.double;
  q2_avg : option Double.double;
  q3_avg : option Double.double;
  q4_avg : option Double.double;
  final_avg : option Double.double
}.

(** State of the Grades component; [classGrades] is the object of entered
    grades, as its entries in insertion order. *)
Record Page := {
  user : option User;
  pupils : list Pupil;
  selectedSubject : string;
  selectedQuarter : string;
  classGrades : list (string * Qc);
  classAverages : list ClassAverages
}.

Definition user_id_opt (st : Page) : option string :=
  option_map user_id (user st).

(** *** The declared entry constraint

    [gradeSchema]: [final_grade: z.number().min(60).max(100, ...)]. *)
Definition gradeSchema (final_grade : Qc) : bool :=
  le (num 60) final_grade && le final_grade (num 100).

(** *** The quarterly average on exact values

    The grades of one pupil in one quarter, over all subjects. *)
Definition pupilGrades (rows : list GradeRecord) (pupilId : string)
    (q : Z) : list Qc :=
  map final_grade
    (filter (fun g => String.eqb (pupil_id g) pupilId && (quarter g =? q))
       rows).

Definition quarterAverage (rows : list GradeRecord) (pupilId : string)
    (q : Z) : option Qc :=
  let pupilGrades := pupilGrades rows pupilId q in
  if (0 <? List.length pupilGrades)%nat then
    let avg := (sum pupilGrades / count pupilGrades)%Qc in
    Some (round2 avg)
  else None.

(** *** Saving *)

Definition toast (t : Toast) (w : World) : World :=
  {| grades := grades w; next_id := next_id w;
     audit_logs := audit_logs w; toasts := (toasts w ++ [t])%list |}.

Definition same_key (pupilId subjectId : string) (q : Z) (g : GradeRecord)
  : bool :=
  String.eqb (pupil_id g) pupilId && String.eqb (subject_id g) subjectId
  && (quarter g =? q).

(** [.single()]: the row when exactly one matches; otherwise the error
    PGRST116 and no data. *)
Definition single {A} (rows : list A) : option A :=
  match rows with
  | [r] => Some r
  | _ => None
  end.

(** A stored row after [.update(gradeData)]: a column whose value is
    [undefined] is not sent and keeps its stored value. *)
Definition updated (d : GradeData) (g : GradeRecord) : GradeRecord :=
  {| grade_id := grade_id g;
     pupil_id := d_pupil_id d;
     subject_id := d_subject_id d;
     quarter := d_quarter d;
     final_grade := d_final_grade d;
     teacher_id :=
       match d_teacher_id d with
       | Some t => Some t
       | None => teacher_id g
       end;
     updated_at := d_updated_at d |}.

(** [.update(gradeData).eq('id', id)]. *)
Definition update_by_id (id : nat) (d : GradeData) (rows : list GradeRecord)
  : list GradeRecord :=
  map (fun g => if Nat.eqb (grade_id g) id then updated d g else g) rows.

Definition inserted (id : nat) (d : GradeData) : GradeRecord :=
  {| grade_id := id;
     pupil_id := d_pupil_id d;
     subject_id := d_subject_id d;
     quarter := d_quarter d;
     final_grade := d_final_grade d;
     teacher_id := d_teacher_id d;
     updated_at := d_updated_at d |}.

(** The body sent for one pupil. *)
Definition gradeData (nowISOString : string) (st : Page) (q : Z)
    (pupilId : string) (finalGrade : Qc) : GradeData :=
  {| d_pupil_id := pupilId;
     d_subject_id := selectedSubject st;
     d_quarter := q;
     d_final_grade := finalGrade;
     d_teacher_id := user_id_opt st;
     d_updated_at := nowISOString |}.

(** One turn of the loop of [saveClassGrades]: the grade of one pupil. *)
Definition saveGrade (nowISOString : string) (st : Page) (q : Z)
    (entry : string * Qc) (w : World) : World :=
  let '(pupilId, finalGrade) := entry in
  let gradeData := gradeData nowISOString st q pupilId finalGrade in
  let existingGrade :=
    single (filter (same_key pupilId (selectedSubject st) q) (grades w)) in
  match existingGrade with
  | Some existing =>
      {| grades := update_by_id (grade_id existing) gradeData (grades w);
         next_id := next_id w;
         audit_logs := (audit_logs w ++ [
           {| log_user_id := user_id_opt st;
              log_action := "update_grade";
              log_entity_type := "grades";
              log_entity_id := grade_id existing;
              log_old_values := Some (FinalGrade (final_grade existing));
              log_new_values := Some (FinalGrade finalGrade) |} ])%list;
         toasts := toasts w |}
  | None =>
      let newGrade := inserted (next_id w) gradeData in
      {| grades := (grades w ++ [newGrade])%list;
         next_id := S (next_id w);
         audit_logs := (audit_logs w ++ [
           {| log_user_id := user_id_opt st;
              log_action := "create_grade";
              log_entity_type := "grades";
              log_entity_id := grade_id newGrade;
              log_old_values := None;
              log_new_values := Some (GradeValues gradeData) |} ])%list;
         toasts := toasts w |}
  end.

(** [Object.entries(classGrades).filter(([_, grade]) => grade > 0)]. *)
Definition gradesToSave (st : Page) : list (string * Qc) :=
  filter (fun entry => gt (snd entry) (num 0)) (classGrades st).

(** The loop over the grades to save. *)
Definition saveAll (nowISOString : string) (st : Page) (q : Z)
    (entries : list (string * Qc)) (w : World) : World :=
  fold_left (fun w entry => saveGrade nowISOString st q entry w) entries w.

(** The whole handler.  The grades table answers every well-formed
    request; a quarter that is not a number is refused by the first query,
    the column being an integer. *)
Definition saveClassGrades (nowISOString : string) (st : Page) (w : World)
  : World :=
  if String.eqb (selectedSubject st) "" || String.eqb (selectedQuarter st) ""
  then toast (ToastError "Please select subject and quarter") w
  else
    match gradesToSave st, parseInt (selectedQuarter st) with
    | [], _ => toast (ToastSuccess "Class grades saved successfully") w
    | _ :: _, None =>
        toast (ToastError "invalid input syntax for type integer: NaN") w
    | entries, Some q =>
        toast (ToastSuccess "Class grades saved successfully")
          (saveAll nowISOString st q entries w)
    end.

(** [handleGradeChange]: [{ ...prev, [pupilId]: grade }]. *)
Fixpoint handleGradeChange (pupilId : string) (grade : Qc)
    (prev : list (string * Qc)) : list (string * Qc) :=
  match prev with
  | [] => [(pupilId, grade)]
  | (k, v) :: rest =>
      if String.eqb k pupilId then (k, grade) :: rest
      else (k, v) :: handleGradeChange pupilId grade rest
  end.

(** The records of a (pupil, subject, quarter) key. *)
Definition records_of (w : World) (pupilId subjectId : string) (q : Z)
  : list GradeRecord :=
  filter (same_key pupilId subjectId q) (grades w).

(** Ids are given out by a counter: every stored id is below it, and no
    two rows share an id. *)
Definition fresh_ids (w : World) : Prop :=
  Forall (fun g => (grade_id g < next_id w)%nat) (grades w).

Definition ids_ok (w : World) : Prop :=
  fresh_ids w /\ NoDup (map grade_id (grades w)).

(** [e] is the audit entry that a call wrote for pupil [p]: the entries
    [logs] written by the call are one per saved grade, in the order of the
    grades, and [e] stands where the grade of [p] stands. *)
Definition entry_for (entries : list (string * Qc)) (p : string)
    (logs : list AuditLog) (e : AuditLog) : Prop :=
  exists before v after lb la,
    entries = (before ++ (p, v) :: after)%list /\
    logs = (lb ++ e :: la)%list /\
    List.length lb = List.length before /\
    List.length la = List.length after.

End Grades.

(** ** The Grades page: [calculateClassAverages], on JavaScript numbers *)

Module Averages.
Import Js Types Double.

(** [g.final_grade] as the page holds it. *)
Definition number (g : Grades.GradeRecord) : double :=
  of_Qc (Grades.final_grade g).

(** [values.reduce((sum, v) => sum + v, 0)]. *)
Definition sum (values : list double) : double :=
  fold_left add values (of_Z 0).

(** [l.length] as a number. *)
Definition count {A} (l : list A) : double := of_Z (Z.of_nat (List.length l)).

(** [Math.round(x * 100) / 100]. *)
Definition round2 (x : double) : double :=
  div (round (mul x (of_Z 100))) (of_Z 100).

(** The rows of [.select('final_grade').eq('pupil_id', id).eq('quarter',
    q)], as numbers. *)
Definition pupilGrades (rows : list Grades.GradeRecord) (pupilId : string)
    (q : Z) : list double :=
  map number
    (filter (fun g => String.eqb (Grades.pupil_id g) pupilId
                      && (Grades.quarter g =? q)) rows).

Definition quarterAverage (rows : list Grades.GradeRecord) (pupilId : string)
    (q : Z) : option double :=
  let pupilGrades := pupilGrades rows pupilId q in
  if (0 <? List.length pupilGrades)%nat then
    let avg := div (sum pupilGrades) (count pupilGrades) in
    Some (round2 avg)
  else None.

(** [Object.values(quarterAverages).filter(avg => avg !== null)]. *)
Fixpoint validQuarters (quarterAverages : list (Z * option double))
  : list double :=
  match quarterAverages with
  | [] => []
  | (_, Some avg) :: rest => avg :: validQuarters rest
  | (_, None) :: rest => validQuarters rest
  end.

Definition lookup_quarter (quarterAverages : list (Z * option double)) (q : Z)
  : option double :=
  match find (fun e => fst e =? q) quarterAverages with
  | Some (_, avg) => avg
  | None => None
  end.

(** [charAt(0) + '.'], empty for a missing or empty middle name. *)
Definition middle_initial (middle_name : option string) : string :=
  match middle_name with
  | Some name =>
      match chars name with
      | first :: _ => first ++ "."
      | [] => ""
      end
  | None => ""
  end.

Definition pupilAverages (rows : list Grades.GradeRecord) (pupil : Grades.Pupil)
  : Grades.ClassAverages :=
  let quarters := [1; 2; 3; 4] in
  let quarterAverages :=
    map (fun q => (q, quarterAverage rows (Grades.pupil_row_id pupil) q))
      quarters in
  let validQuarters := validQuarters quarterAverages in
  let finalAvg :=
    if (0 <? List.length validQuarters)%nat
    then Some (div (sum validQuarters) (count validQuarters))
    else None in
  {| Grades.avg_pupil_id := Grades.pupil_row_id pupil;
     Grades.pupil_name :=
       trim (Grades.last_name pupil ++ ", " ++ Grades.first_name pupil ++ " "
             ++ middle_initial (Grades.middle_name pupil));
     Grades.q1_avg := lookup_quarter quarterAverages 1;
     Grades.q2_avg := lookup_quarter quarterAverages 2;
     Grades.q3_avg := lookup_quarter quarterAverages 3;
     Grades.q4_avg := lookup_quarter quarterAverages 4;
     Grades.final_avg :=
       match finalAvg with
       | Some avg => if truthy avg then Some (round2 avg) else None
       | None => None
       end |}.

(** The [classAverages] state after [calculateClassAverages]: untouched
    when the page has no pupils. *)
Definition calculateClassAverages (st : Grades.Page) (w : Grades.World)
  : list Grades.ClassAverages :=
  match Grades.pupils st with
  | [] => Grades.classAverages st
  | _ => map (pupilAverages (Grades.grades w)) (Grades.pupils st)
  end.

(** The quarterly averages that are not null, first quarter first. *)
Definition graded_quarters (a : Grades.ClassAverages) : list double :=
  flat_map (fun avg => match avg with Some x => [x] | None => [] end)
    [Grades.q1_avg a; Grades.q2_avg a; Grades.q3_avg a; Grades.q4_avg a].

(** The number written with the digits of [n] over [d], as [75.16] is
    with 7516 over 100. *)
Definition decimal (n : Z) (d : positive) : double := of_Qc (Q2Qc (n # d)).

End Averages.

Module GradesSamples.
Import Types Grades.

Definition teacher1 : User := {| user_id := "t-1"; user_role := teacher |}.

Definition ana : Pupil :=
  {| pupil_row_id := "p-1"; first_name := "Ana"; last_name := "Cruz";
     middle_name := Some "Reyes" |}.

Definition entry (grade : Qc) : Page :=
  {| user := Some teacher1; pupils := [ana];
     selectedSubject := "math-1"; selectedQuarter := "1";
     classGrades := [("p-1", grade)]; classAverages := [] |}.

(** The class sheet with a grade for Ana between two classmates. *)
Definition sheet (grade : Qc) : Page :=
  {| user := Some teacher1; pupils := [ana];
     selectedSubject := "math-1"; selectedQuarter := "1";
     classGrades := [("p-0", num 88); ("p-1", grade); ("p-2", num 75)];
     classAverages := [] |}.

Definition nothing : World :=
  {| grades := []; next_id := 1%nat; audit_logs := []; toasts := [] |}.

Definition graded (id : nat) (subject : string) (q grade : Z) : GradeRecord :=
  {| grade_id := id; pupil_id := "p-1"; subject_id := subject;
     quarter := q; final_grade := num grade; teacher_id := Some "t-1";
     updated_at := "2024-06-10T00:20:00.000Z" |}.

Definition with_grades (rows : list GradeRecord) : World :=
  {| grades := rows; next_id := S (List.length rows); audit_logs := [];
     toasts := [] |}.

End GradesSamples.

(** ** The Pupils page: [handlePromotePupils]; Layout.tsx: [promoteStudent]

    The [pupils] table takes one statement at a time.  A statement that names
    an id the store cannot take (a text that is not an id of the column's
    type, for one) is refused as a whole, with an error and no row changed;
    an id that matches no row is not an error. *)

Module Pupils.
Import Js Types.

Record PupilRow := {
  pupil_row_id : string;
  grade_level : Z;
  section : string;
  archived : bool;
  updated_at : string
}.

Inductive AuditValues :=
| GradeLevel (grade_level : option Z)
| GradeLevelSection (grade_level : option Z) (section : string).

Record AuditLog := {
  log_user_id : string;
  log_action : string;
  log_entity_type : string;
  log_entity_id : string;
  log_old_values : option AuditValues;
  log_new_values : option AuditValues
}.

Inductive Toast := ToastSuccess (msg : string) | ToastError (msg : string).

Record World := {
  pupils : list PupilRow;
  audit_logs : list AuditLog;
  toasts : list Toast
}.

(** Promotion state of the Pupils component; the selection is the Set of
    ids, as [Array.from] lists it. *)
Record Page := {
  promotionFromGrade : option Z;
  promotionToGrade : option Z;
  promotionToSection : string;
  selectedPupilsForPromotion : list string
}.

Record Env := {
  nowISOString : string;
  (** The error with which the store refuses a statement naming this id. *)
  refuses : string -> option string
}.

Definition toast (t : Toast) (w : World) : World :=
  {| pupils := pupils w; audit_logs := audit_logs w;
     toasts := (toasts w ++ [t])%list |}.

Definition message_or (msg fallback : string) : string :=
  if String.eqb msg "" then fallback else msg.

Definition show_number (n : Z) : string :=
  NilZero.string_of_int (Z.to_int n).

Fixpoint first_refusal (env : Env) (ids : list string) : option string :=
  match ids with
  | [] => None
  | id :: rest =>
      match refuses env id with
      | Some msg => Some msg
      | None => first_refusal env rest
      end
  end.

Definition selected (ids : list string) (p : PupilRow) : bool :=
  existsb (String.eqb (pupil_row_id p)) ids.

(** [.update(change).in('id', ids)]: the error, or the table afterwards. *)
Definition update_in (env : Env) (ids : list string)
    (change : PupilRow -> PupilRow) (rows : list PupilRow)
  : string + list PupilRow :=
  match first_refusal env ids with
  | Some msg => inl msg
  | None => inr (map (fun p => if selected ids p then change p else p) rows)
  end.

Definition promoted (toGrade : Z) (toSection now : string) (p : PupilRow)
  : PupilRow :=
  {| pupil_row_id := pupil_row_id p;
     grade_level := toGrade;
     section := toSection;
     archived := archived p;
     updated_at := now |}.

Definition graduated (now : string) (p : PupilRow) : PupilRow :=
  {| pupil_row_id := pupil_row_id p;
     grade_level := grade_level p;
     section := section p;
     archived := true;
     updated_at := now |}.

Definition promotion_entry (st : Page) (pupilId : string) : AuditLog :=
  {| log_user_id := "current_user_id";
     log_action := "promote_pupil";
     log_entity_type := "pupils";
     log_entity_id := pupilId;
     log_old_values := Some (GradeLevel (promotionFromGrade st));
     log_new_values :=
       Some (GradeLevelSection (promotionToGrade st) (promotionToSection st)) |}.

Definition handlePromotePupils (env : Env) (st : Page) (w : World) : World :=
  match promotionToGrade st with
  | Some toGrade =>
      if (toGrade =? 0) || String.eqb (promotionToSection st) ""
         || (List.length (selectedPupilsForPromotion st) =? 0)%nat
      then toast (ToastError
                    "Please select destination grade, section, and pupils to promote") w
      else
        let selectedPupilIds := selectedPupilsForPromotion st in
        match update_in env selectedPupilIds
                (promoted toGrade (promotionToSection st) (nowISOString env))
                (pupils w) with
        | inl msg => toast (ToastError (message_or msg "Failed to promote pupils")) w
        | inr rows =>
            toast (ToastSuccess
                     ("Successfully promoted "
                      ++ show_number (Z.of_nat (List.length selectedPupilIds))
                      ++ " pupils to Grade " ++ show_number toGrade ++ " - "
                      ++ promotionToSection st))
              {| pupils := rows;
                 audit_logs :=
                   (audit_logs w ++ map (promotion_entry st) selectedPupilIds)%list;
                 toasts := toasts w |}
        end
  | None =>
      toast (ToastError
               "Please select destination grade, section, and pupils to promote") w
  end.

(** [promoteStudent]: one pupil; 7 as destination is graduation.  The
    result of the update is not read, so a refused update is followed by the
    audit entry all the same, and the function answers [true]. *)
Definition promoteStudent (env : Env) (pupilId : string)
    (fromGrade toGrade : Z) (toSection promotedBy : string) (w : World)
  : bool * World :=
  let change :=
    if toGrade =? 7 then graduated (nowISOString env)
    else promoted toGrade toSection (nowISOString env) in
  let rows :=
    match update_in env [pupilId] change (pupils w) with
    | inl _ => pupils w
    | inr rows => rows
    end in
  (true,
   {| pupils := rows;
      audit_logs :=
        (audit_logs w ++ [
           {| log_user_id := promotedBy;
              log_action := if toGrade =? 7 then "graduate_pupil" else "promote_pupil";
              log_entity_type := "pupils";
              log_entity_id := pupilId;
              log_old_values := Some (GradeLevel (Some fromGrade));
              log_new_values := Some (GradeLevelSection (Some toGrade) toSection) |} ])%list;
      toasts := toasts w |}).

Definition find_pupil (id : string) (rows : list PupilRow) : option PupilRow :=
  find (fun p => String.eqb (pupil_row_id p) id) rows.

End Pupils.

Module PupilsSamples.
Import Pupils.

Definition third_grader (id : string) : PupilRow :=
  {| pupil_row_id := id; grade_level := 3; section := "Sampaguita";
     archived := false; updated_at := "2023-06-01T00:00:00.000Z" |}.

Definition class3 : World :=
  {| pupils := map third_grader ["p-1"; "p-2"; "p-3"; "p-4"; "p-5"];
     audit_logs := []; toasts := [] |}.

Definition to_grade4 (ids : list string) : Page :=
  {| promotionFromGrade := Some 3; promotionToGrade := Some 4;
     promotionToSection := "Rosal"; selectedPupilsForPromotion := ids |}.

(** A store that takes every id. *)
Definition lenient : Env :=
  {| nowISOString := "2024-06-10T00:20:00.000Z"; refuses := fun _ => None |}.

(** A store that refuses the id [not-an-id]. *)
Definition strict : Env :=
  {| nowISOString := "2024-06-10T00:20:00.000Z";
     refuses := fun id =>
       if String.eqb id "not-an-id"
       then Some "invalid input syntax for type uuid"
       else None |}.

End PupilsSamples.

(** ** Attendance page: what one write sends and the shape of the table *)

Module AttendanceTable.
Import Js Types Lateness Attendance.

(** The body [markAttendance] sends. *)
Definition markData (env : Env) (st : Page) (pupilId : string)
    (status : AttendanceStatus) (timeIn remarks : option string)
  : AttendanceData :=
  {| d_pupil_id := pupilId;
     d_subject_id := selectedSubject st;
     d_date := selectedDate st;
     d_time_in :=
       Some (if AttendanceStatus_eqb status present
                || AttendanceStatus_eqb status late
             then Some (observedTime env timeIn) else None);
     d_status := finalStatus env st status (observedTime env timeIn);
     d_remarks := remarks;
     d_excuse_reason := None;
     d_teacher_id := user_id_opt st;
     d_updated_at := nowISOString env |}.

(** The body [handleExcuseAbsence] sends. *)
Definition excuseData (env : Env) (st : Page) (pupilId excuseReason : string)
  : AttendanceData :=
  {| d_pupil_id := pupilId;
     d_subject_id := selectedSubject st;
     d_date := selectedDate st;
     d_time_in := None;
     d_status := excused;
     d_remarks := None;
     d_excuse_reason := Some excuseReason;
     d_teacher_id := user_id_opt st;
     d_updated_at := nowISOString env |}.

(** The columns of the unique constraint. *)
Definition row_key (r : AttendanceRow) : string * string * string :=
  (att_pupil_id r, att_subject_id r, att_date r).

Definition data_key (d : AttendanceData) : string * string * string :=
  (d_pupil_id d, d_subject_id d, d_date d).

(** The constraint itself: no two rows with the same pupil, subject and
    date. *)
Definition unique_keys (rows : list AttendanceRow) : Prop :=
  NoDup (map row_key rows).

(** The pupil of the page's list that [sendAbsenceNotification] looks up. *)
Definition find_page_pupil (st : Page) (pupilId : string) : option Pupil :=
  find (fun p => String.eqb (pupil_row_id p) pupilId) (pupils st).

End AttendanceTable.

(** ** components/common/Layout.tsx: the exported utilities

    Scores, grades and rates are exact rationals, as in [Grades]; counts are
    integers. *)

Module Layout.
Import Js Types Grades.

Module GRADE_BOUNDARIES.
Definition OUTSTANDING_min : Z := 90.
Definition OUTSTANDING_max : Z := 100.
Definition OUTSTANDING_label : string := "Outstanding".
Definition VERY_SATISFACTORY_min : Z := 85.
Definition VERY_SATISFACTORY_max : Z := 89.
Definition VERY_SATISFACTORY_label : string := "Very Satisfactory".
Definition SATISFACTORY_min : Z := 80.
Definition SATISFACTORY_max : Z := 84.
Definition SATISFACTORY_label : string := "Satisfactory".
Definition FAIRLY_SATISFACTORY_min : Z := 75.
Definition FAIRLY_SATISFACTORY_max : Z := 79.
Definition FAIRLY_SATISFACTORY_label : string := "Fairly Satisfactory".
Definition DID_NOT_MEET_min : Z := 0.
Definition DID_NOT_MEET_max : Z := 74.
Definition DID_NOT_MEET_label : string := "Did Not Meet Expectations".
End GRADE_BOUNDARIES.

(** [a >= b] on numbers. *)
Definition ge (a b : Qc) : bool := le b a.

(** [Math.round(x)]: the floor of [x + 0.5]. *)
Definition mathRound (x : Qc) : Z := Qfloor (x + Q2Qc (1 # 2))%Qc.

Definition getLetterGrade (score : Qc) : string :=
  if ge score (num GRADE_BOUNDARIES.OUTSTANDING_min) then "A"
  else if ge score (num GRADE_BOUNDARIES.VERY_SATISFACTORY_min) then "B"
  else if ge score (num GRADE_BOUNDARIES.SATISFACTORY_min) then "C"
  else if ge score (num GRADE_BOUNDARIES.FAIRLY_SATISFACTORY_min) then "D"
  else "F".

Definition getGradeDescription (score : Qc) : string :=
  if ge score (num GRADE_BOUNDARIES.OUTSTANDING_min)
  then GRADE_BOUNDARIES.OUTSTANDING_label
  else if ge score (num GRADE_BOUNDARIES.VERY_SATISFACTORY_min)
  then GRADE_BOUNDARIES.VERY_SATISFACTORY_label
  else if ge score (num GRADE_BOUNDARIES.SATISFACTORY_min)
  then GRADE_BOUNDARIES.SATISFACTORY_label
  else if ge score (num GRADE_BOUNDARIES.FAIRLY_SATISFACTORY_min)
  then GRADE_BOUNDARIES.FAIRLY_SATISFACTORY_label
  else GRADE_BOUNDARIES.DID_NOT_MEET_label.

Definition getGradeColor (score : Qc) : string :=
  if ge score (num GRADE_BOUNDARIES.OUTSTANDING_min) then "text-green-600"
  else if ge score (num GRADE_BOUNDARIES.VERY_SATISFACTORY_min) then "text-blue-600"
  else if ge score (num GRADE_BOUNDARIES.SATISFACTORY_min) then "text-yellow-600"
  else if ge score (num GRADE_BOUNDARIES.FAIRLY_SATISFACTORY_min) then "text-orange-600"
  else "text-red-600".

(** [calculatePupilQuarterlyAverage]: the grades of the pupil in the quarter,
    over all subjects; no rows, no average. *)
Definition calculatePupilQuarterlyAverage (rows : list GradeRecord)
    (pupilId : string) (q : Z) : option Qc :=
  let grades :=
    filter (fun g => String.eqb (pupil_id g) pupilId && (quarter g =? q)) rows in
  match grades with
  | [] => None
  | _ =>
      let average :=
        (fold_left (fun sum grade => sum + final_grade grade)%Qc grades (num 0)
         / count grades)%Qc in
      Some (Q2Qc (inject_Z (mathRound (average * num 100)%Qc) / inject_Z 100)%Q)
  end.

Definition calculateAttendanceRate (present late absent excused : Z) : Qc :=
  let total := present + late + absent + excused in
  if total =? 0 then num 0
  else
    let attended := present + late in
    Q2Qc (inject_Z (mathRound (num attended / num total * num 10000)%Qc)
          / inject_Z 100)%Q.

Record AttendanceStats := {
  stat_present : Z;
  stat_absent : Z;
  stat_late : Z;
  stat_excused : Z;
  stat_total : Z;
  stat_rate : Qc
}.

(** Dates are compared as the store compares them; on [yyyy-mm-dd] texts that
    is the order of the texts. *)
Definition date_leb (a b : string) : bool := String.leb a b.

Definition count_status (s : AttendanceStatus)
    (rows : list Attendance.AttendanceRow) : Z :=
  Z.of_nat (List.length
              (filter (fun a => AttendanceStatus_eqb (Attendance.att_status a) s)
                 rows)).

Definition calculatePupilAttendanceRate (table : list Attendance.AttendanceRow)
    (pupilId startDate endDate : string) : AttendanceStats :=
  let attendance :=
    filter (fun a => String.eqb (Attendance.att_pupil_id a) pupilId
                     && date_leb startDate (Attendance.att_date a)
                     && date_leb (Attendance.att_date a) endDate) table in
  let present := count_status Types.present attendance in
  let absent := count_status Types.absent attendance in
  let late := count_status Types.late attendance in
  let excused := count_status Types.excused attendance in
  {| stat_present := present;
     stat_absent := absent;
     stat_late := late;
     stat_excused := excused;
     stat_total := Z.of_nat (List.length attendance);
     stat_rate := calculateAttendanceRate present late absent excused |}.

(** [getCurrentSchoolYear], for a clock that reads [year] and the month
    [month] (1 to 12). *)
Definition getCurrentSchoolYear (year month : Z) : string :=
  if 6 <=? month
  then Pupils.show_number year ++ "-" ++ Pupils.show_number (year + 1)
  else Pupils.show_number (year - 1) ++ "-" ++ Pupils.show_number year.

Definition isValidGrade (grade : Qc) : bool :=
  ge grade (num 0) && le grade (num 100).

Definition permissions (userRole : UserRole) : list string :=
  match userRole with
  | admin => ["all"]
  | teacher =>
      ["view_pupils"; "edit_pupils_in_class"; "edit_grades"; "edit_attendance";
       "view_reports"; "export_class_data"; "mark_attendance"; "excuse_absence"]
  | parent =>
      ["view_own_children"; "view_child_grades"; "view_child_attendance";
       "view_notifications"]
  end.

(** [list.includes(s)]. *)
Definition list_includes (s : string) (l : list string) : bool :=
  existsb (String.eqb s) l.

Definition hasPermission (userRole : UserRole) (action : string) : bool :=
  if list_includes "all" (permissions userRole) then true
  else list_includes action (permissions userRole) || false.

End Layout.

(** ** The Grades page: labels *)

Module GradeLabels.
Import Grades Layout.

Definition getGradeColor (grade : Qc) : string :=
  if ge grade (num 90) then "text-green-600"
  else if ge grade (num 85) then "text-blue-600"
  else if ge grade (num 80) then "text-yellow-600"
  else if ge grade (num 75) then "text-orange-600"
  else "text-red-600".

Definition getGradeLabel (grade : Qc) : string :=
  if ge grade (num 90) then "Outstanding"
  else if ge grade (num 85) then "Very Satisfactory"
  else if ge grade (num 80) then "Satisfactory"
  else if ge grade (num 75) then "Fairly Satisfactory"
  else "Did Not Meet Expectations".

End GradeLabels.

(** ** Reading aids for the utilities *)

Module LayoutReading.
Import Js Types Grades Layout.

(** The bands, best first: letter, description and colour. *)
Definition bands : list (string * string * string) :=
  [("A", "Outstanding", "text-green-600");
   ("B", "Very Satisfactory", "text-blue-600");
   ("C", "Satisfactory", "text-yellow-600");
   ("D", "Fairly Satisfactory", "text-orange-600");
   ("F", "Did Not Meet Expectations", "text-red-600")].

(** Place of a letter among the bands, [F] lowest. *)
Definition letter_rank (letter : string) : nat :=
  if String.eqb letter "A" then 4
  else if String.eqb letter "B" then 3
  else if String.eqb letter "C" then 2
  else if String.eqb letter "D" then 1
  else 0.

End LayoutReading.

(** ** Layout.tsx: [saveClassGrades], the upsert of a list of grades

    The [grades] table has a unique constraint on (pupil_id, subject_id,
    quarter), the conflict target.  The store may refuse an upsert; the
    audit entry is written by [logAuditEvent], which never throws.  The
    [audit_logs] table takes every entry, and the clock reads one instant
    during a call. *)

Module ClassGradeSaving.
Import Js Types Grades.

Record GradeEntry := {
  pupilId : string;
  subjectId : string;
  quarterOf : Z;
  finalGrade : Qc
}.

Record AuditLog := {
  log_user_id : string;
  log_action : string;
  log_entity_type : string;
  log_entity_id : string;
  log_old_values : option GradeData;
  log_new_values : option GradeData;
  log_created_at : string
}.

Record World := {
  grades : list GradeRecord;
  next_id : nat;
  audit_logs : list AuditLog
}.

Record Env := {
  nowISOString : string;
  (** The error with which the store refuses the upsert of this body. *)
  refuses : GradeData -> option string
}.

Definition gradeData (env : Env) (grade : GradeEntry) (teacherId : string)
  : GradeData :=
  {| d_pupil_id := pupilId grade;
     d_subject_id := subjectId grade;
     d_quarter := quarterOf grade;
     d_final_grade := finalGrade grade;
     d_teacher_id := Some teacherId;
     d_updated_at := nowISOString env |}.

Definition conflicts (d : GradeData) (g : GradeRecord) : bool :=
  same_key (d_pupil_id d) (d_subject_id d) (d_quarter d) g.

Fixpoint update_conflicting (d : GradeData) (rows : list GradeRecord)
  : option (list GradeRecord) :=
  match rows with
  | [] => None
  | r :: rest =>
      if conflicts d r then Some (updated d r :: rest)
      else option_map (cons r) (update_conflicting d rest)
  end.

(** [.upsert(d, { onConflict: 'pupil_id,subject_id,quarter' })]. *)
Definition upsert (d : GradeData) (rows : list GradeRecord) (next : nat)
  : list GradeRecord * nat :=
  match update_conflicting d rows with
  | Some rows' => (rows', next)
  | None => ((rows ++ [inserted next d])%list, S next)
  end.

Definition logAuditEvent (env : Env) (userId action entityType entityId : string)
    (oldValues newValues : option GradeData) (logs : list AuditLog)
  : list AuditLog :=
  (logs ++ [ {| log_user_id := userId; log_action := action;
                log_entity_type := entityType; log_entity_id := entityId;
                log_old_values := oldValues; log_new_values := newValues;
                log_created_at := nowISOString env |} ])%list.

(** One turn of the loop whose upsert was accepted: the row is written and
    the audit entry follows. *)
Definition stored (env : Env) (grade : GradeEntry) (teacherId : string)
    (w : World) : World :=
  let d := gradeData env grade teacherId in
  let '(rows, next) := upsert d (grades w) (next_id w) in
  {| grades := rows; next_id := next;
     audit_logs :=
       logAuditEvent env teacherId "save_class_grade" "grades"
         (pupilId grade) None (Some d) (audit_logs w) |}.

(** The loop stops at the first refused upsert and answers [false]; what was
    written before stays written. *)
Fixpoint saveClassGrades (env : Env) (grades_in : list GradeEntry)
    (teacherId : string) (w : World) : bool * World :=
  match grades_in with
  | [] => (true, w)
  | grade :: rest =>
      match refuses env (gradeData env grade teacherId) with
      | Some _ => (false, w)
      | None => saveClassGrades env rest teacherId (stored env grade teacherId w)
      end
  end.

(** Two entries for the same pupil, subject and quarter. *)
Definition same_entry (a b : GradeEntry) : bool :=
  String.eqb (pupilId b) (pupilId a) && String.eqb (subjectId b) (subjectId a)
  && (quarterOf b =? quarterOf a).

(** The record of a key. *)
Definition find_grade (rows : list GradeRecord) (grade : GradeEntry)
  : option GradeRecord :=
  find (same_key (pupilId grade) (subjectId grade) (quarterOf grade)) rows.

Definition accepted (env : Env) (teacherId : string) (grade : GradeEntry) : Prop :=
  refuses env (gradeData env grade teacherId) = None.

End ClassGradeSaving.

(** ** Layout.tsx: [convertToCSV]

    Cell values are texts or missing ([null], [undefined], or a header the
    row does not have). *)

Module Csv.
Import Js.

Definition quote : ascii := ascii_of_nat 34.
Definition line_feed : ascii := ascii_of_nat 10.
Definition quote_text : string := String quote "".
Definition line_feed_text : string := String line_feed "".

Inductive Value := VString (s : string) | VNull.

(** [row[header]]. *)
Definition lookup (row : list (string * Value)) (header : string) : Value :=
  match find (fun e => String.eqb (fst e) header) row with
  | Some (_, v) => v
  | None => VNull
  end.

(** [value.replace] of every quote (character 34) by two of them. *)
Fixpoint double_quotes (s : string) : string :=
  match s with
  | EmptyString => EmptyString
  | String c rest =>
      if Ascii.eqb c quote
      then String quote (String quote (double_quotes rest))
      else String c (double_quotes rest)
  end.

Definition needs_quotes (value : string) : bool :=
  includes "," value || includes quote_text value
  || includes line_feed_text value.

Definition cell (value : Value) : string :=
  match value with
  | VString s =>
      if needs_quotes s
      then quote_text ++ double_quotes s ++ quote_text
      else s
  | VNull => ""
  end.

Definition convertToCSV (data : list (list (string * Value)))
    (customHeaders : option (list string)) : string :=
  match data with
  | [] => ""
  | first :: _ =>
      let headers :=
        match customHeaders with
        | Some h => h
        | None => map fst first
        end in
      let csvHeaders := String.concat "," headers in
      let csvRows :=
        map (fun row =>
               String.concat ","
                 (map (fun header => cell (lookup row header)) headers)) data in
      String.concat line_feed_text (csvHeaders :: csvRows)
  end.

(** *** The reader's side

    The text that a cell stands for. *)
Definition text (value : Value) : string :=
  match value with
  | VString s => s
  | VNull => ""
  end.

(** How a program that opens the file reads it (RFC 4180): records end at
    a line feed and fields at a comma, both outside quotes; a field that
    opens with a quote runs to the closing quote, two quotes inside it
    standing for one. *)
Inductive Mode := FieldStart | Unquoted | Quoted | QuoteSeen.

Fixpoint read (mode : Mode) (field : string) (record : list string)
    (s : string) : list (list string) :=
  match s with
  | EmptyString => [(record ++ [field])%list]
  | String c rest =>
      match mode with
      | Quoted =>
          if Ascii.eqb c quote then read QuoteSeen field record rest
          else read Quoted (field ++ String c "") record rest
      | _ =>
          if Ascii.eqb c ","
          then read FieldStart "" (record ++ [field])%list rest
          else if Ascii.eqb c line_feed
          then (record ++ [field])%list :: read FieldStart "" [] rest
          else if Ascii.eqb c quote then
            match mode with
            | FieldStart => read Quoted "" record rest
            | QuoteSeen => read Quoted (field ++ quote_text) record rest
            | _ => read Unquoted (field ++ String c "") record rest
            end
          else read Unquoted (field ++ String c "") record rest
      end
  end.

Definition read_csv (s : string) : list (list string) :=
  read FieldStart "" [] s.

(** A character that ends a field or opens a quoted one. *)
Definition special (c : ascii) : bool :=
  Ascii.eqb c "," || Ascii.eqb c quote || Ascii.eqb c line_feed.

Fixpoint plain (s : string) : bool :=
  match s with
  | EmptyString => true
  | String c rest => negb (special c) && plain rest
  end.

(** The reader takes [printed], whatever follows it, as one field holding
    [t], and is outside quotes afterwards. *)
Definition writes (printed t : string) : Prop :=
  forall record rest,
    exists mode,
      mode <> Quoted /\
      read FieldStart "" record (printed ++ rest) = read mode t record rest.

(** A line as it is printed and as it is meant: its cells with their
    texts. *)
Definition well_written (line : list (string * string)) : Prop :=
  line <> [] /\ Forall (fun pt => writes (fst pt) (snd pt)) line.

End Csv.

Module CsvSamples.
Import Csv.

(** A class list with a name that holds a comma and a remark that holds
    quotes and a line feed. *)
Definition class_list : list (list (string * Value)) :=
  [ [("name", VString "Cruz, Ana");
     ("remarks", VString ("said " ++ quote_text ++ "present" ++ quote_text
                          ++ line_feed_text ++ "twice"))];
    [("name", VString "Reyes"); ("grade", VString "90")] ].

End CsvSamples.

(** ** The Grades page: entering a grade *)

Module GradeEntry.
Import Js Types Grades.

(** The page after [setClassGrades]. *)
Definition with_classGrades (entries : list (string * Qc)) (st : Page) : Page :=
  {| user := user st; pupils := pupils st;
     selectedSubject := selectedSubject st;
     selectedQuarter := selectedQuarter st;
     classGrades := entries; classAverages := classAverages st |}.

(** The page after the grade field of a pupil was changed. *)
Definition entered (pupilId : string) (grade : Qc) (st : Page) : Page :=
  with_classGrades (handleGradeChange pupilId grade (classGrades st)) st.

(** [classGrades[pupilId]]. *)
Definition entered_grade (pupilId : string) (entries : list (string * Qc))
  : option Qc :=
  option_map snd (find (fun e => String.eqb (fst e) pupilId) entries).

End GradeEntry.

(** ** The Pupils page: selection for promotion, archiving *)

Module PupilsSelection.
Import Js Types Pupils.

(** [new Set(ids)]: each id once, in the order of first appearance. *)
Fixpoint new_Set (ids : list string) : list string :=
  match ids with
  | [] => []
  | id :: rest =>
      id :: filter (fun x => negb (String.eqb x id)) (new_Set rest)
  end.

Definition has (id : string) (selection : list string) : bool :=
  existsb (String.eqb id) selection.

(** The selection after [handlePupilSelectionToggle]. *)
Definition handlePupilSelectionToggle (pupilId : string)
    (selectedPupilsForPromotion : list string) : list string :=
  let newSelection := selectedPupilsForPromotion in
  if has pupilId newSelection
  then filter (fun x => negb (String.eqb x pupilId)) newSelection
  else (newSelection ++ [pupilId])%list.

(** The page after [handlePromotionGradeSelect]: the grade is kept and every
    pupil of that grade on the page who is not archived is selected. *)
Definition handlePromotionGradeSelect (grade : Z) (filteredPupils : list PupilRow)
    (st : Page) : Page :=
  let pupilsInGrade :=
    filter (fun p => (grade_level p =? grade) && negb (archived p))
      filteredPupils in
  {| promotionFromGrade := Some grade;
     promotionToGrade := promotionToGrade st;
     promotionToSection := promotionToSection st;
     selectedPupilsForPromotion := new_Set (map pupil_row_id pupilsInGrade) |}.

Inductive ArchiveValues := Archived (archived : bool).

Record ArchiveLog := {
  alog_user_id : string;
  alog_action : string;
  alog_entity_type : string;
  alog_entity_id : string;
  alog_old_values : ArchiveValues;
  alog_new_values : ArchiveValues
}.

Record ArchiveWorld := {
  table : list PupilRow;
  archive_logs : list ArchiveLog;
  shown : list Toast
}.

Record ArchiveEnv := {
  confirmed : bool;
  store : Env
}.

Definition set_archived (archive : bool) (now : string) (p : PupilRow) : PupilRow :=
  {| pupil_row_id := pupil_row_id p;
     grade_level := grade_level p;
     section := section p;
     archived := archive;
     updated_at := now |}.

(** [handleArchive] of the Pupils page; [archive] false restores.  The
    answer of the audit insert is not read; the [audit_logs] table takes
    every entry. *)
Definition handleArchive (env : ArchiveEnv) (pupilId : string) (archive : bool)
    (w : ArchiveWorld) : ArchiveWorld :=
  if negb (confirmed env) then w
  else
    match update_in (store env) [pupilId]
            (set_archived archive (nowISOString (store env))) (table w) with
    | inl msg =>
        {| table := table w; archive_logs := archive_logs w;
           shown :=
             (shown w ++ [
                ToastError
                  (message_or msg
                     ("Failed to " ++ (if archive then "archive" else "restore")
                      ++ " pupil")) ])%list |}
    | inr rows =>
        {| table := rows;
           archive_logs :=
             (archive_logs w ++ [
                {| alog_user_id := "current_user_id";
                   alog_action := if archive then "archive_pupil" else "restore_pupil";
                   alog_entity_type := "pupils";
                   alog_entity_id := pupilId;
                   alog_old_values := Archived (negb archive);
                   alog_new_values := Archived archive |} ])%list;
           shown :=
             (shown w ++ [
                ToastSuccess
                  ("Pupil " ++ (if archive then "archived" else "restored")
                   ++ " successfully") ])%list |}
    end.

End PupilsSelection.

(** ** The Users page: list filter, pages, rejection of a registration *)

Module UsersPage.
Import Js Types.

Record User := {
  id : string;
  email : string;
  full_name : string;
  role : UserRole;
  archived : bool
}.

(** [toLowerCase] on the letters A to Z. *)
Definition lower (c : ascii) : ascii :=
  let n := N_of_ascii c in
  if ((65 <=? n) && (n <=? 90))%N then ascii_of_N (n + 32) else c.

Fixpoint toLowerCase (s : string) : string :=
  match s with
  | EmptyString => EmptyString
  | String c rest => String (lower c) (toLowerCase rest)
  end.

Definition in_tab (activeTab : string) (user : User) : bool :=
  if String.eqb activeTab "archived" then archived user
  else if String.eqb activeTab "users" then negb (archived user)
  else true.

Definition matches (searchTerm : string) (user : User) : bool :=
  includes (toLowerCase searchTerm) (toLowerCase (full_name user))
  || includes (toLowerCase searchTerm) (toLowerCase (email user)).

(** The [filteredUsers] that [filterUsers] sets. *)
Definition filterUsers (users : list User) (activeTab searchTerm : string)
    (selectedRole : option UserRole) : list User :=
  let filtered := filter (in_tab activeTab) users in
  let filtered :=
    if String.eqb searchTerm "" then filtered
    else filter (matches searchTerm) filtered in
  match selectedRole with
  | Some r => filter (fun user => UserRole_eqb (role user) r) filtered
  | None => filtered
  end.

Definition itemsPerPage : nat := 10.

(** [Math.ceil(n / itemsPerPage)] for a length [n]. *)
Definition totalPages (filteredUsers : list User) : nat :=
  Nat.div (List.length filteredUsers + (itemsPerPage - 1)) itemsPerPage.

(** [filteredUsers.slice(startIndex, endIndex)]. *)
Definition paginatedUsers (currentPage : nat) (filteredUsers : list User)
  : list User :=
  let startIndex := ((currentPage - 1) * itemsPerPage)%nat in
  firstn itemsPerPage (skipn startIndex filteredUsers).

Inductive Toast := ToastSuccess (msg : string) | ToastError (msg : string).

(** Answer of the procedure [reject_user_registration]. *)
Record RejectAnswer := {
  transport_error : option string;
  success : bool;
  error : option string
}.

Record Env := {
  getUser : option string;
  reject_answer : RejectAnswer
}.

(** One call of the procedure: registration, reason, admin. *)
Record World := {
  reject_calls : list (string * string * string);
  shown : list Toast
}.

Definition show (t : Toast) (w : World) : World :=
  {| reject_calls := reject_calls w; shown := (shown w ++ [t])%list |}.

Definition text_or (s : option string) (fallback : string) : string :=
  match s with
  | Some t => if String.eqb t "" then fallback else t
  | None => fallback
  end.

Definition handleRejectRegistration (env : Env) (registrationId reason : string)
    (w : World) : World :=
  if blank reason
  then show (ToastError "Please provide a reason for rejection") w
  else
    match getUser env with
    | None => show (ToastError "You must be logged in to reject registrations") w
    | Some admin_id =>
        let called :=
          {| reject_calls :=
               (reject_calls w ++ [(registrationId, reason, admin_id)])%list;
             shown := shown w |} in
        match transport_error (reject_answer env) with
        | Some msg =>
            show (ToastError (text_or (Some msg) "Failed to reject registration"))
              called
        | None =>
            if negb (success (reject_answer env))
            then show (ToastError
                         (text_or (Some (text_or (error (reject_answer env))
                                           "Failed to reject registration"))
                            "Failed to reject registration")) called
            else show (ToastSuccess "Registration rejected successfully") called
        end
    end.

End UsersPage.

Module ClassGradeSavingSamples.
Import Grades ClassGradeSaving.

Definition entry (p : string) (g : Z) : GradeEntry :=
  {| pupilId := p; subjectId := "math"; quarterOf := 1; finalGrade := num g |}.

Definition empty : World :=
  {| grades := []; next_id := 0; audit_logs := [] |}.

(** A store that refuses the grades of one pupil. *)
Definition refuses_pupil (p : string) : Env :=
  {| nowISOString := "2024-01-15T08:00:00.000Z";
     refuses := fun d =>
       if String.eqb (d_pupil_id d) p then Some "permission denied" else None |}.

End ClassGradeSavingSamples.

Module PupilsSelectionSamples.
Import Pupils PupilsSelection.

Definition class3 : ArchiveWorld :=
  {| table := pupils PupilsSamples.class3; archive_logs := []; shown := [] |}.

(** The question is answered with OK and the store takes the update. *)
Definition confirming : ArchiveEnv :=
  {| confirmed := true; store := PupilsSamples.lenient |}.

(** The question is answered with Cancel. *)
Definition declining : ArchiveEnv :=
  {| confirmed := false; store := PupilsSamples.lenient |}.

End PupilsSelectionSamples.

Module UsersPageSamples.
Import Types UsersPage.

Definition account (n : string) (r : UserRole) (a : bool) : User :=
  {| id := n; email := n ++ "@iskwela.ph"; full_name := n; role := r;
     archived := a |}.

Definition staff : list User :=
  [account "Ana" teacher false; account "Ben" admin false;
   account "Cora" teacher true].

(** Twenty-three accounts. *)
Definition many : list User :=
  map (fun k => account (Pupils.show_number (Z.of_nat k)) teacher false)
    (seq 1 23).

Definition signed_in : Env :=
  {| getUser := Some "admin-1";
     reject_answer :=
       {| transport_error := None; success := true; error := None |} |}.

Definition quiet : World := {| reject_calls := []; shown := [] |}.

End UsersPageSamples.

(** ** Facts on strings and times *)

Module JsFacts.
Import Js JsDate.

Lemma digit_of_ascii_of_digit (d : Z) :
  0 <= d < 10 -> digit_of_ascii (ascii_of_digit d) = Some d.
Proof.
  intros Hd.
  assert (Hcases : d = 0 \/ d = 1 \/ d = 2 \/ d = 3 \/ d = 4 \/
                   d = 5 \/ d = 6 \/ d = 7 \/ d = 8 \/ d = 9) by lia.
  repeat destruct Hcases as [-> | Hcases]; try subst d; reflexivity.
Qed.

Lemma two_digits_pad2 (n : Z) :
  0 <= n < 100 ->
  match pad2 n with
  | String c1 (String c2 EmptyString) => two_digits c1 c2 = Some n
  | _ => False
  end.
Proof.
  intros Hn. unfold pad2, two_digits.
  rewrite !digit_of_ascii_of_digit.
  - f_equal. pose proof (Z.div_mod n 10). lia.
  - apply Z.mod_pos_bound. lia.
  - split; [apply Z.div_pos; lia | apply Z.div_lt_upper_bound; lia].
Qed.

Lemma parseTimeOfDay_hhmm (h m : Z) :
  0 <= h < 24 -> 0 <= m < 60 ->
  parseTimeOfDay (hhmm h m) = Some ((h * 60 + m) * 60000).
Proof.
  intros Hh Hm.
  pose proof (two_digits_pad2 h ltac:(lia)) as Th.
  pose proof (two_digits_pad2 m ltac:(lia)) as Tm.
  unfold hhmm, pad2 in *. cbn [append parseTimeOfDay].
  rewrite Ascii.eqb_refl, Th, Tm. cbn [parseSeconds].
  unfold validTime.
  replace (h <=? 23) with true by (symmetry; apply Z.leb_le; lia).
  replace (m <=? 59) with true by (symmetry; apply Z.leb_le; lia).
  cbn. f_equal. lia.
Qed.

Lemma blank_empty : blank "" = true.
Proof. reflexivity. Qed.

(** A text whose characters are all white space is blank. *)
Lemma blank_white_space (s : string) :
  Forall (fun ch => white_space (code_point ch) = true) (chars s) ->
  blank s = true.
Proof.
  intros H. unfold blank, trim, trimStart.
  assert (E : drop_white_space (chars s) = []).
  { induction H as [| ch l Hch _ IH]; cbn; [reflexivity | now rewrite Hch]. }
  rewrite E. reflexivity.
Qed.

(** [trim] strips the Unicode spaces with the ASCII ones: the no-break
    space, in UTF-8 or as the byte of its code point, the em space, the line
    separator, the ideographic space and the byte order mark are blank, alone
    or together; the zero width space is not white space and is kept. *)
Lemma blank_unicode_spaces :
  blank JsSamples.no_break_space = true /\
  blank JsSamples.no_break_byte = true /\
  blank (JsSamples.em_space ++ " " ++ JsSamples.line_separator
         ++ JsSamples.ideographic_space ++ JsSamples.byte_order_mark) = true /\
  trim (JsSamples.no_break_space ++ "sick" ++ JsSamples.ideographic_space)
  = "sick" /\
  blank JsSamples.zero_width_space = false.
Proof. repeat split; vm_compute; reflexivity. Qed.

End JsFacts.

(** ** The lateness rule *)

Module LatenessFacts.
Import Js JsDate Types Utils Lateness JsFacts.

Lemma truthy_parsed (s : string) (t : Z) :
  parseTimeOfDay s = Some t -> truthy (Some s) = true.
Proof.
  destruct s; [discriminate | reflexivity].
Qed.

Lemma isLate_parsed (tz : Z) (a b : string) (ta tb : Z) :
  parseTimeOfDay a = Some ta -> parseTimeOfDay b = Some tb ->
  isLate tz (Some a) (Some b) = (ta >? tb + 15 * 60000).
Proof.
  intros Ha Hb. unfold isLate.
  rewrite (truthy_parsed a ta Ha), (truthy_parsed b tb Hb). cbn [negb orb].
  unfold newDate2000, addMinutes, dateGt. rewrite Ha, Hb. cbn [option_map].
  destruct (Z.gtb_spec ta (tb + 15 * 60000));
    destruct (Z.gtb_spec (tz + ta) (tz + tb + 15 * 60000)); lia || reflexivity.
Qed.

Lemma isLateAttendance_isLate (tz : Z) (a b : option string) :
  isLateAttendance tz a b = isLate tz a b.
Proof. reflexivity. Qed.

Lemma isLate_missing (tz : Z) (x : option string) :
  isLate tz None x = false /\ isLate tz (Some "") x = false /\
  isLate tz x None = false /\ isLate tz x (Some "") = false.
Proof.
  unfold isLate. repeat split; try reflexivity;
    destruct (truthy x); reflexivity.
Qed.

(** C5. [isLate] (and [isLateAttendance], which is the same function) is
    true exactly when the time-in is strictly later than the class start
    plus 15 minutes, whatever the local time zone: for two texts that denote
    times of day the answer is the comparison of their milliseconds, every
    [hh:mm] text denotes its time of day, 08:15 against an 08:00 start is
    not late, 08:16 is, and a missing (undefined or empty) time-in or class
    start gives false. *)
Theorem isLate_iff_past_threshold
    (tz : Z) (timeIn classStart : string) (tIn tStart : Z)
    (HtimeIn : parseTimeOfDay timeIn = Some tIn)
    (HclassStart : parseTimeOfDay classStart = Some tStart) :
  (isLate tz (Some timeIn) (Some classStart) = true
     <-> tIn > tStart + 15 * 60000)
  /\ (isLateAttendance tz (Some timeIn) (Some classStart) = true
     <-> tIn > tStart + 15 * 60000)
  /\ (forall h m h' m', 0 <= h < 24 -> 0 <= m < 60 ->
        0 <= h' < 24 -> 0 <= m' < 60 ->
        (isLate tz (Some (hhmm h m)) (Some (hhmm h' m')) = true
           <-> h * 60 + m > h' * 60 + m' + 15))
  /\ isLate tz (Some "08:15") (Some "08:00") = false
  /\ isLate tz (Some "08:16") (Some "08:00") = true
  /\ (forall x, isLate tz None x = false /\ isLate tz (Some "") x = false /\
                isLate tz x None = false /\ isLate tz x (Some "") = false).
Proof.
  assert (Hgen : forall a b ta tb,
             parseTimeOfDay a = Some ta -> parseTimeOfDay b = Some tb ->
             (isLate tz (Some a) (Some b) = true <-> ta > tb + 15 * 60000)).
  { intros a b ta tb Ha Hb. rewrite (isLate_parsed tz a b ta tb Ha Hb).
    destruct (Z.gtb_spec ta (tb + 15 * 60000)); split; intros; lia || easy. }
  split; [now apply Hgen |].
  split; [rewrite isLateAttendance_isLate; now apply Hgen |].
  split.
  { intros h m h' m' Hh Hm Hh' Hm'.
    rewrite (Hgen _ _ _ _ (parseTimeOfDay_hhmm h m Hh Hm)
                          (parseTimeOfDay_hhmm h' m' Hh' Hm')).
    lia. }
  split; [now rewrite (isLate_parsed tz "08:15" "08:00" 29700000 28800000) |].
  split; [now rewrite (isLate_parsed tz "08:16" "08:00" 29760000 28800000) |].
  apply isLate_missing.
Qed.

Lemma isLate_iff_past_threshold_witness :
  parseTimeOfDay "08:16" = Some 29760000 /\
  parseTimeOfDay "08:00:00" = Some 28800000 /\
  (Lateness.isLate 946656000000 (Some "08:16") (Some "08:00:00") = true
     <-> 29760000 > 28800000 + 15 * 60000).
Proof.
  split; [reflexivity | split; [reflexivity |]].
  apply (isLate_iff_past_threshold 946656000000 "08:16" "08:00:00"
           29760000 28800000); reflexivity.
Defined.

End LatenessFacts.

(** ** The attendance table under upsert *)

Module AttendanceFacts.
Import Js JsDate Types Lateness Attendance LatenessFacts.

Lemma key_of_find_record (d : AttendanceData) (rows : list AttendanceRow) :
  find_record rows (d_pupil_id d) (d_subject_id d) (d_date d) = key_of d rows.
Proof. reflexivity. Qed.

Lemma same_key_merge (d : AttendanceData) (r : AttendanceRow) :
  same_key d (merge d r) = same_key d r.
Proof. reflexivity. Qed.

Lemma same_key_fresh (d : AttendanceData) (n : nat) :
  same_key d (fresh_row n d) = true.
Proof.
  unfold same_key, fresh_row; cbn. now rewrite !String.eqb_refl.
Qed.

Lemma update_conflicting_some (d : AttendanceData) :
  forall rows r' rows',
    update_conflicting d rows = Some (r', rows') ->
    key_of d rows' = Some r' /\
    List.length rows' = List.length rows /\
    exists r, key_of d rows = Some r /\ r' = merge d r.
Proof.
  unfold key_of.
  induction rows as [| r rest IH]; intros r' rows' H; cbn [update_conflicting] in H.
  - discriminate.
  - destruct (same_key d r) eqn:Hk.
    + inversion H; subst; clear H. cbn [find List.length].
      rewrite same_key_merge, Hk. repeat split. now exists r.
    + destruct (update_conflicting d rest) as [[r1 rest1] |] eqn:Hu;
        [| discriminate].
      inversion H; subst; clear H.
      destruct (IH r' rest1 eq_refl) as (Hf & Hl & r0 & Hf0 & Hm).
      cbn [find List.length]. rewrite Hk.
      repeat split; [exact Hf | now rewrite Hl |].
      exists r0. now split.
Qed.

Lemma update_conflicting_none (d : AttendanceData) :
  forall rows, update_conflicting d rows = None <-> key_of d rows = None.
Proof.
  unfold key_of.
  induction rows as [| r rest IH]; cbn [update_conflicting find]; [tauto |].
  destruct (same_key d r); [split; discriminate |].
  destruct (update_conflicting d rest) as [[r1 rest1] |].
  - split; [discriminate |]. intros H. apply IH in H. discriminate.
  - split; [intros _; now apply IH | reflexivity].
Qed.

Lemma find_app_none {A} (f : A -> bool) (l : list A) (x : A) :
  find f l = None -> f x = true -> find f (l ++ [x])%list = Some x.
Proof.
  induction l as [| a l IH]; cbn; intros Hn Hx.
  - now rewrite Hx.
  - destruct (f a); [discriminate | now apply IH].
Qed.

(** What an upsert leaves at its key: the written row, which is the row
    returned by [.select()]. *)
Lemma upsert_written (d : AttendanceData) (rows : list AttendanceRow)
    (next : nat) :
  let '(row, rows', _) := upsert d rows next in
  key_of d rows' = Some row /\
  match key_of d rows with
  | Some old => row = merge d old /\ List.length rows' = List.length rows
  | None => row = fresh_row next d /\ rows' = (rows ++ [row])%list
  end.
Proof.
  unfold upsert.
  destruct (update_conflicting d rows) as [[r' rows'] |] eqn:Hu.
  - destruct (update_conflicting_some d rows r' rows' Hu)
      as (Hf & Hl & r0 & Hf0 & Hm).
    split; [exact Hf |]. rewrite Hf0. now split.
  - apply update_conflicting_none in Hu. rewrite Hu.
    split; [| now split].
    unfold key_of in *. apply find_app_none; [exact Hu |].
    apply same_key_fresh.
Qed.

Lemma attendance_toast (t : Toast) (w : World) :
  attendance (toast t w) = attendance w.
Proof. reflexivity. Qed.

Lemma attendance_sendAbsenceNotification (st : Page) (p : string) (w : World) :
  attendance (sendAbsenceNotification st p w) = attendance w.
Proof.
  unfold sendAbsenceNotification.
  destruct (find _ (pupils st)) as [pupil |]; [| reflexivity].
  destruct (truthy (parent_id pupil)); [| reflexivity].
  destruct (parent_id pupil); reflexivity.
Qed.

Lemma may_mark_guard (st : Page) :
  may_mark st ->
  (match user st with None => true | Some _ => false end || isRole st parent)
  = false.
Proof.
  intros (u & Hu & Hr). unfold isRole. rewrite Hu. cbn.
  destruct (user_role u); try reflexivity. now elim Hr.
Qed.

(** The row [markAttendance] leaves at (pupil, selected subject, selected
    date) when the caller may mark, a subject is selected and the store
    takes the upsert. *)
Lemma markAttendance_written (env : Env) (st : Page) (pupilId : string)
    (status : AttendanceStatus) (timeIn remarks : option string) (w : World) :
  may_mark st -> selectedSubject st <> "" -> upsert_error env = None ->
  exists row,
    find_record (attendance (markAttendance env st pupilId status timeIn remarks w))
      pupilId (selectedSubject st) (selectedDate st) = Some row /\
    att_status row = finalStatus env st status (observedTime env timeIn) /\
    att_time_in row =
      (if AttendanceStatus_eqb status present || AttendanceStatus_eqb status late
       then Some (observedTime env timeIn) else None).
Proof.
  intros Hmay Hsel Hstore. unfold markAttendance.
  rewrite (may_mark_guard st Hmay).
  apply String.eqb_neq in Hsel. rewrite Hsel, Hstore.
  match goal with
  | |- context [upsert ?d ?rows ?n] =>
      pose proof (upsert_written d rows n) as Hw;
      destruct (upsert d rows n) as [[row rows'] next'];
      set (data := d) in *
  end.
  destruct Hw as [Hkey Hrow]. exists row.
  assert (Hatt : forall w0, attendance w0 = rows' ->
            find_record (attendance w0) pupilId (selectedSubject st)
              (selectedDate st) = Some row).
  { intros w0 ->. exact Hkey. }
  split.
  - destruct (AttendanceStatus_eqb _ absent).
    + apply Hatt. now rewrite attendance_sendAbsenceNotification.
    + now apply Hatt.
  - destruct (key_of data (attendance w)) as [old |];
      destruct Hrow as [-> _]; split; reflexivity.
Qed.



(** C10. The stored [time_in] follows the status given by the caller, not
    the status written: it is the observed time (the [timeIn] argument, or
    the current time when that is missing) when the caller says [present]
    or [late], also when a nominal [present] is written as [late], and it
    is null when the caller says [absent] or [excused]. *)
Theorem markAttendance_time_in_follows_caller_status
    (env : Env) (st : Page) (pupilId : string) (status : AttendanceStatus)
    (timeIn remarks : option string) (w : World)
    (Hmay : may_mark st)
    (Hsel : selectedSubject st <> "")
    (Hstore : upsert_error env = None) :
  exists row,
    find_record
      (attendance (markAttendance env st pupilId status timeIn remarks w))
      pupilId (selectedSubject st) (selectedDate st) = Some row /\
    (status = present \/ status = late ->
       att_time_in row = Some (observedTime env timeIn)) /\
    (status = present -> att_status row = late ->
       att_time_in row = Some (observedTime env timeIn)) /\
    (status = absent \/ status = excused -> att_time_in row = None) /\
    (forall t, timeIn = Some t -> t <> "" -> observedTime env timeIn = t) /\
    (truthy timeIn = false -> observedTime env timeIn = getCurrentTime env).
Proof.
  destruct (markAttendance_written env st pupilId status timeIn remarks w
              Hmay Hsel Hstore) as (row & Hfind & _ & Htime).
  exists row. split; [exact Hfind |]. rewrite Htime.
  repeat split.
  - now intros [-> | ->].
  - now intros -> _.
  - now intros [-> | ->].
  - intros t -> Ht. unfold observedTime, truthy.
    apply String.eqb_neq in Ht. now rewrite Ht.
  - intros Hf. unfold observedTime. destruct timeIn; [| reflexivity].
    now rewrite Hf.
Qed.

Lemma markAttendance_time_in_follows_caller_status_witness :
  exists row,
    find_record
      (attendance
         (markAttendance AttendanceSamples.manila AttendanceSamples.page1
            "p-1" present None None AttendanceSamples.nothing))
      "p-1" "math-1" "2024-06-10" = Some row /\
    att_status row = late /\
    att_time_in row = Some "08:20".
Proof.
  assert (Hmay : may_mark AttendanceSamples.page1).
  { exists AttendanceSamples.teacher1. split; [reflexivity | discriminate]. }
  destruct (markAttendance_time_in_follows_caller_status
              AttendanceSamples.manila AttendanceSamples.page1
              "p-1" present None None AttendanceSamples.nothing
              Hmay ltac:(discriminate) eq_refl)
    as (row & Hfind & Hcaller & _).
  exists row. split; [exact Hfind |].
  split; [| exact (Hcaller (or_introl eq_refl))].
  cbv in Hfind. injection Hfind as <-. reflexivity.
Defined.

(** With no record at the key, [handleExcuseAbsence] does not fail: the
    upsert inserts a first record, already [excused], and the page reports
    success. *)
Lemma handleExcuseAbsence_creates_record :
  let w' := handleExcuseAbsence AttendanceSamples.manila
              AttendanceSamples.page1 "p-1" "sick" AttendanceSamples.nothing in
  find_record (attendance AttendanceSamples.nothing)
    "p-1" "math-1" "2024-06-10" = None /\
  (exists row,
      attendance w' = [row] /\ att_status row = excused /\
      find_record (attendance w') "p-1" "math-1" "2024-06-10" = Some row) /\
  toasts w' = [ToastSuccess "Absence excused successfully"].
Proof.
  cbv. split; [reflexivity |]. split; [| reflexivity].
  eexists. repeat split.
Qed.

(** C1, as the handler behaves.  An empty or white-space reason is refused
    before any write.  With a reason, and the store taking the write, the
    handler upserts at (pupil, selected subject, selected date): a record
    that exists keeps its id, time-in and remarks and becomes [excused] with
    the reason, no row being added; where no record exists one is inserted,
    [excused] from the start; in both cases the page reports success and one
    audit entry is written. *)
Theorem handleExcuseAbsence_upserts
    (env : Env) (st : Page) (pupilId reason : string) (w : World)
    (Hreason : blank reason = false)
    (Hstore : upsert_error env = None) :
  let w' := handleExcuseAbsence env st pupilId reason w in
  (exists row,
      find_record (attendance w') pupilId (selectedSubject st) (selectedDate st)
      = Some row /\
      att_status row = excused /\
      att_excuse_reason row = Some reason /\
      match find_record (attendance w) pupilId (selectedSubject st)
              (selectedDate st) with
      | Some old =>
          List.length (attendance w') = List.length (attendance w) /\
          att_id row = att_id old /\
          att_time_in row = att_time_in old /\
          att_remarks row = att_remarks old
      | None => attendance w' = (attendance w ++ [row])%list
      end) /\
  toasts w' = (toasts w ++ [ToastSuccess "Absence excused successfully"])%list /\
  List.length (audit_logs w') = S (List.length (audit_logs w)) /\
  (forall blankReason,
      blank blankReason = true ->
      let w0 := handleExcuseAbsence env st pupilId blankReason w in
      attendance w0 = attendance w /\ audit_logs w0 = audit_logs w /\
      toasts w0 =
        (toasts w ++ [ToastError "Please provide a reason for the excuse"])%list).
Proof.
  intros w'. subst w'. unfold handleExcuseAbsence.
  rewrite Hreason, Hstore.
  match goal with
  | |- context [upsert ?d ?rows ?n] =>
      pose proof (upsert_written d rows n) as Hw;
      rewrite <- !(key_of_find_record d) in Hw;
      destruct (upsert d rows n) as [[row rows'] next']
  end.
  cbn [d_pupil_id d_subject_id d_date] in Hw.
  destruct Hw as [Hkey Hrow].
  cbn [attendance toast toasts audit_logs].
  split; [| split; [reflexivity | split]].
  - exists row. split; [exact Hkey |].
    destruct (find_record (attendance w) pupilId (selectedSubject st)
                (selectedDate st)) as [old |].
    + destruct Hrow as [-> Hlen]. now repeat split.
    + destruct Hrow as [Hr ->]. rewrite Hr at 1 2. now repeat split.
  - rewrite length_app. cbn. lia.
  - intros blankReason Hb. rewrite Hb. now repeat split.
Qed.

(** A reason that is a no-break space and nothing else is refused like an
    empty one: nothing is written. *)
Lemma handleExcuseAbsence_refuses_no_break_space :
  let w' := handleExcuseAbsence AttendanceSamples.manila
              AttendanceSamples.page1 "p-1" JsSamples.no_break_space
              AttendanceSamples.nothing in
  attendance w' = [] /\ audit_logs w' = [] /\
  toasts w' = [ToastError "Please provide a reason for the excuse"].
Proof. vm_compute. repeat split. Qed.

Lemma handleExcuseAbsence_upserts_witness :
  exists row,
    find_record
      (attendance
         (handleExcuseAbsence AttendanceSamples.manila AttendanceSamples.page1
            "p-1" "fever" AttendanceSamples.nothing))
      "p-1" "math-1" "2024-06-10" = Some row /\
    att_status row = excused.
Proof.
  destruct (handleExcuseAbsence_upserts AttendanceSamples.manila
              AttendanceSamples.page1 "p-1" "fever" AttendanceSamples.nothing
              eq_refl eq_refl) as ((row & Hfind & Hstatus & _) & _).
  exists row. now split.
Defined.

End AttendanceFacts.

(** ** Approval of a registration *)

Module RegistrationFacts.
Import Js Types Registration.

Lemma find_registration_set_status (id : string) (s : RegistrationStatus) :
  forall rs r,
    find_registration id rs = Some r ->
    find_registration id (set_status id s rs)
    = Some {| registration_id := registration_id r; status := s;
              registration_data := registration_data r |}.
Proof.
  unfold find_registration.
  induction rs as [| x rs IH]; intros r H; cbn in *; [discriminate |].
  destruct (String.eqb (registration_id x) id) eqn:Hx.
  - inversion H; subst. cbn. now rewrite Hx.
  - rewrite Hx. now apply IH.
Qed.

Lemma set_status_twice (id : string) (s1 s2 : RegistrationStatus) :
  forall rs, set_status id s2 (set_status id s1 rs) = set_status id s2 rs.
Proof.
  intros rs. unfold set_status. rewrite map_map. apply map_ext. intros x.
  destruct (String.eqb (registration_id x) id) eqn:Hx; cbn; now rewrite Hx.
Qed.

Lemma skipn_shown {A} (l extra : list A) :
  skipn (List.length l) (l ++ extra)%list = extra.
Proof. induction l; cbn; auto. Qed.

(** The answer of the approval procedure on an open registration. *)
Lemma approve_open (id admin : string) (w : World) (r : UserRegistration) :
  find_registration id (user_registrations w) = Some r ->
  terminal (status r) = false ->
  approve_user_registration id admin w
  = ({| success := true; error := None;
        approved_data := Some (registration_data r);
        already_exists :=
          account_exists (email (registration_data r)) (users w) |},
     with_registrations (set_status id approved (user_registrations w)) w).
Proof.
  intros Hreg Hopen. unfold approve_user_registration.
  now rewrite Hreg, Hopen.
Qed.

(** C2. Approving an open registration whose email already has an Account
    succeeds on the already-exists path: the approval procedure answers
    [already_exists] true, the page reports the approval and no error, the
    [users] table is untouched, so that the email has as many Accounts as
    before (one, when it had one), and the identity provider is not asked
    for a credential, whatever it would have answered. *)
Theorem approve_existing_account_short_circuits
    (env : Env) (registrationId admin : string) (w : World)
    (r : UserRegistration)
    (Hadmin : getUser env = Some admin)
    (Hrpc : approve_rpc_error env = None)
    (Hreg : find_registration registrationId (user_registrations w) = Some r)
    (Hopen : terminal (status r) = false)
    (Hexists : account_exists (email (registration_data r)) (users w) = true) :
  let w' := handleApproveRegistration env registrationId w in
  already_exists (fst (approve_user_registration registrationId admin w)) = true /\
  reports_success w w' = true /\
  reports_error w w' = false /\
  users w' = users w /\
  accounts_for (email (registration_data r)) (users w')
  = accounts_for (email (registration_data r)) (users w) /\
  (accounts_for (email (registration_data r)) (users w) = 1%nat ->
   accounts_for (email (registration_data r)) (users w') = 1%nat) /\
  signUp_calls w' = signUp_calls w /\
  credentials w' = credentials w /\
  status_of registrationId w' = Some approved.
Proof.
  intros w'. subst w'. unfold handleApproveRegistration, approve_try.
  rewrite Hadmin, Hrpc, (approve_open _ _ _ _ Hreg Hopen).
  cbn [fst success approved_data already_exists negb]. rewrite Hexists.
  unfold reports_success, reports_error.
  cbn [show with_registrations shown users signUp_calls credentials].
  rewrite skipn_shown.
  repeat split; try reflexivity; try tauto.
  unfold status_of. cbn [user_registrations show with_registrations].
  now rewrite (find_registration_set_status _ _ _ _ Hreg).
Qed.

Lemma approve_existing_account_short_circuits_witness :
  let w' := handleApproveRegistration
              (RegistrationSamples.provider (SignUpUser "auth-10"))
              "reg-1" RegistrationSamples.known in
  users w' = [RegistrationSamples.maria_account] /\
  signUp_calls w' = [] /\
  reports_success RegistrationSamples.known w' = true.
Proof.
  destruct (approve_existing_account_short_circuits
              (RegistrationSamples.provider (SignUpUser "auth-10"))
              "reg-1" "admin-1" RegistrationSamples.known
              RegistrationSamples.request
              eq_refl eq_refl eq_refl eq_refl eq_refl)
    as (_ & Hok & _ & Husers & _ & _ & Hcalls & _).
  cbv zeta. now rewrite Husers, Hcalls, Hok.
Defined.

(** A sign-up error whose text says that the user already exists reaches
    the [catch] block's approval branch: the registration is back to
    [pending] and no credential exists, yet the page reports an approval and
    shows no error. *)
Lemma approve_signUp_error_reported_as_approved :
  let w' := handleApproveRegistration
              (RegistrationSamples.provider (SignUpError "User already exists"))
              "reg-1" RegistrationSamples.fresh in
  status_of "reg-1" w' = Some pending /\
  credentials w' = [] /\
  reports_error RegistrationSamples.fresh w' = false /\
  reports_success RegistrationSamples.fresh w' = true.
Proof. cbv. repeat split. Qed.

(** The answer to the update back to [pending] is not read: when the
    store refuses it, the registration of the failed sign-up stays
    [approved] with no credential, and the page shows the sign-up error. *)
Lemma approve_signUp_error_revert_refused :
  let w' := handleApproveRegistration
              (RegistrationSamples.provider_no_revert
                 (SignUpError "Signups not allowed"))
              "reg-1" RegistrationSamples.fresh in
  status_of "reg-1" w' = Some approved /\
  credentials w' = [] /\
  shown w' = [ToastError "Failed to create user account: Signups not allowed"].
Proof. cbv. repeat split. Qed.

Lemma catch_reports (w : World) (thrown : string) :
  reports_error w (show (approve_catch thrown) w)
  = (includes "already processed" thrown || includes "does not exist" thrown
     || negb (includes "duplicate key" thrown || includes "already exists" thrown)) /\
  reports_success w (show (approve_catch thrown) w)
  = negb (reports_error w (show (approve_catch thrown) w)).
Proof.
  unfold reports_success, reports_error. cbn [show shown].
  rewrite skipn_shown. unfold approve_catch.
  destruct (includes "already processed" thrown); [now split |].
  destruct (includes "does not exist" thrown); [now split |].
  destruct (includes "duplicate key" thrown || includes "already exists" thrown);
    now split.
Qed.

(** C3, on the code.  The two ways in which the sign-up of an approved
    registration fails are not handled alike.  When the identity provider
    answers with an error, the handler sends the update back to [pending]
    and throws; no credential and no Account is created; the registration
    is [pending] again when the store takes that update, whose answer is not
    read, and [approved] when it does not; and the [catch] block shows an
    error unless the thrown text contains "duplicate key" or
    "already exists", which it reports as an approval.  When the provider
    answers with no error and no user, the handler throws without the
    update: the registration stays [approved] with no credential, and only
    the error is shown. *)
Theorem approve_failed_signUp_not_always_reverted
    (env : Env) (registrationId admin : string) (w : World)
    (r : UserRegistration)
    (Hadmin : getUser env = Some admin)
    (Hrpc : approve_rpc_error env = None)
    (Hreg : find_registration registrationId (user_registrations w) = Some r)
    (Hopen : terminal (status r) = false)
    (Hnew : account_exists (email (registration_data r)) (users w) = false) :
  let w' := handleApproveRegistration env registrationId w in
  (forall message,
      signUp_answer env = SignUpError message ->
      let thrown := "Failed to create user account: " ++ message in
      status_of registrationId w'
      = Some (match revert_error env with
              | None => pending
              | Some _ => approved
              end) /\
      credentials w' = credentials w /\
      users w' = users w /\
      shown w' = (shown w ++ approve_catch thrown)%list /\
      reports_error w w'
      = (includes "already processed" thrown || includes "does not exist" thrown
         || negb (includes "duplicate key" thrown
                  || includes "already exists" thrown)) /\
      reports_success w w' = negb (reports_error w w')) /\
  (signUp_answer env = SignUpNoUser ->
   status_of registrationId w' = Some approved /\
   credentials w' = credentials w /\
   users w' = users w /\
   shown w' = (shown w ++ [ToastError "Failed to create user account"])%list /\
   reports_error w w' = true /\
   reports_success w w' = false).
Proof.
  intros w'. subst w'.
  unfold handleApproveRegistration, approve_try.
  rewrite Hadmin, Hrpc, (approve_open _ _ _ _ Hreg Hopen).
  cbn [success approved_data already_exists negb]. rewrite Hnew.
  unfold signUp. split.
  - intros message Hfail. cbv zeta. rewrite Hfail.
    set (thrown := "Failed to create user account: " ++ message).
    unfold revert_to_pending. cbn [revert_error].
    destruct (revert_error env) as [refusal |].
    + split.
      { unfold status_of. cbn [user_registrations show with_registrations].
        now rewrite (find_registration_set_status _ _ _ _ Hreg). }
      split; [reflexivity |]. split; [reflexivity |]. split; [reflexivity |].
      match goal with
      | |- context [show (approve_catch thrown) ?v] =>
          destruct (catch_reports v thrown) as (E1 & E2)
      end.
      unfold reports_error, reports_success in *.
      cbn [show shown with_registrations] in *. now split.
    + split.
      { unfold status_of. cbn [user_registrations show with_registrations].
        rewrite set_status_twice.
        now rewrite (find_registration_set_status _ _ _ _ Hreg). }
      split; [reflexivity |]. split; [reflexivity |]. split; [reflexivity |].
      match goal with
      | |- context [show (approve_catch thrown) ?v] =>
          destruct (catch_reports v thrown) as (E1 & E2)
      end.
      unfold reports_error, reports_success in *.
      cbn [show shown with_registrations] in *. now split.
  - intros Hnone. rewrite Hnone. split.
    { unfold status_of. cbn [user_registrations show with_registrations].
      now rewrite (find_registration_set_status _ _ _ _ Hreg). }
    unfold reports_error, reports_success.
    cbn [show shown with_registrations credentials users].
    rewrite skipn_shown. now repeat split.
Qed.

Lemma approve_failed_signUp_not_always_reverted_witness :
  let w' := handleApproveRegistration
              (RegistrationSamples.provider SignUpNoUser)
              "reg-1" RegistrationSamples.fresh in
  status_of "reg-1" w' = Some approved /\
  credentials w' = [] /\
  shown w' = [ToastError "Failed to create user account"].
Proof.
  destruct (approve_failed_signUp_not_always_reverted
              (RegistrationSamples.provider SignUpNoUser)
              "reg-1" "admin-1" RegistrationSamples.fresh
              RegistrationSamples.request
              eq_refl eq_refl eq_refl eq_refl eq_refl)
    as (_ & Hnone).
  destruct (Hnone eq_refl) as (Hstatus & Hcred & _ & Hshown & _).
  cbv zeta. now rewrite Hstatus, Hcred, Hshown.
Defined.

End RegistrationFacts.

(** ** Averages of the Grades page *)

Module AveragesFacts.
Import Js Types Double Averages.

Lemma quarterAverage_none (rows : list Grades.GradeRecord) (id : string) (q : Z) :
  quarterAverage rows id q = None <-> pupilGrades rows id q = [].
Proof.
  unfold quarterAverage. destruct (pupilGrades rows id q); cbn; split;
    intros; congruence.
Qed.

Lemma quarterAverage_some (rows : list Grades.GradeRecord) (id : string) (q : Z) :
  pupilGrades rows id q <> [] ->
  quarterAverage rows id q
  = Some (round2 (div (sum (pupilGrades rows id q))
                    (count (pupilGrades rows id q)))).
Proof.
  unfold quarterAverage. destruct (pupilGrades rows id q); cbn; congruence.
Qed.

(** Two canonical rationals with the same fraction are the same. *)
Lemma Qc_this_inj (x y : Qc) : this x = this y -> x = y.
Proof. intros H. apply Qc_is_canon. now rewrite H. Qed.

Lemma option_Qc_this_inj (o o' : option Qc) :
  option_map this o = option_map this o' -> o = o'.
Proof.
  destruct o, o'; cbn; intros H; inversion H; [| reflexivity].
  f_equal. now apply Qc_this_inj.
Qed.

Lemma list_Qc_this_inj (l l' : list Qc) : map this l = map this l' -> l = l'.
Proof.
  revert l'. induction l as [| x l IH]; intros [| y l'] H; cbn in H;
    try discriminate; [reflexivity |].
  inversion H. f_equal; [now apply Qc_this_inj | now apply IH].
Qed.

(** The mean of the quarterly averages of a pupil graded in the first
    three quarters with 80, 80 and 81 is the number nearest to 241/3; the
    page shows 80.33. *)
Lemma final_average_is_rounded :
  let rows := [GradesSamples.graded 1 "math-1" 1 80;
               GradesSamples.graded 2 "math-1" 2 80;
               GradesSamples.graded 3 "math-1" 3 81] in
  let a := pupilAverages rows GradesSamples.ana in
  graded_quarters a = [of_Z 80; of_Z 80; of_Z 81] /\
  div (sum (graded_quarters a)) (count (graded_quarters a)) = decimal 241 3 /\
  Grades.final_avg a = Some (decimal 8033 100) /\
  Grades.final_avg a
  <> Some (div (sum (graded_quarters a)) (count (graded_quarters a))).
Proof.
  cbv zeta. split; [| split; [| split]].
  - vm_compute. reflexivity.
  - vm_compute. reflexivity.
  - vm_compute. reflexivity.
  - intros H. vm_compute in H. discriminate.
Qed.

(** The arithmetic is that of JavaScript numbers.  A pupil with 75 in the
    first quarter and 75, 75 and 76 in the third has the quarterly averages
    75 and 75.33; their mean is the number just below 75.165, and the page
    shows 75.16. *)
Lemma final_average_of_binary_numbers :
  let rows := [GradesSamples.graded 1 "math-1" 1 75;
               GradesSamples.graded 2 "math-1" 3 75;
               GradesSamples.graded 3 "sci-1" 3 75;
               GradesSamples.graded 4 "fil-1" 3 76] in
  let a := pupilAverages rows GradesSamples.ana in
  Grades.q1_avg a = Some (of_Z 75) /\
  Grades.q3_avg a = Some (decimal 7533 100) /\
  gt (decimal 75165 1000)
     (div (sum (graded_quarters a)) (count (graded_quarters a))) = true /\
  Grades.final_avg a = Some (decimal 7516 100) /\
  Grades.final_avg a <> Some (decimal 7517 100).
Proof.
  cbv zeta. split; [| split; [| split; [| split]]].
  - vm_compute. reflexivity.
  - vm_compute. reflexivity.
  - vm_compute. reflexivity.
  - vm_compute. reflexivity.
  - intros H. vm_compute in H. discriminate.
Qed.

(** A pupil whose only grades are zeros has a first-quarter average of 0
    and a null final average. *)
Lemma final_average_of_zero_grades :
  let a := pupilAverages [GradesSamples.graded 1 "math-1" 1 0] GradesSamples.ana in
  Grades.q1_avg a = Some (of_Z 0) /\ Grades.final_avg a = None.
Proof. split; vm_compute; reflexivity. Qed.

(** C6, as the page computes it.  The final average of a pupil is taken
    over the quarters that have grades only: it is the sum of the non-null
    quarterly averages divided by their number, rounded to two decimals,
    whenever that mean is a number other than zero; with grades in the first
    and third quarters only the divisor is 2; a pupil with no grade in any
    quarter has a null final average.  Each quarterly average is the rounded
    mean of the pupil's grades of that quarter, or null without grades.
    Sums, quotients and roundings are those of JavaScript numbers. *)
Theorem final_average_over_graded_quarters
    (rows : list Grades.GradeRecord) (pupil : Grades.Pupil) :
  let a := pupilAverages rows pupil in
  let id := Grades.pupil_row_id pupil in
  let mean := div (sum (graded_quarters a)) (count (graded_quarters a)) in
  (Grades.q1_avg a = quarterAverage rows id 1 /\
   Grades.q2_avg a = quarterAverage rows id 2 /\
   Grades.q3_avg a = quarterAverage rows id 3 /\
   Grades.q4_avg a = quarterAverage rows id 4) /\
  (forall q, quarterAverage rows id q = None <-> pupilGrades rows id q = []) /\
  (forall q, pupilGrades rows id q <> [] ->
     quarterAverage rows id q
     = Some (round2 (div (sum (pupilGrades rows id q))
                       (count (pupilGrades rows id q))))) /\
  (graded_quarters a <> [] ->
   Grades.final_avg a = if truthy mean then Some (round2 mean) else None) /\
  (forall x y,
      Grades.q1_avg a = Some x -> Grades.q2_avg a = None ->
      Grades.q3_avg a = Some y -> Grades.q4_avg a = None ->
      truthy (div (sum [x; y]) (of_Z 2)) = true ->
      Grades.final_avg a = Some (round2 (div (sum [x; y]) (of_Z 2)))) /\
  ((forall q, In q [1; 2; 3; 4] -> pupilGrades rows id q = []) ->
   graded_quarters a = [] /\ Grades.final_avg a = None).
Proof.
  intros a id mean.
  assert (Hq : Grades.q1_avg a = quarterAverage rows id 1 /\
               Grades.q2_avg a = quarterAverage rows id 2 /\
               Grades.q3_avg a = quarterAverage rows id 3 /\
               Grades.q4_avg a = quarterAverage rows id 4) by (repeat split).
  assert (Hfinal :
            Grades.final_avg a
            = if (0 <? List.length (graded_quarters a))%nat
              then if truthy mean then Some (round2 mean) else None
              else None).
  { subst mean a. unfold graded_quarters, pupilAverages.
    cbn [Grades.q1_avg Grades.q2_avg Grades.q3_avg Grades.q4_avg
         Grades.final_avg map lookup_quarter find fst Z.eqb Pos.eqb flat_map].
    fold id.
    destruct (quarterAverage rows id 1), (quarterAverage rows id 2),
      (quarterAverage rows id 3), (quarterAverage rows id 4); reflexivity. }
  split; [exact Hq |].
  split; [intros q; apply quarterAverage_none |].
  split; [intros q; apply quarterAverage_some |].
  split; [| split].
  - intros Hsome. rewrite Hfinal.
    destruct (graded_quarters a); [now elim Hsome | reflexivity].
  - intros x y H1 H2 H3 H4 Hxy.
    assert (E : graded_quarters a = [x; y]).
    { unfold graded_quarters. now rewrite H1, H2, H3, H4. }
    assert (Em : mean = div (sum [x; y]) (of_Z 2)).
    { subst mean. now rewrite E. }
    rewrite Hfinal, E, Em, Hxy. reflexivity.
  - intros Hnone.
    destruct Hq as (H1 & H2 & H3 & H4).
    assert (E : graded_quarters a = []).
    { unfold graded_quarters. rewrite H1, H2, H3, H4.
      rewrite !(proj2 (quarterAverage_none rows id _)); [reflexivity | | | |];
        apply Hnone; cbn; tauto. }
    split; [exact E |]. now rewrite Hfinal, E.
Qed.

Lemma final_average_over_graded_quarters_witness :
  let rows := [GradesSamples.graded 1 "math-1" 1 80;
               GradesSamples.graded 2 "math-1" 3 85;
               GradesSamples.graded 3 "sci-1" 3 90] in
  Grades.final_avg (pupilAverages rows GradesSamples.ana)
  = Some (decimal 8375 100).
Proof.
  intros rows.
  destruct (final_average_over_graded_quarters rows GradesSamples.ana)
    as (_ & _ & _ & _ & Htwo & _).
  rewrite (Htwo (of_Z 80) (decimal 875 10)).
  - vm_compute. reflexivity.
  - vm_compute. reflexivity.
  - reflexivity.
  - vm_compute. reflexivity.
  - reflexivity.
  - vm_compute. reflexivity.
Defined.

End AveragesFacts.

(** ** Saving grades *)

Module SaveFacts.
Import Js Types Grades.

Section OneSave.
Variables (now : string) (st : Page) (q : Z).

Lemma same_key_inserted (id : nat) (p : string) (v : Qc) :
  same_key p (selectedSubject st) q (inserted id (gradeData now st q p v)) = true.
Proof.
  unfold same_key, inserted, gradeData; cbn.
  now rewrite !String.eqb_refl, Z.eqb_refl.
Qed.

Lemma same_key_updated (p : string) (v : Qc) (g : GradeRecord) :
  same_key p (selectedSubject st) q (updated (gradeData now st q p v) g) = true.
Proof.
  unfold same_key, updated, gradeData; cbn.
  now rewrite !String.eqb_refl, Z.eqb_refl.
Qed.

Lemma other_key_false (p p' s' : string) (q' : Z) (g : GradeRecord) :
  p' <> p -> pupil_id g = p' -> same_key p s' q' g = false.
Proof.
  intros Hp Hg. unfold same_key. rewrite Hg.
  apply String.eqb_neq in Hp. now rewrite Hp.
Qed.

Lemma same_key_pupil (p s' : string) (q' : Z) (g : GradeRecord) :
  same_key p s' q' g = true -> pupil_id g = p.
Proof.
  unfold same_key. intros H.
  apply andb_prop in H as [H _]. apply andb_prop in H as [H _].
  now apply String.eqb_eq.
Qed.

Lemma update_by_id_untouched (id : nat) (d : GradeData) :
  forall rows,
    Forall (fun g => grade_id g <> id) rows -> update_by_id id d rows = rows.
Proof.
  induction 1 as [| g rows Hg _ IH]; cbn; [reflexivity |].
  apply Nat.eqb_neq in Hg. rewrite Hg. f_equal. exact IH.
Qed.

Lemma update_by_id_ids (id : nat) (d : GradeData) (rows : list GradeRecord) :
  map grade_id (update_by_id id d rows) = map grade_id rows.
Proof.
  unfold update_by_id. rewrite map_map. apply map_ext.
  intros g. now destruct (Nat.eqb (grade_id g) id).
Qed.

(** Rows are told apart by their ids. *)
Lemma same_id_same_row :
  forall rows a b,
    NoDup (map grade_id rows) -> In a rows -> In b rows ->
    grade_id a = grade_id b -> a = b.
Proof.
  induction rows as [| g rows IH]; intros a b Hnd Ha Hb E; [easy |].
  cbn in Hnd. inversion Hnd as [| ? ? Hnotin Hnd']; subst.
  destruct Ha as [-> | Ha], Hb as [-> | Hb].
  - reflexivity.
  - elim Hnotin. rewrite E. now apply in_map.
  - elim Hnotin. rewrite <- E. now apply in_map.
  - now apply IH.
Qed.

(** A filter that does not tell a row from its update commutes with the
    update of that row. *)
Lemma filter_update_by_id (f : GradeRecord -> bool) (d : GradeData)
    (existing : GradeRecord) :
  f (updated d existing) = f existing ->
  forall rows,
    (forall g, In g rows -> grade_id g = grade_id existing -> g = existing) ->
    filter f (update_by_id (grade_id existing) d rows)
    = update_by_id (grade_id existing) d (filter f rows).
Proof.
  intros Hf. induction rows as [| g rows IH]; intros Hrows; [reflexivity |].
  cbn [update_by_id map filter].
  fold (update_by_id (grade_id existing) d rows).
  assert (IH' := IH (fun g' Hg' => Hrows g' (or_intror Hg'))).
  destruct (Nat.eqb (grade_id g) (grade_id existing)) eqn:Hid.
  - apply Nat.eqb_eq in Hid.
    rewrite (Hrows g (or_introl eq_refl) Hid), Hf.
    destruct (f existing); [| exact IH'].
    cbn [update_by_id map]. rewrite Nat.eqb_refl. f_equal. exact IH'.
  - destruct (f g); [| exact IH'].
    cbn [update_by_id map]. rewrite Hid. f_equal. exact IH'.
Qed.

Lemma single_some {A} (rows : list A) (r : A) :
  single rows = Some r -> rows = [r].
Proof.
  destruct rows as [| x [| y rest]]; cbn; intros H; inversion H; reflexivity.
Qed.

(** Each turn appends one audit entry. *)
Lemma saveGrade_one_entry (entry : string * Qc) (w : World) :
  exists e, audit_logs (saveGrade now st q entry w) = (audit_logs w ++ [e])%list.
Proof.
  destruct entry as [p v]. unfold saveGrade.
  destruct (single _); eexists; reflexivity.
Qed.

Lemma saveGrade_ids_ok (entry : string * Qc) (w : World) :
  ids_ok w -> ids_ok (saveGrade now st q entry w).
Proof.
  destruct entry as [p v]. intros [Hfresh Hnd]. unfold saveGrade, ids_ok, fresh_ids in *.
  destruct (single _) as [existing |]; cbn [grades next_id].
  - split; [| now rewrite update_by_id_ids].
    unfold update_by_id. apply Forall_map.
    revert Hfresh. apply Forall_impl. intros g Hg.
    now destruct (Nat.eqb (grade_id g) (grade_id existing)).
  - split.
    + apply Forall_app. split.
      * revert Hfresh. apply Forall_impl. intros g Hg. lia.
      * constructor; [cbn; lia | constructor].
    + rewrite map_app. cbn [map grade_id inserted].
      apply NoDup_app; [exact Hnd | repeat constructor; easy |].
      intros id Hin [<- | []].
      apply in_map_iff in Hin as (g & Hg & Hin).
      rewrite Forall_forall in Hfresh. specialize (Hfresh g Hin). lia.
Qed.

(** A turn for another pupil leaves the records of a key as they are. *)
Lemma saveGrade_other_key (p p' s' : string) (q' : Z) (v' : Qc) (w : World) :
  ids_ok w -> p' <> p ->
  records_of (saveGrade now st q (p', v') w) p s' q' = records_of w p s' q'.
Proof.
  intros [_ Hnd] Hp. unfold records_of, saveGrade.
  destruct (single _) as [existing |] eqn:Hsingle; cbn [grades].
  - apply single_some in Hsingle.
    assert (Hin : In existing (filter (same_key p' (selectedSubject st) q) (grades w)))
      by (rewrite Hsingle; now left).
    apply filter_In in Hin as [Hin Hkey].
    pose proof (same_key_pupil _ _ _ _ Hkey) as Hpupil.
    rewrite filter_update_by_id.
    + apply update_by_id_untouched. apply Forall_forall.
      intros g Hg E. apply filter_In in Hg as [Hg Hgk].
      rewrite (same_id_same_row _ g existing Hnd Hg Hin E) in Hgk.
      now rewrite (other_key_false p p' s' q' existing Hp Hpupil) in Hgk.
    + rewrite (other_key_false p p' s' q' existing Hp Hpupil).
      now apply (other_key_false p p' s' q' _ Hp).
    + intros g Hg E. now apply (same_id_same_row _ g existing Hnd).
  - rewrite filter_app. cbn [filter].
    rewrite (other_key_false p p' s' q'
               (inserted (next_id w) (gradeData now st q p' v')) Hp eq_refl).
    apply app_nil_r.
Qed.

(** First write at a key: a record is inserted, with a creation entry that
    has no old value. *)
Lemma saveGrade_creates (p : string) (v : Qc) (w : World) :
  records_of w p (selectedSubject st) q = [] ->
  let w1 := saveGrade now st q (p, v) w in
  records_of w1 p (selectedSubject st) q = [inserted (next_id w) (gradeData now st q p v)] /\
  List.length (grades w1) = S (List.length (grades w)) /\
  audit_logs w1
  = (audit_logs w ++ [
       {| log_user_id := user_id_opt st; log_action := "create_grade";
          log_entity_type := "grades"; log_entity_id := next_id w;
          log_old_values := None;
          log_new_values := Some (GradeValues (gradeData now st q p v)) |} ])%list.
Proof.
  intros Hnone. unfold records_of in *. cbv zeta. unfold saveGrade.
  rewrite Hnone. cbn [single grades next_id audit_logs].
  cbn [grade_id inserted]. repeat split.
  - rewrite filter_app, Hnone. cbn [filter app].
    now rewrite same_key_inserted.
  - rewrite length_app. cbn. lia.
Qed.

(** Later write at a key that holds one record: the record is updated in
    place, with an entry whose old value is the stored grade. *)
Lemma saveGrade_updates (p : string) (v : Qc) (w : World)
    (existing : GradeRecord) :
  ids_ok w ->
  records_of w p (selectedSubject st) q = [existing] ->
  let w2 := saveGrade now st q (p, v) w in
  records_of w2 p (selectedSubject st) q = [updated (gradeData now st q p v) existing] /\
  List.length (grades w2) = List.length (grades w) /\
  audit_logs w2
  = (audit_logs w ++ [
       {| log_user_id := user_id_opt st; log_action := "update_grade";
          log_entity_type := "grades"; log_entity_id := grade_id existing;
          log_old_values := Some (FinalGrade (final_grade existing));
          log_new_values := Some (FinalGrade v) |} ])%list.
Proof.
  intros [_ Hnd] Hone. unfold records_of in *. cbv zeta.
  unfold saveGrade. rewrite Hone. cbn [single grades next_id audit_logs].
  assert (Hin : In existing (filter (same_key p (selectedSubject st) q) (grades w)))
    by (rewrite Hone; now left).
  apply filter_In in Hin as [Hin Hkey].
  repeat split.
  - rewrite filter_update_by_id.
    + rewrite Hone. cbn. now rewrite Nat.eqb_refl.
    + rewrite Hkey. apply (same_key_updated p v).
    + intros g Hg E. now apply (same_id_same_row _ g existing Hnd).
  - unfold update_by_id. apply length_map.
Qed.

(** The turns for other pupils: the key is left alone, and one audit entry
    is appended per turn. *)
Lemma saveAll_other_key (p s' : string) (q' : Z) :
  forall entries w,
    ids_ok w -> ~ In p (map fst entries) ->
    let w' := saveAll now st q entries w in
    ids_ok w' /\
    records_of w' p s' q' = records_of w p s' q' /\
    exists logs,
      audit_logs w' = (audit_logs w ++ logs)%list /\
      List.length logs = List.length entries.
Proof.
  induction entries as [| [p' v'] entries IH]; intros w Hok Hnot; cbn zeta.
  - split; [exact Hok |]. split; [reflexivity |].
    exists []. now rewrite app_nil_r.
  - cbn [saveAll fold_left].
    fold (saveAll now st q entries (saveGrade now st q (p', v') w)).
    cbn [map fst] in Hnot.
    assert (Hp : p' <> p) by (intros ->; apply Hnot; now left).
    assert (Hrest : ~ In p (map fst entries)) by (intros H; apply Hnot; now right).
    pose proof (saveGrade_ids_ok (p', v') w Hok) as Hok1.
    destruct (IH _ Hok1 Hrest) as (Hok' & Hrec & logs & Hlogs & Hlen).
    split; [exact Hok' |].
    split; [rewrite Hrec; now apply saveGrade_other_key |].
    destruct (saveGrade_one_entry (p', v') w) as [e He].
    exists (e :: logs). split; [| cbn; now rewrite Hlen].
    rewrite Hlogs, He, <- app_assoc. reflexivity.
Qed.

(** One call of the loop, seen from one of its entries: the turns before it
    and after it leave its key alone, and the audit entries of the call are
    one per entry, in the order of the entries. *)
Lemma saveAll_at_key (p : string) (v : Qc) (before after : list (string * Qc))
    (w : World) :
  ids_ok w ->
  ~ In p (map fst before) -> ~ In p (map fst after) ->
  let reached := saveAll now st q before w in
  let saved := saveGrade now st q (p, v) reached in
  let w' := saveAll now st q (before ++ (p, v) :: after) w in
  ids_ok reached /\ ids_ok w' /\
  records_of reached p (selectedSubject st) q = records_of w p (selectedSubject st) q /\
  records_of w' p (selectedSubject st) q = records_of saved p (selectedSubject st) q /\
  exists lb e la,
    audit_logs saved = (audit_logs reached ++ [e])%list /\
    audit_logs w' = (audit_logs w ++ lb ++ e :: la)%list /\
    List.length lb = List.length before /\
    List.length la = List.length after.
Proof.
  intros Hok Hb Ha. cbv zeta.
  destruct (saveAll_other_key p (selectedSubject st) q before w Hok Hb)
    as (Hok1 & Hrec1 & lb & Hlb & Hlenb).
  pose proof (saveGrade_ids_ok (p, v) _ Hok1) as Hok2.
  destruct (saveAll_other_key p (selectedSubject st) q after _ Hok2 Ha)
    as (Hok3 & Hrec3 & la & Hla & Hlena).
  destruct (saveGrade_one_entry (p, v) (saveAll now st q before w)) as [e He].
  assert (Hsplit : saveAll now st q (before ++ (p, v) :: after) w
                   = saveAll now st q after
                       (saveGrade now st q (p, v) (saveAll now st q before w))).
  { unfold saveAll. now rewrite fold_left_app. }
  rewrite Hsplit.
  split; [exact Hok1 |]. split; [exact Hok3 |].
  split; [exact Hrec1 |]. split; [exact Hrec3 |].
  exists lb, e, la.
  split; [exact He |]. split; [| split; assumption].
  rewrite Hla, He, Hlb, <- !app_assoc. reflexivity.
Qed.

End OneSave.

Lemma NoDup_keys_filter {A B} (f : A * B -> bool) :
  forall l : list (A * B), NoDup (map fst l) -> NoDup (map fst (filter f l)).
Proof.
  induction l as [| x l IH]; cbn; intros Hnd; [constructor |].
  inversion Hnd as [| ? ? Hnotin Hnd']; subst.
  destruct (f x); [| now apply IH].
  cbn. constructor; [| now apply IH].
  intros Hin. apply Hnotin.
  apply in_map_iff in Hin as (y & Hy & Hin). apply filter_In in Hin as [Hin _].
  rewrite <- Hy. now apply in_map.
Qed.

(** The place of a pupil among the grades to save. *)
Lemma gradesToSave_at (st : Page) (p : string) (v : Qc) :
  NoDup (map fst (classGrades st)) -> In (p, v) (classGrades st) ->
  gt v (num 0) = true ->
  exists before after,
    gradesToSave st = (before ++ (p, v) :: after)%list /\
    ~ In p (map fst before) /\ ~ In p (map fst after).
Proof.
  intros Hnd Hin Hv.
  assert (Hin' : In (p, v) (gradesToSave st)).
  { unfold gradesToSave. apply filter_In. now split. }
  pose proof (NoDup_keys_filter (fun entry => gt (snd entry) (num 0)) _ Hnd) as Hnd'.
  fold (gradesToSave st) in Hnd'.
  destruct (in_split _ _ Hin') as (before & after & E).
  exists before, after. split; [exact E |].
  rewrite E, map_app in Hnd'. cbn [map fst] in Hnd'.
  apply NoDup_remove_2 in Hnd'.
  split; intros H; apply Hnd'; apply in_or_app; [now left | now right].
Qed.

Lemma saveClassGrades_saves (now : string) (st : Page) (w : World) (q : Z) :
  selectedSubject st <> "" ->
  parseInt (selectedQuarter st) = Some q ->
  gradesToSave st <> [] ->
  saveClassGrades now st w
  = toast (ToastSuccess "Class grades saved successfully")
      (saveAll now st q (gradesToSave st) w).
Proof.
  intros Hs Hq Hne. unfold saveClassGrades.
  apply String.eqb_neq in Hs. rewrite Hs.
  assert (Hq' : String.eqb (selectedQuarter st) "" = false).
  { apply String.eqb_neq. intros E. rewrite E in Hq. discriminate. }
  rewrite Hq', Hq. cbn [orb].
  destruct (gradesToSave st); [now elim Hne | reflexivity].
Qed.

(** C7. Two calls that save a grade for the same pupil, subject and
    quarter, among the grades of any other pupils, the key holding no record
    before the first call: after the first call the key holds one record with
    the first value, after the second it holds one record, the same row, with
    the second value; each call writes exactly one audit entry for each grade
    it saves; the entry of the first call for this grade is a creation with
    no old value, the entry of the second call is an update whose old value
    is the first grade and whose new value is the second. *)
Theorem saveGrade_twice_keeps_last_value
    (now1 now2 : string) (st1 st2 : Page) (w : World)
    (pupilId : string) (v1 v2 : Qc) (q : Z)
    (Hsubject : selectedSubject st1 <> "")
    (Hsame : selectedSubject st2 = selectedSubject st1)
    (Hq1 : parseInt (selectedQuarter st1) = Some q)
    (Hq2 : parseInt (selectedQuarter st2) = Some q)
    (Hkeys1 : NoDup (map fst (classGrades st1)))
    (Hkeys2 : NoDup (map fst (classGrades st2)))
    (Hfirst : In (pupilId, v1) (classGrades st1))
    (Hsecond : In (pupilId, v2) (classGrades st2))
    (Hv1 : gt v1 (num 0) = true)
    (Hv2 : gt v2 (num 0) = true)
    (Hdiff : v1 <> v2)
    (Hids : ids_ok w)
    (Hnone : records_of w pupilId (selectedSubject st1) q = []) :
  let w1 := saveClassGrades now1 st1 w in
  let w2 := saveClassGrades now2 st2 w1 in
  exists r1 r2 logs1 logs2 e1 e2,
    records_of w1 pupilId (selectedSubject st1) q = [r1] /\
    final_grade r1 = v1 /\
    records_of w2 pupilId (selectedSubject st1) q = [r2] /\
    final_grade r2 = v2 /\
    grade_id r2 = grade_id r1 /\
    audit_logs w1 = (audit_logs w ++ logs1)%list /\
    List.length logs1 = List.length (gradesToSave st1) /\
    entry_for (gradesToSave st1) pupilId logs1 e1 /\
    log_action e1 = "create_grade" /\
    log_old_values e1 = None /\
    log_entity_id e1 = grade_id r1 /\
    audit_logs w2 = (audit_logs w1 ++ logs2)%list /\
    List.length logs2 = List.length (gradesToSave st2) /\
    entry_for (gradesToSave st2) pupilId logs2 e2 /\
    log_action e2 = "update_grade" /\
    log_old_values e2 = Some (FinalGrade v1) /\
    log_new_values e2 = Some (FinalGrade v2) /\
    log_entity_id e2 = grade_id r1.
Proof.
  intros w1 w2.
  destruct (gradesToSave_at st1 pupilId v1 Hkeys1 Hfirst Hv1)
    as (b1 & a1 & E1 & Hb1 & Ha1).
  destruct (gradesToSave_at st2 pupilId v2 Hkeys2 Hsecond Hv2)
    as (b2 & a2 & E2 & Hb2 & Ha2).
  assert (Hw1 : w1 = toast (ToastSuccess "Class grades saved successfully")
                  (saveAll now1 st1 q (gradesToSave st1) w)).
  { apply saveClassGrades_saves; try assumption.
    rewrite E1. now destruct b1. }
  assert (Hw2 : w2 = toast (ToastSuccess "Class grades saved successfully")
                  (saveAll now2 st2 q (gradesToSave st2) w1)).
  { apply saveClassGrades_saves; try assumption.
    - now rewrite Hsame.
    - rewrite E2. now destruct b2. }
  (* first call *)
  destruct (saveAll_at_key now1 st1 q pupilId v1 b1 a1 w Hids Hb1 Ha1)
    as (Hok1 & Hok1' & Hreached1 & Hrec1 & lb1 & e1 & la1 & He1 & Hlogs1 & Hlb1 & Hla1).
  rewrite Hnone in Hreached1.
  destruct (saveGrade_creates now1 st1 q pupilId v1 _ Hreached1)
    as (Hnew1 & _ & Haudit1).
  rewrite Hnew1 in Hrec1. rewrite Haudit1 in He1.
  apply app_inv_head in He1. injection He1 as He1.
  set (r1 := inserted (next_id (saveAll now1 st1 q b1 w))
               (gradeData now1 st1 q pupilId v1)) in *.
  rewrite <- E1 in Hrec1, Hlogs1, Hok1'.
  assert (Hrec_w1 : records_of w1 pupilId (selectedSubject st1) q = [r1]).
  { rewrite Hw1. exact Hrec1. }
  assert (Hok_w1 : ids_ok w1) by (rewrite Hw1; exact Hok1').
  (* second call *)
  destruct (saveAll_at_key now2 st2 q pupilId v2 b2 a2 w1 Hok_w1 Hb2 Ha2)
    as (Hok2 & _ & Hreached2 & Hrec2 & lb2 & e2 & la2 & He2 & Hlogs2 & Hlb2 & Hla2).
  rewrite Hsame, Hrec_w1 in Hreached2.
  rewrite <- Hsame in Hreached2.
  destruct (saveGrade_updates now2 st2 q pupilId v2 _ r1 Hok2 Hreached2)
    as (Hupd2 & _ & Haudit2).
  rewrite Hupd2 in Hrec2. rewrite Haudit2 in He2.
  apply app_inv_head in He2. injection He2 as He2.
  rewrite <- E2, Hsame in Hrec2. rewrite <- E2 in Hlogs2.
  exists r1, (updated (gradeData now2 st2 q pupilId v2) r1),
    (lb1 ++ e1 :: la1)%list, (lb2 ++ e2 :: la2)%list, e1, e2.
  split; [exact Hrec_w1 |].
  split; [reflexivity |].
  split; [rewrite Hw2; exact Hrec2 |].
  split; [reflexivity |].
  split; [reflexivity |].
  split; [rewrite Hw1; exact Hlogs1 |].
  split; [rewrite E1, !length_app; cbn; lia |].
  split; [exists b1, v1, a1, lb1, la1; now repeat split |].
  split; [now rewrite <- He1 |].
  split; [now rewrite <- He1 |].
  split; [now rewrite <- He1 |].
  split; [rewrite Hw2; exact Hlogs2 |].
  split; [rewrite E2, !length_app; cbn; lia |].
  split; [exists b2, v2, a2, lb2, la2; now repeat split |].
  rewrite <- He2. now repeat split.
Qed.

Lemma saveGrade_twice_keeps_last_value_witness :
  let w1 := saveClassGrades "2024-06-10T00:20:00.000Z"
              (GradesSamples.sheet (num 85)) GradesSamples.nothing in
  let w2 := saveClassGrades "2024-06-11T01:00:00.000Z"
              (GradesSamples.entry (num 90)) w1 in
  exists r2 e2,
    records_of w2 "p-1" "math-1" 1 = [r2] /\ final_grade r2 = num 90 /\
    log_old_values e2 = Some (FinalGrade (num 85)).
Proof.
  assert (Hdiff : num 85 <> num 90).
  { intros H. apply (f_equal this) in H. vm_compute in H. discriminate. }
  assert (Hkeys1 : NoDup (map fst (classGrades (GradesSamples.sheet (num 85))))).
  { cbn. repeat constructor; cbn; intuition discriminate. }
  assert (Hkeys2 : NoDup (map fst (classGrades (GradesSamples.entry (num 90))))).
  { cbn. repeat constructor; cbn; intuition discriminate. }
  assert (Hids : ids_ok GradesSamples.nothing).
  { split; constructor. }
  destruct (saveGrade_twice_keeps_last_value
              "2024-06-10T00:20:00.000Z" "2024-06-11T01:00:00.000Z"
              (GradesSamples.sheet (num 85)) (GradesSamples.entry (num 90))
              GradesSamples.nothing "p-1" (num 85) (num 90) 1
              ltac:(discriminate) eq_refl eq_refl eq_refl Hkeys1 Hkeys2
              (or_intror (or_introl eq_refl)) (or_introl eq_refl)
              eq_refl eq_refl Hdiff Hids eq_refl)
    as (r1 & r2 & logs1 & logs2 & e1 & e2 & _ & _ & Hr2 & Hv2 & _ & _ & _ & _ &
        _ & _ & _ & _ & _ & _ & _ & Hold & _).
  exists r2, e2. now repeat split.
Defined.

(** C8, at a grade outside every declared range.  The entry constraint
    [gradeSchema] refuses 150 and 59, the domain constant [MAX_GRADE] is
    100, and [saveClassGrades] stores both grades and reports success: the
    only test on the save path is [grade > 0]. *)
Theorem saveClassGrades_stores_out_of_range_grade :
  let now := "2024-06-10T00:20:00.000Z" in
  let w150 := saveClassGrades now (GradesSamples.entry (num 150))
                GradesSamples.nothing in
  let w59 := saveClassGrades now (GradesSamples.entry (num 59))
               GradesSamples.nothing in
  gradeSchema (num 150) = false /\
  gradeSchema (num 59) = false /\
  gt (num 150) (num VALIDATION_RULES.MAX_GRADE) = true /\
  map final_grade (records_of w150 "p-1" "math-1" 1) = [num 150] /\
  toasts w150 = [ToastSuccess "Class grades saved successfully"] /\
  map final_grade (records_of w59 "p-1" "math-1" 1) = [num 59] /\
  toasts w59 = [ToastSuccess "Class grades saved successfully"].
Proof.
  cbv zeta. repeat split; try reflexivity;
    apply AveragesFacts.list_Qc_this_inj; vm_compute; reflexivity.
Qed.

End SaveFacts.

(** ** Bulk promotion *)

Module PromotionFacts.
Import Js Types Pupils.

Lemma find_pupil_map (id : string) (f : PupilRow -> PupilRow) :
  (forall p, pupil_row_id (f p) = pupil_row_id p) ->
  forall rows, find_pupil id (map f rows) = option_map f (find_pupil id rows).
Proof.
  intros Hid. unfold find_pupil.
  induction rows as [| p rows IH]; cbn; [reflexivity |].
  rewrite Hid. destruct (String.eqb (pupil_row_id p) id); [reflexivity | exact IH].
Qed.

Lemma find_pupil_id (id : string) :
  forall rows p, find_pupil id rows = Some p -> pupil_row_id p = id.
Proof.
  unfold find_pupil. intros rows p H. apply find_some in H.
  now apply String.eqb_eq.
Qed.

Lemma selected_in (ids : list string) (p : PupilRow) :
  selected ids p = true <-> In (pupil_row_id p) ids.
Proof.
  unfold selected. rewrite existsb_exists. split.
  - intros (x & Hx & E). apply String.eqb_eq in E. now subst.
  - intros H. exists (pupil_row_id p). split; [exact H | apply String.eqb_refl].
Qed.

(** The guard of [handlePromotePupils] lets the call through. *)
Lemma promotion_guard (st : Page) (toGrade : Z) :
  toGrade <> 0 -> promotionToSection st <> "" ->
  selectedPupilsForPromotion st <> [] ->
  (toGrade =? 0) || String.eqb (promotionToSection st) ""
  || (List.length (selectedPupilsForPromotion st) =? 0)%nat = false.
Proof.
  intros Hg Hs Hsel.
  apply Z.eqb_neq in Hg. apply String.eqb_neq in Hs. rewrite Hg, Hs.
  destruct (selectedPupilsForPromotion st); [now elim Hsel | reflexivity].
Qed.




End PromotionFacts.

(** ** More on the attendance handlers *)

Module AttendanceMoreFacts.
Import Js Types Lateness Attendance AttendanceTable AttendanceFacts.

Lemma same_key_data_key (d : AttendanceData) (r : AttendanceRow) :
  same_key d r = true <-> row_key r = data_key d.
Proof.
  unfold same_key, row_key, data_key. split.
  - intros H. apply andb_prop in H as [H H3]. apply andb_prop in H as [H1 H2].
    apply String.eqb_eq in H1, H2, H3. now rewrite H1, H2, H3.
  - intros H. inversion H. now rewrite !String.eqb_refl.
Qed.

Lemma key_of_none_not_in (d : AttendanceData) :
  forall rows, key_of d rows = None -> ~ In (data_key d) (map row_key rows).
Proof.
  unfold key_of. intros rows Hnone Hin.
  apply in_map_iff in Hin as (r & Hr & Hin).
  apply (find_none _ _ Hnone) in Hin.
  apply same_key_data_key in Hr. congruence.
Qed.

Lemma update_conflicting_keys (d : AttendanceData) :
  forall rows r' rows',
    update_conflicting d rows = Some (r', rows') ->
    map row_key rows' = map row_key rows.
Proof.
  induction rows as [| r rest IH]; intros r' rows' H; cbn [update_conflicting] in H.
  - discriminate.
  - destruct (same_key d r).
    + inversion H; subst. reflexivity.
    + destruct (update_conflicting d rest) as [[r1 rest1] |] eqn:Hu; [| discriminate].
      inversion H; subst. cbn. f_equal. now apply (IH r').
Qed.

(** An upsert keeps the unique constraint, adds at most one row, and adds
    none when the key is taken. *)
Lemma upsert_unique (d : AttendanceData) (rows : list AttendanceRow) (next : nat) :
  unique_keys rows ->
  let '(_, rows', _) := upsert d rows next in
  unique_keys rows' /\
  (List.length rows' <= S (List.length rows))%nat /\
  (key_of d rows <> None -> List.length rows' = List.length rows).
Proof.
  intros Hu. unfold upsert.
  destruct (update_conflicting d rows) as [[r' rows'] |] eqn:Hc.
  - pose proof (update_conflicting_keys d rows r' rows' Hc) as Hk.
    destruct (update_conflicting_some d rows r' rows' Hc) as (_ & Hl & _).
    unfold unique_keys. rewrite Hk. repeat split; [exact Hu | lia | now intros _].
  - apply update_conflicting_none in Hc.
    repeat split.
    + unfold unique_keys. rewrite map_app. cbn [map].
      apply NoDup_app; [exact Hu | repeat constructor; easy |].
      intros k Hin [<- | []].
      now apply (key_of_none_not_in d rows Hc).
    + rewrite length_app. cbn. lia.
    + intros H. now elim H.
Qed.

(** The whole effect of a [markAttendance] that goes through. *)
Lemma markAttendance_ok (env : Env) (st : Page) (pupilId : string)
    (status : AttendanceStatus) (timeIn remarks : option string) (w : World) :
  may_mark st -> selectedSubject st <> "" -> upsert_error env = None ->
  let d := markData env st pupilId status timeIn remarks in
  let '(row, rows, next) := upsert d (attendance w) (next_id w) in
  let w2 :=
    toast (ToastSuccess ("Attendance marked as " ++ status_name (d_status d)))
      {| attendance := rows; next_id := next;
         audit_logs := (audit_logs w ++ [
           {| log_user_id := user_id_opt st;
              log_action := "mark_attendance";
              log_entity_type := "attendance";
              log_entity_id := att_id row;
              log_old_values := None;
              log_new_values := Some (AttendanceValues d) |} ])%list;
         notifications := notifications w;
         toasts := toasts w |} in
  markAttendance env st pupilId status timeIn remarks w
  = if AttendanceStatus_eqb (d_status d) absent
    then sendAbsenceNotification st pupilId w2 else w2.
Proof.
  intros Hmay Hsel Hstore. cbv zeta. unfold markAttendance.
  rewrite (may_mark_guard st Hmay).
  apply String.eqb_neq in Hsel. rewrite Hsel, Hstore.
  fold (markData env st pupilId status timeIn remarks).
  destruct (upsert _ _ _) as [[row rows] next]. reflexivity.
Qed.

Lemma sendAbsenceNotification_keeps (st : Page) (p : string) (w : World) :
  let w' := sendAbsenceNotification st p w in
  attendance w' = attendance w /\ next_id w' = next_id w /\
  audit_logs w' = audit_logs w /\ toasts w' = toasts w.
Proof.
  unfold sendAbsenceNotification.
  destruct (find _ (pupils st)) as [pupil |]; [| now repeat split].
  destruct (truthy (parent_id pupil)); [| now repeat split].
  destruct (parent_id pupil); now repeat split.
Qed.

(** X1. [markAttendance] writes nothing when nobody is signed in, when the
    caller is a parent, when no subject is selected or when the store refuses
    the upsert: the table, the audit log and the notifications are as before
    and one error toast is shown. *)
Theorem markAttendance_refusals_write_nothing
    (env : Env) (st : Page) (pupilId : string) (status : AttendanceStatus)
    (timeIn remarks : option string) (w : World)
    (Hrefused : user st = None \/ isRole st parent = true \/
                selectedSubject st = "" \/ upsert_error env <> None) :
  let w' := markAttendance env st pupilId status timeIn remarks w in
  attendance w' = attendance w /\
  audit_logs w' = audit_logs w /\
  notifications w' = notifications w /\
  exists msg, toasts w' = (toasts w ++ [ToastError msg])%list.
Proof.
  cbv zeta. unfold markAttendance.
  destruct (match user st with None => true | Some _ => false end
            || isRole st parent) eqn:Hguard.
  { repeat split. eexists. reflexivity. }
  destruct (String.eqb (selectedSubject st) "") eqn:Hsel.
  { repeat split. eexists. reflexivity. }
  destruct (upsert_error env) as [msg |] eqn:Hstore.
  { repeat split. eexists. reflexivity. }
  exfalso. apply orb_false_elim in Hguard as [Hu Hp].
  destruct Hrefused as [H | [H | [H | H]]].
  - now rewrite H in Hu.
  - congruence.
  - rewrite H in Hsel. discriminate.
  - now apply H.
Qed.

Lemma markAttendance_refusals_write_nothing_witness :
  let parent_page :=
    {| user := Some {| user_id := "par-1"; user_role := parent |};
       pupils := [AttendanceSamples.ana];
       subjects := [AttendanceSamples.math];
       selectedSubject := "math-1"; selectedDate := "2024-06-10" |} in
  attendance (markAttendance AttendanceSamples.manila parent_page "p-1" present
                None None AttendanceSamples.nothing) = [].
Proof.
  intros parent_page.
  destruct (markAttendance_refusals_write_nothing AttendanceSamples.manila
              parent_page "p-1" present None None AttendanceSamples.nothing
              (or_intror (or_introl eq_refl))) as (Hatt & _).
  exact Hatt.
Defined.

(** X2. Both attendance writes keep the table's unique constraint on
    (pupil, subject, date): a table without two rows for one key has none
    after [markAttendance] or [handleExcuseAbsence], whatever the arguments
    and the answer of the store; a call adds at most one row, and none when
    the key already has a record. *)
Theorem attendance_writes_keep_unique_keys
    (env : Env) (st : Page) (pupilId : string) (status : AttendanceStatus)
    (timeIn remarks : option string) (reason : string) (w : World)
    (Hunique : unique_keys (attendance w)) :
  let marked := markAttendance env st pupilId status timeIn remarks w in
  let excusedw := handleExcuseAbsence env st pupilId reason w in
  unique_keys (attendance marked) /\
  unique_keys (attendance excusedw) /\
  (List.length (attendance marked) <= S (List.length (attendance w)))%nat /\
  (List.length (attendance excusedw) <= S (List.length (attendance w)))%nat /\
  (find_record (attendance w) pupilId (selectedSubject st) (selectedDate st)
   <> None ->
   List.length (attendance marked) = List.length (attendance w) /\
   List.length (attendance excusedw) = List.length (attendance w)).
Proof.
  cbv zeta.
  assert (Hmark :
            unique_keys (attendance (markAttendance env st pupilId status timeIn remarks w)) /\
            (List.length (attendance (markAttendance env st pupilId status timeIn remarks w))
             <= S (List.length (attendance w)))%nat /\
            (find_record (attendance w) pupilId (selectedSubject st) (selectedDate st) <> None ->
             List.length (attendance (markAttendance env st pupilId status timeIn remarks w))
             = List.length (attendance w))).
  { unfold markAttendance.
    destruct (_ || isRole st parent); [repeat split; (exact Hunique || cbn; lia) |].
    destruct (String.eqb (selectedSubject st) ""); [repeat split; (exact Hunique || cbn; lia) |].
    destruct (upsert_error env); [repeat split; (exact Hunique || cbn; lia) |].
    fold (markData env st pupilId status timeIn remarks).
    pose proof (upsert_unique (markData env st pupilId status timeIn remarks)
                  (attendance w) (next_id w) Hunique) as Hu.
    destruct (upsert _ _ _) as [[row rows] next].
    destruct Hu as (Hu1 & Hu2 & Hu3).
    destruct (AttendanceStatus_eqb _ absent);
      rewrite ?attendance_sendAbsenceNotification; cbn [toast attendance];
      repeat split; assumption. }
  assert (Hexc :
            unique_keys (attendance (handleExcuseAbsence env st pupilId reason w)) /\
            (List.length (attendance (handleExcuseAbsence env st pupilId reason w))
             <= S (List.length (attendance w)))%nat /\
            (find_record (attendance w) pupilId (selectedSubject st) (selectedDate st) <> None ->
             List.length (attendance (handleExcuseAbsence env st pupilId reason w))
             = List.length (attendance w))).
  { unfold handleExcuseAbsence.
    destruct (blank reason); [repeat split; (exact Hunique || cbn; lia) |].
    destruct (upsert_error env); [repeat split; (exact Hunique || cbn; lia) |].
    fold (excuseData env st pupilId reason).
    pose proof (upsert_unique (excuseData env st pupilId reason)
                  (attendance w) (next_id w) Hunique) as Hu.
    destruct (upsert _ _ _) as [[row rows] next].
    destruct Hu as (Hu1 & Hu2 & Hu3).
    cbn [toast attendance]. repeat split; assumption. }
  destruct Hmark as (M1 & M2 & M3), Hexc as (E1 & E2 & E3).
  repeat split; try assumption; [now apply M3 | now apply E3].
Qed.

Lemma attendance_writes_keep_unique_keys_witness :
  unique_keys
    (attendance
       (markAttendance AttendanceSamples.manila AttendanceSamples.page1 "p-1"
          absent None None
          (markAttendance AttendanceSamples.manila AttendanceSamples.page1 "p-1"
             present None None AttendanceSamples.nothing))).
Proof.
  destruct (attendance_writes_keep_unique_keys AttendanceSamples.manila
              AttendanceSamples.page1 "p-1" present None None ""
              AttendanceSamples.nothing (NoDup_nil _)) as (Hfirst & _).
  destruct (attendance_writes_keep_unique_keys AttendanceSamples.manila
              AttendanceSamples.page1 "p-1" absent None None "" _ Hfirst)
    as (Hsecond & _).
  exact Hsecond.
Defined.

Lemma finalStatus_absent (env : Env) (st : Page) (status : AttendanceStatus)
    (t : string) :
  AttendanceStatus_eqb (finalStatus env st status t) absent
  = AttendanceStatus_eqb status absent.
Proof.
  unfold finalStatus. destruct (find_subject st) as [subject |]; [| reflexivity].
  destruct status; cbn [AttendanceStatus_eqb andb]; try reflexivity.
  destruct (truthy (start_time subject)); [| reflexivity].
  now destruct (isLate _ _ _).
Qed.

Lemma status_eqb_absent (s : AttendanceStatus) :
  AttendanceStatus_eqb s absent = true <-> s = absent.
Proof. destruct s; cbn; split; congruence. Qed.

(** X3. A [markAttendance] that goes through tells the guardian exactly
    when the caller marks the pupil absent: for any other status no
    notification is written; for [absent], when the page's pupil list has the
    pupil with a guardian, one notification of type [attendance_alert] is
    appended, addressed to the guardian and sent by the caller; when the
    pupil is not in the list or has no guardian, none is written and nothing
    fails. *)
Theorem markAttendance_notifies_guardian_of_absence
    (env : Env) (st : Page) (pupilId : string) (status : AttendanceStatus)
    (timeIn remarks : option string) (w : World)
    (Hmay : may_mark st)
    (Hsel : selectedSubject st <> "")
    (Hstore : upsert_error env = None) :
  let w' := markAttendance env st pupilId status timeIn remarks w in
  (status <> absent -> notifications w' = notifications w) /\
  (status = absent ->
   forall pupil guardian,
     find_page_pupil st pupilId = Some pupil ->
     parent_id pupil = Some guardian -> guardian <> "" ->
     exists n,
       notifications w' = (notifications w ++ [n])%list /\
       recipient_id n = guardian /\
       notif_type n = "attendance_alert" /\
       sender_id n = user_id_opt st) /\
  (status = absent ->
   find_page_pupil st pupilId = None \/
   (exists pupil, find_page_pupil st pupilId = Some pupil /\
                  truthy (parent_id pupil) = false) ->
   notifications w' = notifications w) /\
  exists t, toasts w' = (toasts w ++ [ToastSuccess t])%list.
Proof.
  cbv zeta.
  pose proof (markAttendance_ok env st pupilId status timeIn remarks w
                Hmay Hsel Hstore) as Hshape.
  cbv zeta in Hshape.
  destruct (upsert _ _ _) as [[row rows] next].
  rewrite Hshape. clear Hshape.
  cbn [markData d_status]. rewrite finalStatus_absent.
  split; [| split; [| split]].
  - intros Hs. destruct (AttendanceStatus_eqb status absent) eqn:E.
    + apply status_eqb_absent in E. now elim Hs.
    + reflexivity.
  - intros -> pupil guardian Hfind Hparent Hg. cbn [AttendanceStatus_eqb].
    unfold sendAbsenceNotification. unfold find_page_pupil in Hfind.
    rewrite Hfind, Hparent. cbn [truthy].
    apply String.eqb_neq in Hg. rewrite Hg. cbn [negb].
    eexists. cbn [notifications toast]. repeat split.
  - intros -> Hno. cbn [AttendanceStatus_eqb].
    unfold sendAbsenceNotification. unfold find_page_pupil in Hno.
    destruct Hno as [Hnone | (pupil & Hfind & Hfalsy)].
    + now rewrite Hnone.
    + now rewrite Hfind, Hfalsy.
  - destruct (AttendanceStatus_eqb status absent).
    + destruct (sendAbsenceNotification_keeps st pupilId
                  (toast (ToastSuccess
                            ("Attendance marked as " ++
                             status_name (finalStatus env st status (observedTime env timeIn))))
                     {| attendance := rows; next_id := next;
                        audit_logs := (audit_logs w ++ [
                          {| log_user_id := user_id_opt st;
                             log_action := "mark_attendance";
                             log_entity_type := "attendance";
                             log_entity_id := att_id row;
                             log_old_values := None;
                             log_new_values :=
                               Some (AttendanceValues
                                       (markData env st pupilId status timeIn remarks)) |} ])%list;
                        notifications := notifications w;
                        toasts := toasts w |})) as (_ & _ & _ & Ht).
      cbn [markData d_status] in Ht. rewrite Ht. eexists. reflexivity.
    + eexists. reflexivity.
Qed.

Lemma markAttendance_notifies_guardian_of_absence_witness :
  exists n,
    notifications
      (markAttendance AttendanceSamples.manila AttendanceSamples.page1 "p-1"
         absent None None AttendanceSamples.nothing) = [n] /\
    recipient_id n = "par-1".
Proof.
  assert (Hmay : may_mark AttendanceSamples.page1).
  { exists AttendanceSamples.teacher1. split; [reflexivity | discriminate]. }
  destruct (markAttendance_notifies_guardian_of_absence
              AttendanceSamples.manila AttendanceSamples.page1 "p-1" absent
              None None AttendanceSamples.nothing
              Hmay ltac:(discriminate) eq_refl) as (_ & Habsent & _).
  destruct (Habsent eq_refl AttendanceSamples.ana "par-1" eq_refl eq_refl
              ltac:(discriminate)) as (n & Hn & Hto & _).
  exists n. split; [exact Hn | exact Hto].
Defined.

(** X4. Every [markAttendance] that goes through appends exactly one audit
    entry: its action is [mark_attendance], it has no old values, its new
    values are the body that was sent, and its entity id is the id of the row
    now stored at (pupil, subject, date), the row kept when the key was
    taken and the new one otherwise. *)
Theorem markAttendance_audits_the_written_row
    (env : Env) (st : Page) (pupilId : string) (status : AttendanceStatus)
    (timeIn remarks : option string) (w : World)
    (Hmay : may_mark st)
    (Hsel : selectedSubject st <> "")
    (Hstore : upsert_error env = None) :
  let w' := markAttendance env st pupilId status timeIn remarks w in
  exists row e,
    find_record (attendance w') pupilId (selectedSubject st) (selectedDate st)
    = Some row /\
    audit_logs w' = (audit_logs w ++ [e])%list /\
    log_action e = "mark_attendance" /\
    log_entity_id e = att_id row /\
    log_old_values e = None /\
    log_new_values e
    = Some (AttendanceValues (markData env st pupilId status timeIn remarks)) /\
    log_user_id e = user_id_opt st /\
    match find_record (attendance w) pupilId (selectedSubject st)
            (selectedDate st) with
    | Some old => att_id row = att_id old
    | None => att_id row = next_id w
    end.
Proof.
  cbv zeta.
  pose proof (markAttendance_ok env st pupilId status timeIn remarks w
                Hmay Hsel Hstore) as Hshape.
  pose proof (upsert_written (markData env st pupilId status timeIn remarks)
                (attendance w) (next_id w)) as Hw.
  cbv zeta in Hshape.
  destruct (upsert _ _ _) as [[row rows] next].
  destruct Hw as [Hkey Hrow].
  rewrite <- key_of_find_record in Hkey.
  change (key_of (markData env st pupilId status timeIn remarks) (attendance w))
    with (find_record (attendance w) pupilId (selectedSubject st) (selectedDate st))
    in Hrow.
  cbn [markData d_pupil_id d_subject_id d_date] in Hkey.
  rewrite Hshape. clear Hshape.
  eexists row, _.
  split.
  { destruct (AttendanceStatus_eqb _ absent);
      rewrite ?attendance_sendAbsenceNotification; exact Hkey. }
  split.
  { destruct (AttendanceStatus_eqb _ absent).
    - match goal with
      | |- audit_logs (sendAbsenceNotification ?s ?p ?x) = _ =>
          destruct (sendAbsenceNotification_keeps s p x) as (_ & _ & Ha & _);
          rewrite Ha
      end.
      reflexivity.
    - reflexivity. }
  repeat split.
  destruct (find_record (attendance w) pupilId (selectedSubject st)
              (selectedDate st)) as [old |]; destruct Hrow as [-> _]; reflexivity.
Qed.

Lemma markAttendance_audits_the_written_row_witness :
  exists e,
    audit_logs
      (markAttendance AttendanceSamples.manila AttendanceSamples.page1 "p-1"
         present None None AttendanceSamples.nothing) = [e] /\
    log_entity_id e = 1%nat.
Proof.
  assert (Hmay : may_mark AttendanceSamples.page1).
  { exists AttendanceSamples.teacher1. split; [reflexivity | discriminate]. }
  destruct (markAttendance_audits_the_written_row
              AttendanceSamples.manila AttendanceSamples.page1 "p-1" present
              None None AttendanceSamples.nothing
              Hmay ltac:(discriminate) eq_refl)
    as (row & e & _ & Hlogs & _ & Hid & _ & _ & _ & Hnew).
  exists e. split; [exact Hlogs |]. now rewrite Hid.
Defined.

(** X5. Marking a pupil absent and then excusing the absence, on the same
    page selection: the key holds one record, the one the first call wrote,
    now with status [excused], the reason, and no time-in; the second call
    adds no row. *)
Theorem absent_then_excused
    (env1 env2 : Env) (st : Page) (pupilId reason : string)
    (timeIn remarks : option string) (w : World)
    (Hmay : may_mark st)
    (Hsel : selectedSubject st <> "")
    (Hstore1 : upsert_error env1 = None)
    (Hstore2 : upsert_error env2 = None)
    (Hreason : blank reason = false) :
  let w1 := markAttendance env1 st pupilId absent timeIn remarks w in
  let w2 := handleExcuseAbsence env2 st pupilId reason w1 in
  exists marked row,
    find_record (attendance w1) pupilId (selectedSubject st) (selectedDate st)
    = Some marked /\
    att_status marked = absent /\
    find_record (attendance w2) pupilId (selectedSubject st) (selectedDate st)
    = Some row /\
    att_id row = att_id marked /\
    att_status row = excused /\
    att_excuse_reason row = Some reason /\
    att_time_in row = None /\
    att_remarks row = att_remarks marked /\
    List.length (attendance w2) = List.length (attendance w1).
Proof.
  cbv zeta.
  destruct (markAttendance_written env1 st pupilId absent timeIn remarks w
              Hmay Hsel Hstore1) as (marked & Hfind1 & Hstatus1 & Htime1).
  set (w1 := markAttendance env1 st pupilId absent timeIn remarks w) in *.
  assert (Habsent : att_status marked = absent).
  { rewrite Hstatus1. unfold finalStatus.
    now destruct (find_subject st). }
  unfold handleExcuseAbsence. rewrite Hreason, Hstore2.
  fold (excuseData env2 st pupilId reason).
  pose proof (upsert_written (excuseData env2 st pupilId reason)
                (attendance w1) (next_id w1)) as Hw.
  destruct (upsert _ _ _) as [[row rows] next].
  destruct Hw as [Hkey Hrow].
  rewrite <- key_of_find_record in Hkey.
  change (key_of (excuseData env2 st pupilId reason) (attendance w1))
    with (find_record (attendance w1) pupilId (selectedSubject st) (selectedDate st))
    in Hrow.
  rewrite Hfind1 in Hrow. destruct Hrow as [Hrow Hlen].
  exists marked, row. cbn [toast attendance].
  split; [exact Hfind1 |]. split; [exact Habsent |].
  split; [exact Hkey |].
  rewrite Hrow. cbn. rewrite Htime1.
  repeat split. exact Hlen.
Qed.

Lemma absent_then_excused_witness :
  exists row,
    find_record
      (attendance
         (handleExcuseAbsence AttendanceSamples.manila AttendanceSamples.page1
            "p-1" "fever"
            (markAttendance AttendanceSamples.manila AttendanceSamples.page1
               "p-1" absent None None AttendanceSamples.nothing)))
      "p-1" "math-1" "2024-06-10" = Some row /\
    att_status row = excused.
Proof.
  assert (Hmay : may_mark AttendanceSamples.page1).
  { exists AttendanceSamples.teacher1. split; [reflexivity | discriminate]. }
  destruct (absent_then_excused AttendanceSamples.manila AttendanceSamples.manila
              AttendanceSamples.page1 "p-1" "fever" None None
              AttendanceSamples.nothing Hmay ltac:(discriminate)
              eq_refl eq_refl eq_refl)
    as (marked & row & _ & _ & Hfind & _ & Hstatus & _).
  exists row. now split.
Defined.

End AttendanceMoreFacts.

(** ** Rationals: rounding and order *)

Module NumberFacts.
Import Grades Layout.

Lemma this_num (z : Z) : this (num z) = inject_Z z.
Proof.
  unfold num. cbn [this Q2Qc]. apply Qred_identity. cbn. apply Z.gcd_1_r.
Qed.

Lemma this_Q2Qc (q : Q) : (this (Q2Qc q) == q)%Q.
Proof. cbn. apply Qred_correct. Qed.

Lemma this_plus (x y : Qc) : (this (x + y)%Qc == this x + this y)%Q.
Proof. apply this_Q2Qc. Qed.

Lemma this_mult (x y : Qc) : (this (x * y)%Qc == this x * this y)%Q.
Proof. apply this_Q2Qc. Qed.

Lemma this_div (x y : Qc) : (this (x / y)%Qc == this x / this y)%Q.
Proof.
  unfold Qcdiv. rewrite this_mult. unfold Qcinv. rewrite this_Q2Qc. reflexivity.
Qed.

Lemma this_half : (this (Q2Qc (1 # 2)) == 1 # 2)%Q.
Proof. apply this_Q2Qc. Qed.

(** The integer [k] with [k <= y < k + 1] is the floor of [y]. *)
Lemma Qfloor_unique (y : Q) (k : Z) :
  (inject_Z k <= y)%Q -> (y < inject_Z (k + 1))%Q -> Qfloor y = k.
Proof.
  intros Hlo Hhi.
  pose proof (Qfloor_le y) as Fle. pose proof (Qlt_floor y) as Flt.
  assert (H1 : (inject_Z (Qfloor y) < inject_Z (k + 1))%Q)
    by (eapply Qle_lt_trans; eassumption).
  assert (H2 : (inject_Z k < inject_Z (Qfloor y + 1))%Q)
    by (eapply Qle_lt_trans; eassumption).
  rewrite <- Zlt_Qlt in H1, H2. lia.
Qed.

(** [Math.round] brackets its argument. *)
Lemma mathRound_bounds (x : Qc) :
  (this x - (1 # 2) < inject_Z (mathRound x))%Q /\
  (inject_Z (mathRound x) <= this x + (1 # 2))%Q.
Proof.
  unfold mathRound.
  pose proof (Qfloor_le (this (x + Q2Qc (1 # 2))%Qc)) as Fle.
  pose proof (Qlt_floor (this (x + Q2Qc (1 # 2))%Qc)) as Flt.
  rewrite inject_Z_plus in Flt. change (inject_Z 1) with 1%Q in Flt.
  pose proof (this_plus x (Q2Qc (1 # 2))) as E. pose proof this_half as Eh.
  set (y := this (x + Q2Qc (1 # 2))%Qc) in *.
  set (h := this (Q2Qc (1 # 2))) in *.
  split; lra.
Qed.

Lemma mathRound_mono (x y : Qc) : (x <= y)%Qc -> mathRound x <= mathRound y.
Proof.
  intros H. unfold mathRound. apply Qfloor_resp_le.
  pose proof (this_plus x (Q2Qc (1 # 2))) as Ex.
  pose proof (this_plus y (Q2Qc (1 # 2))) as Ey.
  unfold Qcle in H. lra.
Qed.

Lemma mathRound_integer (k : Z) : mathRound (num k) = k.
Proof.
  unfold mathRound.
  pose proof (this_plus (num k) (Q2Qc (1 # 2))) as E. pose proof this_half as Eh.
  rewrite this_num in E.
  apply Qfloor_unique.
  - lra.
  - rewrite inject_Z_plus. change (inject_Z 1) with 1%Q. lra.
Qed.

(** Hundredths: the values of [Math.round(x * 100) / 100]. *)
Lemma hundredths_this (k : Z) :
  (this (Q2Qc (inject_Z k / inject_Z 100)) == inject_Z k / 100)%Q.
Proof. rewrite this_Q2Qc. reflexivity. Qed.

Lemma Qcle_num (a b : Z) : a <= b -> (num a <= num b)%Qc.
Proof.
  intros H. unfold Qcle. rewrite !this_num. now rewrite <- Zle_Qle.
Qed.

Lemma le_Qcle (x y : Qc) : le x y = true <-> (x <= y)%Qc.
Proof.
  unfold le, gt. rewrite negb_true_iff.
  destruct (x ?= y)%Qc eqn:E.
  - apply Qceq_alt in E. subst. split; [intros _; apply Qcle_refl | reflexivity].
  - apply Qclt_alt in E. split; [intros _; now apply Qclt_le_weak | reflexivity].
  - apply Qcgt_alt in E. split; [discriminate |].
    intros H. exfalso. apply (Qcle_not_lt _ _ H). exact E.
Qed.

Lemma ge_Qcle (x y : Qc) : ge x y = true <-> (y <= x)%Qc.
Proof. apply le_Qcle. Qed.

End NumberFacts.

(** ** The exported utilities *)

Module LayoutFacts.
Import Js Types Grades Layout LayoutReading NumberFacts.

Lemma num_mult (a b : Z) : (num a * num b)%Qc = num (a * b).
Proof.
  apply Qc_is_canon. rewrite this_mult, !this_num, inject_Z_mult. reflexivity.
Qed.

Lemma hundredths_of_integer (k : Z) :
  Q2Qc (inject_Z (k * 100) / inject_Z 100) = num k.
Proof.
  apply Qc_is_canon. rewrite this_Q2Qc, this_num, inject_Z_mult.
  change (inject_Z 100) with 100%Q. field.
Qed.

Lemma ge_mono (s t c : Qc) : (s <= t)%Qc -> ge s c = true -> ge t c = true.
Proof.
  intros Hst Hs. apply ge_Qcle. apply ge_Qcle in Hs.
  eapply Qcle_trans; eassumption.
Qed.

(** X7. The two sets of grade helpers name the same band for every score:
    [getGradeDescription] of the utilities gives the label of the Grades
    page's [getGradeLabel], the two [getGradeColor] agree, and letter,
    description and colour of a score always belong to one band. *)
Theorem grade_helpers_agree (score : Qc) :
  getGradeDescription score = GradeLabels.getGradeLabel score /\
  getGradeColor score = GradeLabels.getGradeColor score /\
  In (getLetterGrade score, getGradeDescription score, getGradeColor score)
     bands.
Proof.
  unfold getGradeDescription, GradeLabels.getGradeLabel, getGradeColor,
    GradeLabels.getGradeColor, getLetterGrade, bands.
  change (num GRADE_BOUNDARIES.OUTSTANDING_min) with (num 90).
  change (num GRADE_BOUNDARIES.VERY_SATISFACTORY_min) with (num 85).
  change (num GRADE_BOUNDARIES.SATISFACTORY_min) with (num 80).
  change (num GRADE_BOUNDARIES.FAIRLY_SATISFACTORY_min) with (num 75).
  destruct (ge score (num 90)); [cbn; tauto |].
  destruct (ge score (num 85)); [cbn; tauto |].
  destruct (ge score (num 80)); [cbn; tauto |].
  destruct (ge score (num 75)); cbn; tauto.
Qed.

(** X8. The letter depends on the lower bounds alone and follows the order
    of the scores: a higher score never gets a lower letter; A is given from
    90 up, also above 100; F is given below 75, also below 0; and a score
    strictly between 89 and 90, above the declared maximum of its band and
    below the minimum of the next, is a B. *)
Theorem getLetterGrade_monotone (s t : Qc) (Horder : (s <= t)%Qc) :
  (letter_rank (getLetterGrade s) <= letter_rank (getLetterGrade t))%nat /\
  ((num 90 <= t)%Qc <-> getLetterGrade t = "A") /\
  ((t < num 75)%Qc <-> getLetterGrade t = "F") /\
  ((num GRADE_BOUNDARIES.VERY_SATISFACTORY_max < t)%Qc ->
   (t < num GRADE_BOUNDARIES.OUTSTANDING_min)%Qc -> getLetterGrade t = "B").
Proof.
  unfold getLetterGrade.
  change (num GRADE_BOUNDARIES.OUTSTANDING_min) with (num 90).
  change (num GRADE_BOUNDARIES.VERY_SATISFACTORY_min) with (num 85).
  change (num GRADE_BOUNDARIES.SATISFACTORY_min) with (num 80).
  change (num GRADE_BOUNDARIES.FAIRLY_SATISFACTORY_min) with (num 75).
  change (num GRADE_BOUNDARIES.VERY_SATISFACTORY_max) with (num 89).
  pose proof (ge_mono s t (num 90) Horder) as M90.
  pose proof (ge_mono s t (num 85) Horder) as M85.
  pose proof (ge_mono s t (num 80) Horder) as M80.
  pose proof (ge_mono s t (num 75) Horder) as M75.
  assert (C1 : ge t (num 90) = true -> ge t (num 85) = true).
  { intros H. apply ge_Qcle in H. apply ge_Qcle.
    eapply Qcle_trans; [apply (Qcle_num 85 90); lia | exact H]. }
  assert (C2 : ge t (num 85) = true -> ge t (num 80) = true).
  { intros H. apply ge_Qcle in H. apply ge_Qcle.
    eapply Qcle_trans; [apply (Qcle_num 80 85); lia | exact H]. }
  assert (C3 : ge t (num 80) = true -> ge t (num 75) = true).
  { intros H. apply ge_Qcle in H. apply ge_Qcle.
    eapply Qcle_trans; [apply (Qcle_num 75 80); lia | exact H]. }
  split; [| split; [| split]].
  - destruct (ge s (num 90)) eqn:S90; [rewrite (M90 eq_refl); cbn; lia |].
    destruct (ge s (num 85)) eqn:S85.
    { rewrite (M85 eq_refl). destruct (ge t (num 90)); cbn; lia. }
    destruct (ge s (num 80)) eqn:S80.
    { rewrite (M80 eq_refl).
      destruct (ge t (num 90)); [cbn; lia |]. destruct (ge t (num 85)); cbn; lia. }
    destruct (ge s (num 75)) eqn:S75.
    { rewrite (M75 eq_refl).
      destruct (ge t (num 90)); [cbn; lia |]. destruct (ge t (num 85)); [cbn; lia |].
      destruct (ge t (num 80)); cbn; lia. }
    cbn. lia.
  - rewrite <- ge_Qcle.
    destruct (ge t (num 90)); [tauto |].
    destruct (ge t (num 85)); [split; discriminate |].
    destruct (ge t (num 80)); [split; discriminate |].
    destruct (ge t (num 75)); split; discriminate.
  - destruct (ge t (num 75)) eqn:T75.
    + split.
      * intros H. apply ge_Qcle in T75. exfalso.
        apply (Qclt_not_le _ _ H). exact T75.
      * destruct (ge t (num 90)); [discriminate |].
        destruct (ge t (num 85)); [discriminate |].
        destruct (ge t (num 80)); discriminate.
    + assert (T80 : ge t (num 80) = false)
        by (apply not_true_is_false; intros E; apply C3 in E; congruence).
      assert (T85 : ge t (num 85) = false)
        by (apply not_true_is_false; intros E; apply C2 in E; congruence).
      assert (T90 : ge t (num 90) = false)
        by (apply not_true_is_false; intros E; apply C1 in E; congruence).
      rewrite T90, T85, T80. split; [reflexivity |].
      intros _. apply Qcnot_le_lt. intros H. apply ge_Qcle in H. congruence.
  - intros H89 H90.
    assert (T90 : ge t (num 90) = false).
    { destruct (ge t (num 90)) eqn:E; [| reflexivity].
      apply ge_Qcle in E. exfalso. apply (Qclt_not_le _ _ H90). exact E. }
    assert (T85 : ge t (num 85) = true).
    { apply ge_Qcle. apply Qclt_le_weak.
      eapply Qcle_lt_trans; [apply (Qcle_num 85 89); lia | exact H89]. }
    now rewrite T90, T85.
Qed.

Lemma getLetterGrade_monotone_witness :
  getLetterGrade (Q2Qc (895 # 10)) = "B".
Proof.
  destruct (getLetterGrade_monotone (num 70) (Q2Qc (895 # 10))) as (_ & _ & _ & H).
  - unfold Qcle. vm_compute. discriminate.
  - apply H; unfold Qclt; vm_compute; reflexivity.
Defined.

(** [Math.round] of a number within half a unit of an integer. *)
Lemma mathRound_near (x : Qc) (k : Z) :
  (inject_Z k - (1 # 2) <= this x)%Q -> (this x < inject_Z k + (1 # 2))%Q ->
  mathRound x = k.
Proof.
  intros Hlo Hhi. unfold mathRound.
  pose proof (this_plus x (Q2Qc (1 # 2))) as E. pose proof this_half as Eh.
  apply Qfloor_unique.
  - lra.
  - rewrite inject_Z_plus. change (inject_Z 1) with 1%Q. lra.
Qed.

Lemma ratio_this (a t : Z) :
  (this (num a / num t * num 10000)%Qc == inject_Z a / inject_Z t * 10000)%Q.
Proof.
  rewrite this_mult, this_div, !this_num. reflexivity.
Qed.

(** The rate of [attended] out of [total] records, in hundredths of a
    percent, lies between 0 and 10000. *)
Lemma rate_hundredths_bounds (attended total : Z) :
  0 <= attended <= total -> 0 < total ->
  0 <= mathRound (num attended / num total * num 10000)%Qc <= 10000.
Proof.
  intros Ha Ht.
  pose proof (mathRound_bounds (num attended / num total * num 10000)%Qc)
    as [Hlo Hhi].
  pose proof (ratio_this attended total) as E.
  assert (Hpos : (0 < inject_Z total)%Q) by (now rewrite <- (Zlt_Qlt 0)).
  assert (H0 : (0 <= inject_Z attended / inject_Z total)%Q).
  { apply Qle_shift_div_l; [exact Hpos |].
    rewrite Qmult_0_l. rewrite <- (Zle_Qle 0). lia. }
  assert (H1 : (inject_Z attended / inject_Z total <= 1)%Q).
  { apply Qle_shift_div_r; [exact Hpos |].
    rewrite Qmult_1_l. rewrite <- Zle_Qle. lia. }
  set (k := mathRound (num attended / num total * num 10000)%Qc) in *.
  set (y := (inject_Z attended / inject_Z total)%Q) in *.
  assert (Klo : (inject_Z (-1) < inject_Z k)%Q)
    by (change (inject_Z (-1)) with (-1 # 1)%Q; lra).
  assert (Khi : (inject_Z k < inject_Z 10001)%Q)
    by (change (inject_Z 10001) with (10001 # 1)%Q; lra).
  rewrite <- Zlt_Qlt in Klo, Khi. lia.
Qed.

Lemma calculateAttendanceRate_range (present late absent excused : Z) :
  0 <= present -> 0 <= late -> 0 <= absent -> 0 <= excused ->
  (num 0 <= calculateAttendanceRate present late absent excused)%Qc /\
  (calculateAttendanceRate present late absent excused <= num 100)%Qc.
Proof.
  intros Hp Hl Ha He. unfold calculateAttendanceRate.
  destruct (Z.eqb_spec (present + late + absent + excused) 0) as [E | E].
  - split; [apply Qcle_refl | apply (Qcle_num 0 100); lia].
  - pose proof (rate_hundredths_bounds (present + late)
                  (present + late + absent + excused)
                  ltac:(lia) ltac:(lia)) as [K0 K1].
    set (k := mathRound _) in *.
    unfold Qcle. rewrite !this_num.
    pose proof (hundredths_this k) as Ek.
    rewrite Zle_Qle in K0, K1.
    change (inject_Z 0) with 0%Q in *. change (inject_Z 100) with 100%Q in *.
    change (inject_Z 10000) with 10000%Q in K1.
    set (r := this (Q2Qc (inject_Z k / 100))) in *.
    assert (Er : (r * 100 == inject_Z k)%Q) by (rewrite Ek; field).
    split; lra.
Qed.



Lemma count_status_total (rows : list Attendance.AttendanceRow) :
  count_status Types.present rows + count_status Types.absent rows
  + count_status Types.late rows + count_status Types.excused rows
  = Z.of_nat (List.length rows).
Proof.
  unfold count_status.
  induction rows as [| a rows IH]; [reflexivity |].
  cbn [filter List.length].
  destruct (Attendance.att_status a); cbn [AttendanceStatus_eqb List.length]; lia.
Qed.

Lemma count_status_nonneg (s : AttendanceStatus)
    (rows : list Attendance.AttendanceRow) : 0 <= count_status s rows.
Proof. unfold count_status. lia. Qed.



(** X11. [getCurrentSchoolYear] puts June to December of a year and January
    to May of the next year in the same school year, named after the two
    years. *)
Theorem getCurrentSchoolYear_spans_june_to_may (year month month' : Z)
    (Hfirst : 6 <= month) (Hsecond : month' < 6) :
  getCurrentSchoolYear year month = getCurrentSchoolYear (year + 1) month' /\
  getCurrentSchoolYear year month
  = Pupils.show_number year ++ "-" ++ Pupils.show_number (year + 1).
Proof.
  unfold getCurrentSchoolYear.
  apply Z.leb_le in Hfirst. rewrite Hfirst.
  assert (H : (6 <=? month') = false) by (apply Z.leb_gt; exact Hsecond).
  rewrite H. replace (year + 1 - 1) with year by lia. split; reflexivity.
Qed.

Lemma getCurrentSchoolYear_spans_june_to_may_witness :
  getCurrentSchoolYear 2024 11 = getCurrentSchoolYear 2025 3 /\
  getCurrentSchoolYear 2024 11 = "2024-2025".
Proof.
  destruct (getCurrentSchoolYear_spans_june_to_may 2024 11 3
              ltac:(lia) ltac:(lia)) as [Hsame Hname].
  split; [exact Hsame | exact Hname].
Defined.

Lemma list_includes_in (s : string) (l : list string) :
  list_includes s l = true <-> In s l.
Proof.
  unfold list_includes. rewrite existsb_exists. split.
  - intros (x & Hx & E). apply String.eqb_eq in E. now subst.
  - intros H. exists s. split; [exact H | apply String.eqb_refl].
Qed.

(** X12. The permission table and the guard of [markAttendance] agree: an
    admin has every action; a teacher may mark attendance and a parent may
    not, so that the page lets a signed-in user mark attendance exactly when
    [hasPermission] grants [mark_attendance] to the user's role; every action
    of a parent is a viewing action, and no action is granted to both
    teachers and parents. *)
Theorem hasPermission_matches_attendance_guard (action : string) :
  hasPermission admin action = true /\
  (forall role,
      hasPermission role "mark_attendance" = negb (UserRole_eqb role parent)) /\
  (forall st,
      Attendance.may_mark st <->
      exists u, Attendance.user st = Some u /\
                hasPermission (Attendance.user_role u) "mark_attendance" = true) /\
  (hasPermission parent action = true -> String.prefix "view_" action = true) /\
  (hasPermission teacher action = true -> hasPermission parent action = false).
Proof.
  split; [reflexivity |].
  split; [intros []; reflexivity |].
  split.
  { intros st. unfold Attendance.may_mark. split.
    - intros (u & Hu & Hr). exists u. split; [exact Hu |].
      destruct (Attendance.user_role u); try reflexivity. now elim Hr.
    - intros (u & Hu & Hp). exists u. split; [exact Hu |].
      intros E. rewrite E in Hp. discriminate. }
  split.
  - assert (Hall : list_includes "all" (permissions parent) = false) by reflexivity.
    unfold hasPermission. rewrite Hall, orb_false_r.
    intros H. apply list_includes_in in H.
    cbn [permissions In] in H.
    decompose [or] H; subst; try reflexivity; contradiction.
  - assert (Hall : list_includes "all" (permissions teacher) = false) by reflexivity.
    unfold hasPermission at 1. rewrite Hall, orb_false_r.
    intros H. apply list_includes_in in H.
    cbn [permissions In] in H.
    decompose [or] H; subst; try reflexivity; contradiction.
Qed.

Lemma hasPermission_matches_attendance_guard_witness :
  String.prefix "view_" "view_child_grades" = true.
Proof.
  destruct (hasPermission_matches_attendance_guard "view_child_grades")
    as (_ & _ & _ & Hview & _).
  apply Hview. reflexivity.
Defined.

Lemma sum_from (l : list Qc) (a : Qc) :
  fold_left Qcplus l a = (a + sum l)%Qc.
Proof.
  unfold sum. change (num 0) with 0%Qc.
  revert a. induction l as [| x l IH]; intros a; cbn [fold_left].
  - ring.
  - rewrite (IH (a + x)%Qc), (IH (0 + x)%Qc). ring.
Qed.

Lemma sum_cons (x : Qc) (l : list Qc) : sum (x :: l) = (x + sum l)%Qc.
Proof.
  unfold sum at 1. cbn [fold_left]. rewrite sum_from.
  change (num 0) with 0%Qc. ring.
Qed.

Lemma round_mono (x y : Qc) :
  (x <= y)%Qc -> (round2 x <= round2 y)%Qc.
Proof.
  intros Hxy. unfold Qcle.
  pose proof (hundredths_this (mathRound (x * num 100)%Qc)) as Ecx.
  pose proof (hundredths_this (mathRound (y * num 100)%Qc)) as Ecy.
  change (Q2Qc (inject_Z (mathRound (x * num 100)%Qc) / inject_Z 100))
    with (round2 x) in Ecx.
  change (Q2Qc (inject_Z (mathRound (y * num 100)%Qc) / inject_Z 100))
    with (round2 y) in Ecy.
  assert (Hm : mathRound (x * num 100)%Qc <= mathRound (y * num 100)%Qc).
  { apply mathRound_mono. unfold Qcle.
    pose proof (this_mult x (num 100)) as Emx. rewrite this_num in Emx.
    pose proof (this_mult y (num 100)) as Emy. rewrite this_num in Emy.
    change (inject_Z 100) with 100%Q in Emx, Emy. unfold Qcle in Hxy. lra. }
  rewrite Zle_Qle in Hm.
  set (kx := inject_Z (mathRound (x * num 100)%Qc)) in *.
  set (ky := inject_Z (mathRound (y * num 100)%Qc)) in *.
  assert (Ex : (this (round2 x) * 100 == kx)%Q) by (rewrite Ecx; field).
  assert (Ey : (this (round2 y) * 100 == ky)%Q) by (rewrite Ecy; field).
  lra.
Qed.

Lemma round_integer (k : Z) : round2 (num k) = num k.
Proof.
  change (round2 (num k))
    with (Q2Qc (inject_Z (mathRound (num k * num 100)%Qc) / inject_Z 100)).
  rewrite num_mult, mathRound_integer. apply hundredths_of_integer.
Qed.

Lemma count_cons {A} (x : A) (l : list A) :
  (this (count (x :: l)) == this (count l) + 1)%Q.
Proof.
  unfold count. rewrite !this_num. cbn [List.length].
  rewrite Nat2Z.inj_succ, <- Z.add_1_r, inject_Z_plus. reflexivity.
Qed.

(** The sum of numbers between two bounds lies between the bounds taken as
    many times. *)
Lemma sum_between (lo hi : Qc) :
  forall l,
    Forall (fun x => (lo <= x)%Qc /\ (x <= hi)%Qc) l ->
    (this (count l) * this lo <= this (sum l))%Q /\
    (this (sum l) <= this (count l) * this hi)%Q.
Proof.
  induction 1 as [| x l [Hlo Hhi] _ IH].
  - unfold count, sum. cbn. split; lra.
  - pose proof (count_cons x l) as Ec.
    rewrite sum_cons. pose proof (this_plus x (sum l)) as Es.
    unfold Qcle in Hlo, Hhi. destruct IH as [IH1 IH2].
    set (c := this (count l)) in *. set (c' := this (count (x :: l))) in *.
    set (s := this (sum l)) in *. set (s' := this (x + sum l)%Qc) in *.
    split.
    + rewrite Ec, Es. lra.
    + rewrite Ec, Es. lra.
Qed.

Lemma mean_between (lo hi : Qc) (l : list Qc) :
  l <> [] ->
  Forall (fun x => (lo <= x)%Qc /\ (x <= hi)%Qc) l ->
  (lo <= sum l / count l)%Qc /\ (sum l / count l <= hi)%Qc.
Proof.
  intros Hne Hall. destruct (sum_between lo hi l Hall) as [S1 S2].
  assert (Hpos : (0 < this (count l))%Q).
  { unfold count. rewrite this_num. rewrite <- (Zlt_Qlt 0).
    destruct l; [now elim Hne | cbn; lia]. }
  unfold Qcle. pose proof (this_div (sum l) (count l)) as Ed.
  split.
  - rewrite Ed. apply Qle_shift_div_l; [exact Hpos |]. lra.
  - rewrite Ed. apply Qle_shift_div_r; [exact Hpos |]. lra.
Qed.

Lemma fold_grades (rows : list GradeRecord) (a : Qc) :
  fold_left (fun sum grade => (sum + final_grade grade)%Qc) rows a
  = fold_left Qcplus (map final_grade rows) a.
Proof.
  revert a. induction rows as [| g rows IH]; intros a; cbn; [reflexivity |].
  apply IH.
Qed.



(** X15. [promoteStudent] answers [true] and writes one audit entry in
    every case, with the [fromGrade] it was given as old grade level.  When
    the store takes the update, destination 7 archives the pupil and leaves
    grade level and section as they are, any other destination sets grade
    level and section and leaves the archived flag; when the store refuses
    the update, the pupil's row is unchanged and the audit entry is written
    all the same. *)
Theorem promoteStudent_graduates_at_7
    (env : Pupils.Env) (pupilId : string) (fromGrade toGrade : Z)
    (toSection promotedBy : string) (w : Pupils.World) (p : Pupils.PupilRow)
    (Hfind : Pupils.find_pupil pupilId (Pupils.pupils w) = Some p) :
  let result := Pupils.promoteStudent env pupilId fromGrade toGrade toSection
                  promotedBy w in
  let w' := snd result in
  fst result = true /\
  (exists e,
      Pupils.audit_logs w' = (Pupils.audit_logs w ++ [e])%list /\
      Pupils.log_entity_id e = pupilId /\
      Pupils.log_old_values e = Some (Pupils.GradeLevel (Some fromGrade)) /\
      Pupils.log_action e
      = if toGrade =? 7 then "graduate_pupil" else "promote_pupil") /\
  (Pupils.refuses env pupilId = None ->
   exists p',
     Pupils.find_pupil pupilId (Pupils.pupils w') = Some p' /\
     if toGrade =? 7
     then Pupils.archived p' = true /\
          Pupils.grade_level p' = Pupils.grade_level p /\
          Pupils.section p' = Pupils.section p
     else Pupils.grade_level p' = toGrade /\
          Pupils.section p' = toSection /\
          Pupils.archived p' = Pupils.archived p) /\
  (Pupils.refuses env pupilId <> None -> Pupils.pupils w' = Pupils.pupils w).
Proof.
  cbv zeta. unfold Pupils.promoteStudent. cbn [fst snd Pupils.audit_logs Pupils.pupils].
  split; [reflexivity |].
  split; [eexists; repeat split |].
  unfold Pupils.update_in. cbn [Pupils.first_refusal].
  split.
  - intros Hok. rewrite Hok.
    set (change := if toGrade =? 7 then _ else _).
    assert (Hid : forall r, Pupils.pupil_row_id
                    ((fun r => if Pupils.selected [pupilId] r then change r else r) r)
                  = Pupils.pupil_row_id r).
    { intros r. destruct (Pupils.selected [pupilId] r); [| reflexivity].
      subst change. now destruct (toGrade =? 7). }
    rewrite (PromotionFacts.find_pupil_map pupilId _ Hid), Hfind. cbn [option_map].
    pose proof (PromotionFacts.find_pupil_id pupilId _ p Hfind) as E.
    assert (Hsel : Pupils.selected [pupilId] p = true).
    { apply PromotionFacts.selected_in. rewrite E. now left. }
    rewrite Hsel. exists (change p). split; [reflexivity |].
    subst change. destruct (toGrade =? 7); repeat split.
  - intros Hno. destruct (Pupils.refuses env pupilId); [reflexivity | now elim Hno].
Qed.

Lemma promoteStudent_graduates_at_7_witness :
  exists p',
    Pupils.find_pupil "p-1"
      (Pupils.pupils
         (snd (Pupils.promoteStudent PupilsSamples.lenient "p-1" 6 7 "" "t-1"
                 PupilsSamples.class3))) = Some p' /\
    Pupils.archived p' = true.
Proof.
  destruct (promoteStudent_graduates_at_7 PupilsSamples.lenient "p-1" 6 7 ""
              "t-1" PupilsSamples.class3 (PupilsSamples.third_grader "p-1")
              eq_refl) as (_ & _ & Hok & _).
  destruct (Hok eq_refl) as (p' & Hfind & Harch & _).
  exists p'. now split.
Defined.

End LayoutFacts.

(** * Layout.tsx: saving a list of grades *)

Module ClassGradeSavingFacts.
Import Js Types Grades ClassGradeSaving.

Lemma conflicts_updated (d : GradeData) (r : GradeRecord) :
  conflicts d (updated d r) = true.
Proof.
  unfold conflicts, same_key, updated; cbn.
  now rewrite !String.eqb_refl, Z.eqb_refl.
Qed.

Lemma conflicts_inserted (d : GradeData) (n : nat) :
  conflicts d (inserted n d) = true.
Proof.
  unfold conflicts, same_key, inserted; cbn.
  now rewrite !String.eqb_refl, Z.eqb_refl.
Qed.

Lemma same_key_trans (p s : string) (q : Z) (d : GradeData) (r : GradeRecord) :
  same_key p s q r = true -> conflicts d r = true ->
  d_pupil_id d = p /\ d_subject_id d = s /\ d_quarter d = q.
Proof.
  unfold conflicts, same_key. intros H1 H2.
  apply andb_prop in H1 as (H1 & Hq). apply andb_prop in H1 as (Hp & Hs).
  apply andb_prop in H2 as (H2 & Hq'). apply andb_prop in H2 as (Hp' & Hs').
  apply String.eqb_eq in Hp, Hs, Hp', Hs'. apply Z.eqb_eq in Hq, Hq'.
  repeat split; congruence.
Qed.

Lemma find_app_last {A} (f : A -> bool) (l : list A) (x : A) :
  find f (l ++ [x])%list =
  match find f l with
  | Some y => Some y
  | None => if f x then Some x else None
  end.
Proof.
  induction l as [|a l IH]; cbn; [reflexivity|].
  destruct (f a); [reflexivity | exact IH].
Qed.

Lemma find_ext {A} (f g : A -> bool) (l : list A) :
  (forall a, f a = g a) -> find f l = find g l.
Proof.
  intros H. induction l as [|a l IH]; cbn; [reflexivity|].
  now rewrite H, IH.
Qed.

Lemma no_conflict_no_row (d : GradeData) (rows : list GradeRecord) :
  update_conflicting d rows = None -> find (conflicts d) rows = None.
Proof.
  induction rows as [|r rows IH]; cbn; [reflexivity|].
  destruct (conflicts d r); [discriminate|].
  destruct (update_conflicting d rows); [discriminate | auto].
Qed.

Lemma update_conflicting_find (d : GradeData) (rows rows' : list GradeRecord) :
  update_conflicting d rows = Some rows' ->
  exists r0, find (conflicts d) rows = Some r0 /\
             find (conflicts d) rows' = Some (updated d r0).
Proof.
  revert rows'. induction rows as [|r rows IH]; cbn; intros rows' H;
    [discriminate|].
  destruct (conflicts d r) eqn:E.
  - injection H as <-. exists r. split; [reflexivity|].
    cbn. now rewrite conflicts_updated.
  - destruct (update_conflicting d rows) as [rs|]; [|discriminate].
    injection H as <-. destruct (IH rs eq_refl) as (r0 & F1 & F2).
    exists r0. split; [exact F1|]. cbn. now rewrite E.
Qed.

(** After the upsert the key of the body has a row, and the row carries
    the grade of the body. *)
Lemma upsert_find (d : GradeData) (rows : list GradeRecord) (next : nat) :
  exists r, find (conflicts d) (fst (upsert d rows next)) = Some r /\
            final_grade r = d_final_grade d /\
            teacher_id r = match d_teacher_id d with
                           | Some t => Some t
                           | None => teacher_id r
                           end.
Proof.
  unfold upsert. destruct (update_conflicting d rows) as [rows'|] eqn:E.
  - destruct (update_conflicting_find _ _ _ E) as (r0 & _ & F).
    exists (updated d r0). cbn. split; [exact F|]. split; [reflexivity|].
    now destruct (d_teacher_id d).
  - apply no_conflict_no_row in E. cbn.
    rewrite find_app_last, E, conflicts_inserted.
    exists (inserted next d). cbn. split; [reflexivity|].
    split; [reflexivity|]. now destruct (d_teacher_id d).
Qed.

Lemma other_key_updated (p s : string) (q : Z) (d : GradeData) (r : GradeRecord) :
  same_key p s q (inserted 0 d) = false -> conflicts d r = true ->
  same_key p s q r = false /\ same_key p s q (updated d r) = false.
Proof.
  intros Hd Hc. split.
  - destruct (same_key p s q r) eqn:E; [|reflexivity].
    destruct (same_key_trans _ _ _ _ _ E Hc) as (<- & <- & <-).
    unfold same_key, inserted in Hd; cbn in Hd.
    now rewrite !String.eqb_refl, Z.eqb_refl in Hd.
  - exact Hd.
Qed.

(** The upsert leaves the row of every other key as it was. *)
Lemma upsert_other_key (p s : string) (q : Z) (d : GradeData)
    (rows : list GradeRecord) (next : nat) :
  same_key p s q (inserted 0 d) = false ->
  find (same_key p s q) (fst (upsert d rows next)) = find (same_key p s q) rows.
Proof.
  intros Hd. unfold upsert.
  destruct (update_conflicting d rows) as [rows'|] eqn:E; cbn.
  - revert rows' E. induction rows as [|r rows IH]; cbn; intros rows' E;
      [discriminate|].
    destruct (conflicts d r) eqn:Ec.
    + injection E as <-. cbn.
      destruct (other_key_updated _ _ _ _ _ Hd Ec) as (-> & ->). reflexivity.
    + destruct (update_conflicting d rows) as [rs|]; [|discriminate].
      injection E as <-. cbn.
      destruct (same_key p s q r); [reflexivity | now apply IH].
  - rewrite find_app_last.
    destruct (find (same_key p s q) rows); [reflexivity|].
    change (same_key p s q (inserted next d)) with (same_key p s q (inserted 0 d)).
    now rewrite Hd.
Qed.

Lemma same_entry_conflicts (env : Env) (t : string) (g g' : GradeEntry)
    (r : GradeRecord) :
  same_entry g g' = true ->
  same_key (pupilId g) (subjectId g) (quarterOf g) r
  = conflicts (gradeData env g' t) r.
Proof.
  unfold same_entry, conflicts, gradeData; cbn. intros H.
  apply andb_prop in H as (H & Hq). apply andb_prop in H as (Hp & Hs).
  apply String.eqb_eq in Hp, Hs. apply Z.eqb_eq in Hq.
  now rewrite Hp, Hs, Hq.
Qed.

Lemma same_entry_other (env : Env) (t : string) (g g' : GradeEntry) :
  same_entry g g' = false ->
  same_key (pupilId g) (subjectId g) (quarterOf g)
    (inserted 0 (gradeData env g' t)) = false.
Proof. intros H. exact H. Qed.

Lemma same_entry_refl (g : GradeEntry) : same_entry g g = true.
Proof.
  unfold same_entry. now rewrite !String.eqb_refl, Z.eqb_refl.
Qed.

Lemma stored_grades (env : Env) (g : GradeEntry) (t : string) (w : World) :
  grades (stored env g t w)
  = fst (upsert (gradeData env g t) (grades w) (next_id w)).
Proof.
  unfold stored. now destruct (upsert _ _ _).
Qed.

Lemma stored_audit_logs (env : Env) (g : GradeEntry) (t : string) (w : World) :
  audit_logs (stored env g t w)
  = logAuditEvent env t "save_class_grade" "grades" (pupilId g) None
      (Some (gradeData env g t)) (audit_logs w).
Proof.
  unfold stored. now destruct (upsert _ _ _).
Qed.

Lemma stored_find_own (env : Env) (g : GradeEntry) (t : string) (w : World) :
  exists r, find_grade (grades (stored env g t w)) g = Some r /\
            final_grade r = finalGrade g /\ teacher_id r = Some t.
Proof.
  rewrite stored_grades.
  destruct (upsert_find (gradeData env g t) (grades w) (next_id w))
    as (r & F & Hg & Ht).
  exists r. split; [|split; assumption].
  unfold find_grade. rewrite <- F. apply find_ext. intros a.
  apply same_entry_conflicts, same_entry_refl.
Qed.

Lemma stored_find_other (env : Env) (g g' : GradeEntry) (t : string) (w : World) :
  same_entry g g' = false ->
  find_grade (grades (stored env g' t w)) g = find_grade (grades w) g.
Proof.
  intros H. rewrite stored_grades. unfold find_grade.
  apply upsert_other_key. exact H.
Qed.

Lemma stored_keeps_present (env : Env) (g g' : GradeEntry) (t : string)
    (w : World) :
  find_grade (grades w) g <> None ->
  find_grade (grades (stored env g' t w)) g <> None.
Proof.
  intros H. destruct (same_entry g g') eqn:E.
  - destruct (stored_find_own env g' t w) as (r & F & _).
    unfold find_grade in *.
    rewrite (find_ext _ _ _ (fun a => same_entry_conflicts env t g g' a E)).
    rewrite <- (find_ext _ _ _ (fun a => same_entry_conflicts env t g' g' a (same_entry_refl g'))).
    rewrite F. discriminate.
  - now rewrite stored_find_other.
Qed.

Lemma saveClassGrades_cons (env : Env) (g : GradeEntry) (rest : list GradeEntry)
    (t : string) (w : World) :
  accepted env t g ->
  saveClassGrades env (g :: rest) t w
  = saveClassGrades env rest t (stored env g t w).
Proof.
  unfold accepted. intros H. cbn. now rewrite H.
Qed.

Lemma saveClassGrades_app (env : Env) (a b : list GradeEntry) (t : string)
    (w : World) :
  Forall (accepted env t) a ->
  saveClassGrades env (a ++ b)%list t w
  = saveClassGrades env b t (snd (saveClassGrades env a t w)).
Proof.
  revert w. induction a as [|g a IH]; intros w H; [reflexivity|].
  inversion H as [|? ? Hg Ha]; subst.
  rewrite <- app_comm_cons, !saveClassGrades_cons by assumption.
  now apply IH.
Qed.

Lemma saveClassGrades_accepted (env : Env) (gs : list GradeEntry) (t : string)
    (w : World) :
  Forall (accepted env t) gs ->
  fst (saveClassGrades env gs t w) = true /\
  audit_logs (snd (saveClassGrades env gs t w))
  = fold_left
      (fun logs g =>
         logAuditEvent env t "save_class_grade" "grades" (pupilId g) None
           (Some (gradeData env g t)) logs)
      gs (audit_logs w).
Proof.
  revert w. induction gs as [|g gs IH]; intros w H; [now split|].
  inversion H as [|? ? Hg Ha]; subst.
  rewrite saveClassGrades_cons by assumption.
  destruct (IH (stored env g t w) Ha) as (I1 & I2).
  split; [exact I1|]. rewrite I2. cbn. now rewrite stored_audit_logs.
Qed.

Lemma audit_logs_length (env : Env) (gs : list GradeEntry) (t : string)
    (logs : list AuditLog) :
  List.length
    (fold_left
       (fun logs g =>
          logAuditEvent env t "save_class_grade" "grades" (pupilId g) None
            (Some (gradeData env g t)) logs)
       gs logs)
  = (List.length logs + List.length gs)%nat.
Proof.
  revert logs. induction gs as [|g gs IH]; intros logs; cbn; [lia|].
  rewrite IH. unfold logAuditEvent. rewrite length_app. cbn. lia.
Qed.

Lemma saveClassGrades_others (env : Env) (g : GradeEntry)
    (gs : list GradeEntry) (t : string) (w : World) :
  Forall (accepted env t) gs ->
  Forall (fun g' => same_entry g g' = false) gs ->
  find_grade (grades (snd (saveClassGrades env gs t w))) g
  = find_grade (grades w) g.
Proof.
  revert w. induction gs as [|g' gs IH]; intros w Ha Ho; [reflexivity|].
  inversion Ha; inversion Ho; subst.
  rewrite saveClassGrades_cons by assumption.
  rewrite IH by assumption. now apply stored_find_other.
Qed.

Lemma saveClassGrades_keeps_present (env : Env) (g : GradeEntry)
    (gs : list GradeEntry) (t : string) (w : World) :
  Forall (accepted env t) gs ->
  In g gs \/ find_grade (grades w) g <> None ->
  find_grade (grades (snd (saveClassGrades env gs t w))) g <> None.
Proof.
  revert w. induction gs as [|g' gs IH]; intros w Ha H.
  - destruct H as [[]|H]. exact H.
  - inversion Ha; subst. rewrite saveClassGrades_cons by assumption.
    destruct H as [[->|Hin]|H].
    + apply IH; [assumption|]. right.
      destruct (stored_find_own env g t w) as (r & F & _). rewrite F. discriminate.
    + apply IH; [assumption|]. now left.
    + apply IH; [assumption|]. right. now apply stored_keeps_present.
Qed.

(** X16.  [saveClassGrades] of Layout.tsx saves in part: when the store
    accepts the grades [before] and refuses the next one, the function
    answers [false], the grades after the refused one are never sent, and
    the world is the one that saving [before] alone leaves: every grade of
    [before] has its row in the table and one audit entry each was
    written, the audit table taking every entry. *)
Theorem saveClassGrades_stops_at_first_refusal
    (env : Env) (before after : list GradeEntry) (bad : GradeEntry)
    (teacherId : string) (w : World)
    (Hbefore : Forall (accepted env teacherId) before)
    (Hbad : refuses env (gradeData env bad teacherId) <> None) :
  let r := saveClassGrades env (before ++ bad :: after)%list teacherId w in
  fst r = false /\
  snd r = snd (saveClassGrades env before teacherId w) /\
  fst (saveClassGrades env before teacherId w) = true /\
  List.length (audit_logs (snd r))
  = (List.length (audit_logs w) + List.length before)%nat /\
  forall g, In g before -> find_grade (grades (snd r)) g <> None.
Proof.
  cbv zeta. rewrite saveClassGrades_app by assumption.
  destruct (saveClassGrades_accepted env before teacherId w Hbefore) as (A1 & A2).
  cbn [saveClassGrades].
  destruct (refuses env (gradeData env bad teacherId)) as [msg|];
    [|now elim Hbad].
  cbn [fst snd]. split; [reflexivity|]. split; [reflexivity|].
  split; [exact A1|]. split.
  - rewrite A2. apply audit_logs_length.
  - intros g Hin. apply saveClassGrades_keeps_present; [assumption | now left].
Qed.

(** X17.  When the store accepts every grade, [saveClassGrades] of
    Layout.tsx answers [true], writes one audit entry per grade in the order
    of the list, the audit table taking every entry, and the last grade
    given for a pupil, subject and quarter is the one stored, under the
    saving teacher; a key that the list does not name keeps its row. *)
Theorem saveClassGrades_last_grade_is_stored
    (env : Env) (before after : list GradeEntry) (g : GradeEntry)
    (teacherId : string) (w : World)
    (Hbefore : Forall (accepted env teacherId) before)
    (Hg : accepted env teacherId g)
    (Hafter : Forall (accepted env teacherId) after)
    (Hlast : Forall (fun g' => same_entry g g' = false) after) :
  let r := saveClassGrades env (before ++ g :: after)%list teacherId w in
  fst r = true /\
  (exists row, find_grade (grades (snd r)) g = Some row /\
               final_grade row = finalGrade g /\
               teacher_id row = Some teacherId) /\
  audit_logs (snd r)
  = fold_left
      (fun logs g =>
         logAuditEvent env teacherId "save_class_grade" "grades" (pupilId g)
           None (Some (gradeData env g teacherId)) logs)
      (before ++ g :: after)%list (audit_logs w) /\
  forall other,
    Forall (fun g' => same_entry other g' = false) (before ++ g :: after)%list ->
    find_grade (grades (snd r)) other = find_grade (grades w) other.
Proof.
  cbv zeta.
  assert (Hall : Forall (accepted env teacherId) (before ++ g :: after)%list).
  { apply Forall_app. split; [assumption|]. now constructor. }
  destruct (saveClassGrades_accepted env _ teacherId w Hall) as (A1 & A2).
  split; [exact A1|]. split; [|split; [exact A2|]].
  - rewrite saveClassGrades_app by assumption.
    rewrite saveClassGrades_cons by assumption.
    rewrite saveClassGrades_others by assumption.
    apply stored_find_own.
  - intros other Hother. now apply saveClassGrades_others.
Qed.

Lemma saveClassGrades_stops_at_first_refusal_witness :
  fst (saveClassGrades (ClassGradeSavingSamples.refuses_pupil "p-2")
         ([ClassGradeSavingSamples.entry "p-1" 85]
          ++ ClassGradeSavingSamples.entry "p-2" 90
             :: [ClassGradeSavingSamples.entry "p-3" 75])%list
         "t-1" ClassGradeSavingSamples.empty) = false.
Proof.
  destruct (saveClassGrades_stops_at_first_refusal
              (ClassGradeSavingSamples.refuses_pupil "p-2")
              [ClassGradeSavingSamples.entry "p-1" 85]
              [ClassGradeSavingSamples.entry "p-3" 75]
              (ClassGradeSavingSamples.entry "p-2" 90)
              "t-1" ClassGradeSavingSamples.empty) as (H & _).
  - constructor; [reflexivity | constructor].
  - cbn. discriminate.
  - exact H.
Defined.

Lemma saveClassGrades_last_grade_is_stored_witness :
  fst (saveClassGrades (ClassGradeSavingSamples.refuses_pupil "nobody")
         ([ClassGradeSavingSamples.entry "p-1" 85]
          ++ ClassGradeSavingSamples.entry "p-1" 90
             :: [ClassGradeSavingSamples.entry "p-3" 75])%list
         "t-1" ClassGradeSavingSamples.empty) = true.
Proof.
  destruct (saveClassGrades_last_grade_is_stored
              (ClassGradeSavingSamples.refuses_pupil "nobody")
              [ClassGradeSavingSamples.entry "p-1" 85]
              [ClassGradeSavingSamples.entry "p-3" 75]
              (ClassGradeSavingSamples.entry "p-1" 90)
              "t-1" ClassGradeSavingSamples.empty) as (H & _).
  - constructor; [reflexivity | constructor].
  - reflexivity.
  - constructor; [reflexivity | constructor].
  - constructor; [reflexivity | constructor].
  - exact H.
Defined.

End ClassGradeSavingFacts.

(** * Layout.tsx: the CSV export read back *)

Module CsvFacts.
Import Js Csv.

Lemma append_assoc (a b c : string) : (a ++ b) ++ c = a ++ b ++ c.
Proof. induction a as [| x a IH]; cbn; [reflexivity | now rewrite IH]. Qed.

Lemma append_empty (a : string) : a ++ "" = a.
Proof. induction a as [| x a IH]; cbn; [reflexivity | now rewrite IH]. Qed.

Lemma includes_cons (c a : ascii) (s : string) :
  includes (String c "") (String a s)
  = Ascii.eqb a c || includes (String c "") s.
Proof.
  cbn [includes String.prefix]. destruct (ascii_dec c a) as [<- | N].
  - rewrite Ascii.eqb_refl. now destruct s.
  - assert (E : Ascii.eqb a c = false) by (apply Ascii.eqb_neq; congruence).
    now rewrite E.
Qed.

Lemma needs_quotes_cons (a : ascii) (s : string) :
  needs_quotes (String a s) = special a || needs_quotes s.
Proof.
  unfold needs_quotes, special, quote_text, line_feed_text.
  change "," with (String ","%char "").
  rewrite !includes_cons.
  destruct (Ascii.eqb a ","), (Ascii.eqb a quote), (Ascii.eqb a line_feed),
    (includes (String ","%char "") s), (includes (String quote "") s);
    reflexivity.
Qed.

(** A text that is written without quotes holds no comma, quote or line
    feed. *)
Lemma needs_quotes_plain (s : string) : needs_quotes s = false <-> plain s = true.
Proof.
  induction s as [| a s IH]; [now split |].
  rewrite needs_quotes_cons. cbn [plain].
  destruct (special a); cbn; [split; discriminate | exact IH].
Qed.

Lemma read_plain (t : string) :
  plain t = true ->
  forall mode field record rest,
    mode <> Quoted ->
    exists mode',
      mode' <> Quoted /\
      read mode field record (t ++ rest) = read mode' (field ++ t) record rest.
Proof.
  induction t as [| c t IH]; intros Hplain mode field record rest Hmode.
  - exists mode. split; [exact Hmode |]. now rewrite append_empty.
  - cbn [plain] in Hplain. apply andb_prop in Hplain as (Hc & Ht).
    apply negb_true_iff in Hc. unfold special in Hc.
    apply orb_false_elim in Hc as (Hc & Hlf).
    apply orb_false_elim in Hc as (Hcomma & Hquote).
    destruct (IH Ht Unquoted (field ++ String c "") record rest
                ltac:(discriminate)) as (mode' & Hmode' & E).
    exists mode'. split; [exact Hmode' |].
    rewrite append_assoc in E. cbn [append] in E. rewrite <- E.
    destruct mode; [| | now elim Hmode |];
      cbn [append read]; now rewrite Hcomma, Hlf, Hquote.
Qed.

Lemma read_doubled (t : string) :
  forall field record rest,
    read Quoted field record (double_quotes t ++ String quote rest)
    = read QuoteSeen (field ++ t) record rest.
Proof.
  induction t as [| c t IH]; intros field record rest.
  - cbn [double_quotes append read]. rewrite Ascii.eqb_refl.
    now rewrite append_empty.
  - cbn [double_quotes]. destruct (Ascii.eqb c quote) eqn:E.
    + apply Ascii.eqb_eq in E. subst c.
      cbn [append read]. rewrite Ascii.eqb_refl.
      change (Ascii.eqb quote ",") with false.
      change (Ascii.eqb quote line_feed) with false. cbn [read].
      rewrite ?Ascii.eqb_refl, IH, append_assoc. reflexivity.
    + cbn [append read]. rewrite E, IH, append_assoc. reflexivity.
Qed.

Lemma length_append (a b : string) :
  String.length (a ++ b) = (String.length a + String.length b)%nat.
Proof. induction a as [| x a IH]; cbn; [reflexivity | now rewrite IH]. Qed.

Lemma double_quotes_length (t : string) :
  (String.length t <= String.length (double_quotes t))%nat.
Proof.
  induction t as [| x t IH]; cbn [double_quotes String.length]; [lia |].
  destruct (Ascii.eqb x quote); cbn [String.length]; lia.
Qed.

(** What ends a field outside quotes. *)
Lemma read_end (mode : Mode) (field : string) (record : list string) :
  mode <> Quoted ->
  read mode field record "" = [(record ++ [field])%list] /\
  (forall rest,
      read mode field record (String "," rest)
      = read FieldStart "" (record ++ [field])%list rest) /\
  (forall rest,
      read mode field record (String line_feed rest)
      = (record ++ [field])%list :: read FieldStart "" [] rest).
Proof.
  intros Hmode. destruct mode; try (now elim Hmode); repeat split.
Qed.

Lemma plain_writes (h : string) : plain h = true -> writes h h.
Proof.
  intros Hplain record rest.
  destruct (read_plain h Hplain FieldStart "" record rest ltac:(discriminate))
    as (mode & Hmode & E).
  exists mode. split; [exact Hmode | exact E].
Qed.

Lemma cell_writes (v : Value) : writes (cell v) (text v).
Proof.
  destruct v as [s |]; cbn [cell text].
  - destruct (needs_quotes s) eqn:E.
    + intros record rest. exists QuoteSeen. split; [discriminate |].
      unfold quote_text. rewrite !append_assoc.
      cbn [append read].
      change (Ascii.eqb quote ",") with false.
      change (Ascii.eqb quote line_feed) with false. cbn [read].
      rewrite Ascii.eqb_refl. apply read_doubled.
    + apply plain_writes. now apply needs_quotes_plain.
  - intros record rest. exists FieldStart. split; [discriminate | reflexivity].
Qed.

Lemma read_record :
  forall (line : list (string * string)) (pt : string * string)
         (record : list string),
    Forall (fun pt => writes (fst pt) (snd pt)) (pt :: line) ->
    read FieldStart "" record (String.concat "," (map fst (pt :: line)))
    = [(record ++ map snd (pt :: line))%list] /\
    (forall more,
        read FieldStart "" record
          (String.concat "," (map fst (pt :: line)) ++ String line_feed more)
        = (record ++ map snd (pt :: line))%list :: read FieldStart "" [] more).
Proof.
  induction line as [| pt2 line IH]; intros [p t] record Hall;
    inversion Hall as [| ? ? Hpt Hrest]; subst; cbn [fst snd] in Hpt.
  - cbn [map String.concat fst snd]. split.
    + destruct (Hpt record "") as (mode & Hmode & E).
      rewrite append_empty in E. rewrite E.
      now destruct (read_end mode t record Hmode) as (-> & _).
    + intros more. destruct (Hpt record (String line_feed more))
        as (mode & Hmode & E).
      rewrite E. now destruct (read_end mode t record Hmode) as (_ & _ & ->).
  - destruct (IH pt2 (record ++ [t])%list Hrest) as (IH1 & IH2).
    assert (E : String.concat "," (map fst ((p, t) :: pt2 :: line))
                = p ++ String "," (String.concat "," (map fst (pt2 :: line))))
      by reflexivity.
    rewrite E. clear E.
    assert (A : forall (r : list string) (l : list string),
               ((r ++ [t]) ++ l = r ++ t :: l)%list)
      by (intros; now rewrite <- app_assoc).
    split.
    + destruct (Hpt record
                  (String "," (String.concat "," (map fst (pt2 :: line)))))
        as (mode & Hmode & E).
      rewrite E. destruct (read_end mode t record Hmode) as (_ & -> & _).
      rewrite IH1. cbn [map snd]. now rewrite A.
    + intros more. rewrite append_assoc. cbn [append].
      destruct (Hpt record
                  (String "," (String.concat "," (map fst (pt2 :: line))
                               ++ String line_feed more)))
        as (mode & Hmode & E).
      rewrite E. destruct (read_end mode t record Hmode) as (_ & -> & _).
      rewrite IH2. cbn [map snd]. now rewrite A.
Qed.

Lemma read_lines :
  forall (lines : list (list (string * string))) (line : list (string * string)),
    Forall well_written (line :: lines) ->
    read_csv
      (String.concat line_feed_text
         (map (fun l => String.concat "," (map fst l)) (line :: lines)))
    = map (map snd) (line :: lines).
Proof.
  unfold read_csv.
  induction lines as [| line2 lines IH]; intros line Hall;
    inversion Hall as [| ? ? (Hne & Hline) Hrest]; subst;
    destruct line as [| pt line]; try (now elim Hne).
  - destruct (read_record line pt [] Hline) as (E & _).
    change (read FieldStart "" [] (String.concat "," (map fst (pt :: line)))
            = [map snd (pt :: line)]).
    exact E.
  - destruct (read_record line pt [] Hline) as (_ & E).
    specialize (IH line2 Hrest).
    change (String.concat line_feed_text
              (map (fun l => String.concat "," (map fst l))
                 ((pt :: line) :: line2 :: lines)))
      with (String.concat "," (map fst (pt :: line))
            ++ String line_feed
                 (String.concat line_feed_text
                    (map (fun l => String.concat "," (map fst l))
                       (line2 :: lines)))).
    rewrite E. unfold read_csv in IH. rewrite IH. reflexivity.
Qed.



End CsvFacts.

(** * The Grades page: from the grade field to the table *)

Module GradeEntryFacts.
Import Js Types Grades GradeEntry.

Lemma entered_grade_changed (p : string) (g : Qc) (prev : list (string * Qc)) :
  entered_grade p (handleGradeChange p g prev) = Some g.
Proof.
  unfold entered_grade. induction prev as [|[k v] prev IH]; cbn.
  - now rewrite String.eqb_refl.
  - destruct (String.eqb k p) eqn:E; cbn; rewrite E; [reflexivity | exact IH].
Qed.

Lemma entered_grade_other (p p' : string) (g : Qc) (prev : list (string * Qc)) :
  p' <> p ->
  entered_grade p' (handleGradeChange p g prev) = entered_grade p' prev.
Proof.
  intros Hp. unfold entered_grade. induction prev as [|[k v] prev IH]; cbn.
  - apply String.eqb_neq in Hp. rewrite String.eqb_sym in Hp. now rewrite Hp.
  - destruct (String.eqb k p) eqn:E; cbn.
    + apply String.eqb_eq in E. subst k.
      assert (E' : String.eqb p p' = false).
      { apply String.eqb_neq. congruence. }
      now rewrite E'.
    + destruct (String.eqb k p'); [reflexivity | exact IH].
Qed.

Lemma handleGradeChange_keys (p : string) (g : Qc) (prev : list (string * Qc)) :
  forall k, In k (map fst (handleGradeChange p g prev))
            <-> k = p \/ In k (map fst prev).
Proof.
  intros k. induction prev as [|[k0 v] prev IH]; cbn.
  - split; [intros [<-|[]]; now left | intros [->|[]]; now left].
  - destruct (String.eqb k0 p) eqn:E; cbn.
    + apply String.eqb_eq in E. subst k0. intuition congruence.
    + rewrite IH. tauto.
Qed.

Lemma handleGradeChange_NoDup (p : string) (g : Qc) (prev : list (string * Qc)) :
  NoDup (map fst prev) -> NoDup (map fst (handleGradeChange p g prev)).
Proof.
  induction prev as [|[k v] prev IH]; cbn; intros H.
  - constructor; [intros [] | constructor].
  - inversion H as [|? ? Hk Hrest]; subst.
    destruct (String.eqb k p) eqn:E; cbn.
    + now constructor.
    + constructor; [|now apply IH].
      rewrite handleGradeChange_keys. intros [->|Hin]; [|contradiction].
      now rewrite String.eqb_refl in E.
Qed.

Lemma handleGradeChange_in (p : string) (g : Qc) (prev : list (string * Qc)) :
  In (p, g) (handleGradeChange p g prev).
Proof.
  induction prev as [|[k v] prev IH]; cbn; [now left|].
  destruct (String.eqb k p) eqn:E.
  - apply String.eqb_eq in E. subst k. now left.
  - now right.
Qed.

Lemma NoDup_keys_value {A} (l : list (string * A)) (k : string) (v v' : A) :
  NoDup (map fst l) -> In (k, v) l -> In (k, v') l -> v = v'.
Proof.
  induction l as [|[k0 v0] l IH]; cbn; intros Hnd H1 H2; [contradiction|].
  inversion Hnd as [|? ? Hk Hrest]; subst.
  destruct H1 as [E1|H1], H2 as [E2|H2].
  - congruence.
  - injection E1 as -> ->. elim Hk. change k with (fst (k, v')). now apply in_map.
  - injection E2 as -> ->. elim Hk. change k with (fst (k, v)). now apply in_map.
  - now apply IH.
Qed.

Lemma records_of_toast (t : Toast) (w : World) (p s : string) (q : Z) :
  records_of (toast t w) p s q = records_of w p s q.
Proof. reflexivity. Qed.

(** X19.  [handleGradeChange] sets the grade of one pupil and of no other:
    the changed pupil reads the new grade, every other pupil reads what was
    read before, and no pupil gets a second entry. *)
Theorem handleGradeChange_sets_one_grade
    (pupilId : string) (grade : Qc) (prev : list (string * Qc))
    (Hkeys : NoDup (map fst prev)) :
  let next := handleGradeChange pupilId grade prev in
  entered_grade pupilId next = Some grade /\
  (forall other, other <> pupilId ->
     entered_grade other next = entered_grade other prev) /\
  NoDup (map fst next) /\
  (forall k, In k (map fst next) <-> k = pupilId \/ In k (map fst prev)).
Proof.
  cbv zeta. split; [apply entered_grade_changed|].
  split; [intros other H; now apply entered_grade_other|].
  split; [now apply handleGradeChange_NoDup | apply handleGradeChange_keys].
Qed.

(** X20.  A grade typed into the field of a pupil and then saved, with a
    subject and a quarter selected.  A grade above zero reaches the table:
    a key without a record gets one with that grade, a key with one record
    has it updated in place.  A grade that is not above zero is never sent:
    the records of the pupil stay as they were, so a stored grade cannot be
    cleared from the page. *)
Theorem entered_grade_reaches_the_table
    (now : string) (st : Page) (w : World) (q : Z) (pupilId : string)
    (grade : Qc)
    (Hids : ids_ok w)
    (Hkeys : NoDup (map fst (classGrades st)))
    (Hsubject : selectedSubject st <> "")
    (Hquarter : parseInt (selectedQuarter st) = Some q) :
  let w' := saveClassGrades now (entered pupilId grade st) w in
  let d := gradeData now st q pupilId grade in
  (gt grade (num 0) = true ->
     (records_of w pupilId (selectedSubject st) q = [] ->
        exists id, records_of w' pupilId (selectedSubject st) q = [inserted id d]) /\
     (forall existing,
        records_of w pupilId (selectedSubject st) q = [existing] ->
        records_of w' pupilId (selectedSubject st) q = [updated d existing])) /\
  (gt grade (num 0) = false ->
     forall s' q', records_of w' pupilId s' q' = records_of w pupilId s' q').
Proof.
  cbv zeta. set (st' := entered pupilId grade st).
  assert (Hkeys' : NoDup (map fst (classGrades st')))
    by (apply handleGradeChange_NoDup; exact Hkeys).
  assert (Hin : In (pupilId, grade) (classGrades st'))
    by apply handleGradeChange_in.
  split.
  - intros Hpos.
    destruct (SaveFacts.gradesToSave_at st' pupilId grade Hkeys' Hin Hpos)
      as (before & after & E & Hb & Ha).
    assert (Hne : gradesToSave st' <> []).
    { rewrite E. now destruct before. }
    rewrite (SaveFacts.saveClassGrades_saves now st' w q Hsubject Hquarter Hne).
    rewrite records_of_toast, E.
    destruct (SaveFacts.saveAll_at_key now st' q pupilId grade before after w
                Hids Hb Ha) as (Hok1 & _ & Hrec1 & Hrec & _).
    change (selectedSubject st') with (selectedSubject st) in *.
    rewrite Hrec. split.
    + intros Hnone. rewrite <- Hrec1 in Hnone.
      destruct (SaveFacts.saveGrade_creates now st' q pupilId grade _ Hnone)
        as (Hc & _).
      eexists. exact Hc.
    + intros existing Hone. rewrite <- Hrec1 in Hone.
      destruct (SaveFacts.saveGrade_updates now st' q pupilId grade _ existing
                  Hok1 Hone) as (Hu & _).
      exact Hu.
  - intros Hneg s' q'.
    assert (Hnot : ~ In pupilId (map fst (gradesToSave st'))).
    { intros H. apply in_map_iff in H as ([k v] & Hk & Hv). cbn in Hk. subst k.
      unfold gradesToSave in Hv. apply filter_In in Hv as (Hv & Hgt).
      cbn in Hgt.
      rewrite (NoDup_keys_value _ _ _ _ Hkeys' Hv Hin) in Hgt. congruence. }
    unfold saveClassGrades.
    destruct (String.eqb (selectedSubject st') "" || String.eqb (selectedQuarter st') "");
      [apply records_of_toast|].
    change (selectedQuarter st') with (selectedQuarter st). rewrite Hquarter.
    destruct (gradesToSave st') as [|e es] eqn:E; [apply records_of_toast|].
    rewrite records_of_toast. rewrite <- E in *.
    now destruct (SaveFacts.saveAll_other_key now st' q pupilId s' q'
                    (gradesToSave st') w Hids Hnot) as (_ & Hrec & _).
Qed.

Lemma handleGradeChange_sets_one_grade_witness :
  entered_grade "p-1"
    (handleGradeChange "p-1" (num 90) [("p-0", num 88); ("p-1", num 80)])
  = Some (num 90).
Proof.
  destruct (handleGradeChange_sets_one_grade "p-1" (num 90)
              [("p-0", num 88); ("p-1", num 80)]) as (H & _).
  - cbn. repeat constructor; cbn; intuition discriminate.
  - exact H.
Defined.

Lemma entered_grade_reaches_the_table_witness :
  exists id,
    records_of
      (saveClassGrades "2024-06-10T00:20:00.000Z"
         (entered "p-1" (num 91) (GradesSamples.sheet (num 85)))
         GradesSamples.nothing) "p-1" "math-1" 1
    = [inserted id
         (gradeData "2024-06-10T00:20:00.000Z" (GradesSamples.sheet (num 85)) 1
            "p-1" (num 91))].
Proof.
  assert (Hkeys : NoDup (map fst (classGrades (GradesSamples.sheet (num 85))))).
  { cbn. repeat constructor; cbn; intuition discriminate. }
  assert (Hids : ids_ok GradesSamples.nothing).
  { split; constructor. }
  destruct (entered_grade_reaches_the_table "2024-06-10T00:20:00.000Z"
              (GradesSamples.sheet (num 85)) GradesSamples.nothing 1 "p-1"
              (num 91) Hids Hkeys ltac:(discriminate) eq_refl) as (Hpos & _).
  destruct (Hpos eq_refl) as (Hnew & _).
  exact (Hnew eq_refl).
Defined.

End GradeEntryFacts.

(** * The Pupils page: selection, promotion of a grade, archiving *)

Module PupilsSelectionFacts.
Import Js Types Pupils PupilsSelection.

Lemma has_in (id : string) (selection : list string) :
  has id selection = true <-> In id selection.
Proof.
  unfold has. rewrite existsb_exists. split.
  - intros (x & Hx & E). apply String.eqb_eq in E. now subst.
  - intros H. exists id. split; [exact H | apply String.eqb_refl].
Qed.

Lemma bool_iff (a b : bool) : (a = true <-> b = true) -> a = b.
Proof. destruct a, b; intuition congruence. Qed.

Lemma in_without (x id : string) (l : list string) :
  In x (filter (fun y => negb (String.eqb y id)) l) <-> In x l /\ x <> id.
Proof.
  rewrite filter_In, negb_true_iff, String.eqb_neq. tauto.
Qed.

Lemma NoDup_app_one (l : list string) (x : string) :
  NoDup l -> ~ In x l -> NoDup (l ++ [x])%list.
Proof.
  induction l as [|a l IH]; cbn; intros Hnd Hx.
  - constructor; [intros [] | constructor].
  - inversion Hnd as [|? ? Ha Hl]; subst. constructor.
    + rewrite in_app_iff. cbn. intuition congruence.
    + apply IH; [assumption | tauto].
Qed.

Lemma new_Set_in (x : string) (ids : list string) :
  In x (new_Set ids) <-> In x ids.
Proof.
  induction ids as [|id ids IH]; cbn; [tauto|].
  rewrite in_without, IH.
  destruct (string_dec id x) as [->|N]; intuition congruence.
Qed.

Lemma new_Set_NoDup (ids : list string) : NoDup (new_Set ids).
Proof.
  induction ids as [|id ids IH]; cbn; constructor.
  - rewrite in_without. tauto.
  - now apply NoDup_filter.
Qed.

Lemma find_pupil_unique (rows : list PupilRow) (p : PupilRow) :
  NoDup (map pupil_row_id rows) -> In p rows ->
  find_pupil (pupil_row_id p) rows = Some p.
Proof.
  unfold find_pupil.
  induction rows as [|r rows IH]; cbn; intros Hnd Hin; [contradiction|].
  inversion Hnd as [|? ? Hr Hrest]; subst.
  destruct Hin as [->|Hin]; [now rewrite String.eqb_refl|].
  destruct (String.eqb (pupil_row_id r) (pupil_row_id p)) eqn:E.
  - apply String.eqb_eq in E. elim Hr. rewrite E. now apply in_map.
  - now apply IH.
Qed.

Lemma same_id_same_pupil (rows : list PupilRow) (p p' : PupilRow) :
  NoDup (map pupil_row_id rows) -> In p rows -> In p' rows ->
  pupil_row_id p' = pupil_row_id p -> p' = p.
Proof.
  intros Hnd Hp Hp' E.
  pose proof (find_pupil_unique rows p Hnd Hp) as F.
  pose proof (find_pupil_unique rows p' Hnd Hp') as F'.
  rewrite E in F'. congruence.
Qed.

Lemma first_refusal_none (env : Env) (ids : list string) :
  (forall id, In id ids -> refuses env id = None) -> first_refusal env ids = None.
Proof.
  induction ids as [|id ids IH]; cbn; intros H; [reflexivity|].
  rewrite (H id) by now left. apply IH. intros x Hx. apply H. now right.
Qed.

(** X21.  [handlePupilSelectionToggle] flips the selection of one pupil and
    of no other, and a selection that holds each id once still does
    afterwards. *)
Theorem handlePupilSelectionToggle_flips_one
    (pupilId : string) (selection : list string)
    (Hset : NoDup selection) :
  let next := handlePupilSelectionToggle pupilId selection in
  has pupilId next = negb (has pupilId selection) /\
  (forall other, other <> pupilId -> has other next = has other selection) /\
  NoDup next /\
  (forall id, has id (handlePupilSelectionToggle pupilId next) = has id selection).
Proof.
  assert (Hflip : forall sel, has pupilId (handlePupilSelectionToggle pupilId sel)
                              = negb (has pupilId sel)).
  { intros sel. unfold handlePupilSelectionToggle.
    destruct (has pupilId sel) eqn:E; cbn [negb].
    - apply not_true_is_false. rewrite has_in, in_without. tauto.
    - apply has_in, in_or_app. right. now left. }
  assert (Hother : forall sel other, other <> pupilId ->
            has other (handlePupilSelectionToggle pupilId sel) = has other sel).
  { intros sel other Hne. unfold handlePupilSelectionToggle. apply bool_iff.
    destruct (has pupilId sel); rewrite !has_in.
    - rewrite in_without. tauto.
    - rewrite in_app_iff. cbn. intuition congruence. }
  cbv zeta. split; [apply Hflip|]. split; [intros; now apply Hother|]. split.
  - unfold handlePupilSelectionToggle. destruct (has pupilId selection) eqn:E.
    + now apply NoDup_filter.
    + apply NoDup_app_one; [assumption|].
      rewrite <- has_in. congruence.
  - intros id. destruct (string_dec id pupilId) as [->|Hne].
    + rewrite !Hflip. apply negb_involutive.
    + now rewrite !Hother.
Qed.

(** X22.  A grade is picked for promotion and the promotion is run at
    once, every pupil having an id of their own and the store taking the
    statement: the pupils of that grade shown on the page who are not
    archived get the new grade and section, every other pupil keeps their
    row, and one audit entry is written per promoted pupil, with the picked
    grade as the old value. *)
Theorem grade_select_then_promote
    (env : Env) (st : Page) (w : World) (filteredPupils : list PupilRow)
    (grade toGrade : Z)
    (Hids : NoDup (map pupil_row_id (pupils w)))
    (Hshown : forall p, In p filteredPupils -> In p (pupils w))
    (Hgrade : promotionToGrade st = Some toGrade)
    (Hnonzero : toGrade <> 0)
    (Hsection : promotionToSection st <> "")
    (Hsome : exists p, In p filteredPupils /\ grade_level p = grade /\
                       archived p = false)
    (Haccept : forall id, refuses env id = None) :
  let st' := handlePromotionGradeSelect grade filteredPupils st in
  let w' := handlePromotePupils env st' w in
  (forall p, In p filteredPupils -> grade_level p = grade -> archived p = false ->
     find_pupil (pupil_row_id p) (pupils w')
     = Some (promoted toGrade (promotionToSection st) (nowISOString env) p)) /\
  (forall p, In p (pupils w) ->
     grade_level p <> grade \/ archived p = true \/ ~ In p filteredPupils ->
     find_pupil (pupil_row_id p) (pupils w') = Some p) /\
  NoDup (selectedPupilsForPromotion st') /\
  audit_logs w'
  = (audit_logs w
     ++ map (fun id =>
               {| log_user_id := "current_user_id";
                  log_action := "promote_pupil";
                  log_entity_type := "pupils";
                  log_entity_id := id;
                  log_old_values := Some (GradeLevel (Some grade));
                  log_new_values :=
                    Some (GradeLevelSection (Some toGrade) (promotionToSection st)) |})
         (selectedPupilsForPromotion st'))%list.
Proof.
  cbv zeta.
  set (st' := handlePromotionGradeSelect grade filteredPupils st).
  set (ids := selectedPupilsForPromotion st').
  assert (Hsel : forall id, In id ids <->
            exists p, In p filteredPupils /\ pupil_row_id p = id /\
                      grade_level p = grade /\ archived p = false).
  { intros id. unfold ids, st', handlePromotionGradeSelect.
    cbn [selectedPupilsForPromotion]. rewrite new_Set_in, in_map_iff. split.
    - intros (p & E & Hin). apply filter_In in Hin as (Hin & Hc).
      apply andb_prop in Hc as (Hg & Ha). apply Z.eqb_eq in Hg.
      apply negb_true_iff in Ha. exists p. tauto.
    - intros (p & Hin & E & Hg & Ha). exists p. split; [exact E|].
      apply filter_In. split; [exact Hin|].
      apply Z.eqb_eq in Hg. now rewrite Hg, Ha. }
  assert (Hne : ids <> []).
  { destruct Hsome as (p & Hp). intros E.
    assert (Hin : In (pupil_row_id p) ids) by (apply Hsel; exists p; tauto).
    now rewrite E in Hin. }
  assert (Hrun : handlePromotePupils env st' w
                 = toast (ToastSuccess
                            ("Successfully promoted "
                             ++ show_number (Z.of_nat (List.length ids))
                             ++ " pupils to Grade " ++ show_number toGrade ++ " - "
                             ++ promotionToSection st))
                     {| pupils :=
                          map (fun p =>
                                 if selected ids p
                                 then promoted toGrade (promotionToSection st)
                                        (nowISOString env) p
                                 else p) (pupils w);
                        audit_logs :=
                          (audit_logs w ++ map (promotion_entry st') ids)%list;
                        toasts := toasts w |}).
  { unfold handlePromotePupils.
    change (promotionToGrade st') with (promotionToGrade st).
    change (promotionToSection st') with (promotionToSection st).
    fold ids. rewrite Hgrade.
    apply Z.eqb_neq in Hnonzero. apply String.eqb_neq in Hsection.
    rewrite Hnonzero, Hsection.
    destruct ids as [|i ids'] eqn:Ei; [now elim Hne|]. cbn [List.length Nat.eqb orb].
    unfold update_in. rewrite first_refusal_none by (intros; apply Haccept).
    reflexivity. }
  rewrite Hrun. cbn [toast pupils audit_logs].
  assert (Hfind : forall p, In p (pupils w) ->
            find_pupil (pupil_row_id p)
              (map (fun p => if selected ids p
                             then promoted toGrade (promotionToSection st)
                                    (nowISOString env) p
                             else p) (pupils w))
            = Some (if selected ids p
                    then promoted toGrade (promotionToSection st)
                           (nowISOString env) p
                    else p)).
  { intros p Hp. rewrite PromotionFacts.find_pupil_map.
    - now rewrite find_pupil_unique.
    - intros r. now destruct (selected ids r). }
  split; [|split; [|split]].
  - intros p Hp Hg Ha. rewrite Hfind by now apply Hshown.
    assert (E : selected ids p = true).
    { apply PromotionFacts.selected_in, Hsel. exists p. tauto. }
    now rewrite E.
  - intros p Hp Hout. rewrite Hfind by assumption.
    assert (E : selected ids p = false).
    { apply not_true_is_false. intros E.
      apply PromotionFacts.selected_in, Hsel in E as (p' & Hp' & Eid & Hg & Ha).
      assert (p' = p)
        by (apply (same_id_same_pupil (pupils w)); auto).
      subst p'. destruct Hout as [H|[H|H]]; [tauto | congruence | tauto]. }
    now rewrite E.
  - apply new_Set_NoDup.
  - unfold promotion_entry.
    change (promotionToGrade st') with (promotionToGrade st).
    now rewrite Hgrade.
Qed.

Lemma table_with_toast (rows : list PupilRow) (logs : list ArchiveLog)
    (ts : list Pupils.Toast) :
  table {| table := rows; archive_logs := logs; shown := ts |} = rows.
Proof. reflexivity. Qed.

(** X23.  [handleArchive] of the Pupils page writes nothing when the
    question is not confirmed or the store refuses the update: the table and
    the audit log stay as they were, and a refusal is shown as an error. *)
Theorem handleArchive_cancelled_or_refused
    (env : ArchiveEnv) (pupilId : string) (archive : bool) (w : ArchiveWorld)
    (Hstop : confirmed env = false \/ refuses (store env) pupilId <> None) :
  let w' := handleArchive env pupilId archive w in
  table w' = table w /\ archive_logs w' = archive_logs w /\
  (confirmed env = false -> w' = w) /\
  (confirmed env = true ->
     exists msg, shown w' = (shown w ++ [ToastError msg])%list).
Proof.
  cbv zeta. unfold handleArchive.
  destruct (confirmed env) eqn:Ec; cbn [negb].
  - destruct Hstop as [H|H]; [discriminate|].
    unfold update_in. cbn [first_refusal].
    destruct (refuses (store env) pupilId) as [msg|]; [|now elim H].
    cbn. repeat split; [discriminate|]. intros _. eexists. reflexivity.
  - repeat split. discriminate.
Qed.

(** X24.  A pupil archived and then restored, both confirmed and taken by
    the store: the pupil is not archived and has the grade level and section
    of before, no other pupil is touched, and the audit log gets the two
    entries, each with the opposite of the new value as its old value,
    whatever the stored row said. *)
Theorem handleArchive_then_restore
    (env : ArchiveEnv) (pupilId : string) (w : ArchiveWorld) (p : PupilRow)
    (Hconfirmed : confirmed env = true)
    (Haccept : refuses (store env) pupilId = None)
    (Hfind : find_pupil pupilId (table w) = Some p) :
  let w1 := handleArchive env pupilId true w in
  let w2 := handleArchive env pupilId false w1 in
  (exists p1, find_pupil pupilId (table w1) = Some p1 /\ archived p1 = true) /\
  (exists p2, find_pupil pupilId (table w2) = Some p2 /\
              archived p2 = false /\ grade_level p2 = grade_level p /\
              section p2 = section p) /\
  (forall other, other <> pupilId ->
     find_pupil other (table w2) = find_pupil other (table w)) /\
  List.length (table w2) = List.length (table w) /\
  map (fun e => (alog_action e, alog_entity_id e, alog_old_values e,
                 alog_new_values e))
    (skipn (List.length (archive_logs w)) (archive_logs w2))
  = [("archive_pupil", pupilId, Archived false, Archived true);
     ("restore_pupil", pupilId, Archived true, Archived false)].
Proof.
  cbv zeta.
  assert (Hstep : forall a v,
            handleArchive env pupilId a v
            = {| table :=
                   map (fun r => if selected [pupilId] r
                                 then set_archived a (nowISOString (store env)) r
                                 else r) (table v);
                 archive_logs :=
                   (archive_logs v ++ [
                      {| alog_user_id := "current_user_id";
                         alog_action := if a then "archive_pupil" else "restore_pupil";
                         alog_entity_type := "pupils";
                         alog_entity_id := pupilId;
                         alog_old_values := Archived (negb a);
                         alog_new_values := Archived a |} ])%list;
                 shown :=
                   (shown v ++ [
                      Pupils.ToastSuccess
                        ("Pupil " ++ (if a then "archived" else "restored")
                         ++ " successfully") ])%list |}).
  { intros a v. unfold handleArchive, update_in. cbn [first_refusal].
    now rewrite Hconfirmed, Haccept. }
  assert (Hmap : forall a rows id,
            find_pupil id
              (map (fun r => if selected [pupilId] r
                             then set_archived a (nowISOString (store env)) r
                             else r) rows)
            = option_map (fun r => if selected [pupilId] r
                                   then set_archived a (nowISOString (store env)) r
                                   else r) (find_pupil id rows)).
  { intros a rows id. apply PromotionFacts.find_pupil_map.
    intros r. now destruct (selected [pupilId] r). }
  assert (Hsel : forall r, pupil_row_id r = pupilId -> selected [pupilId] r = true).
  { intros r E. apply PromotionFacts.selected_in. now left. }
  assert (Hnot : forall r, pupil_row_id r <> pupilId -> selected [pupilId] r = false).
  { intros r E. apply not_true_is_false. intros H.
    apply PromotionFacts.selected_in in H as [H|[]]. congruence. }
  pose proof (PromotionFacts.find_pupil_id _ _ _ Hfind) as Hid.
  rewrite !Hstep. cbn [table archive_logs].
  split; [|split; [|split; [|split]]].
  - rewrite Hmap, Hfind. cbn [option_map]. rewrite Hsel by assumption.
    eexists. split; reflexivity.
  - rewrite !Hmap, Hfind. cbn [option_map]. rewrite (Hsel p) by assumption.
    rewrite Hsel by assumption. eexists. repeat split.
  - intros other Hne. rewrite !Hmap.
    destruct (find_pupil other (table w)) as [r|] eqn:F; [|reflexivity].
    pose proof (PromotionFacts.find_pupil_id _ _ _ F) as Hr.
    cbn [option_map]. rewrite (Hnot r) by congruence.
    now rewrite Hnot by congruence.
  - now rewrite !length_map.
  - rewrite <- app_assoc, skipn_app, skipn_all, Nat.sub_diag. reflexivity.
Qed.

Lemma handlePupilSelectionToggle_flips_one_witness :
  has "p-2" (handlePupilSelectionToggle "p-2" ["p-1"; "p-2"]) = false.
Proof.
  destruct (handlePupilSelectionToggle_flips_one "p-2" ["p-1"; "p-2"]) as (H & _).
  - repeat constructor; cbn; intuition discriminate.
  - exact H.
Defined.

Lemma grade_select_then_promote_witness :
  find_pupil "p-1"
    (pupils
       (handlePromotePupils PupilsSamples.lenient
          (handlePromotionGradeSelect 3 (pupils PupilsSamples.class3)
             (PupilsSamples.to_grade4 []))
          PupilsSamples.class3))
  = Some (promoted 4 "Rosal" "2024-06-10T00:20:00.000Z"
            (PupilsSamples.third_grader "p-1")).
Proof.
  assert (Hids : NoDup (map pupil_row_id (pupils PupilsSamples.class3))).
  { cbn. repeat constructor; cbn; intuition discriminate. }
  destruct (grade_select_then_promote PupilsSamples.lenient
              (PupilsSamples.to_grade4 []) PupilsSamples.class3
              (pupils PupilsSamples.class3) 3 4 Hids (fun p H => H) eq_refl
              ltac:(discriminate) ltac:(discriminate)
              (ex_intro _ (PupilsSamples.third_grader "p-1")
                 (conj (or_introl eq_refl) (conj eq_refl eq_refl)))
              (fun id => eq_refl)) as (H & _).
  exact (H (PupilsSamples.third_grader "p-1") (or_introl eq_refl) eq_refl eq_refl).
Defined.

Lemma handleArchive_cancelled_or_refused_witness :
  table (handleArchive PupilsSelectionSamples.declining "p-1" true
           PupilsSelectionSamples.class3)
  = table PupilsSelectionSamples.class3.
Proof.
  destruct (handleArchive_cancelled_or_refused PupilsSelectionSamples.declining
              "p-1" true PupilsSelectionSamples.class3 (or_introl eq_refl))
    as (H & _).
  exact H.
Defined.

Lemma handleArchive_then_restore_witness :
  exists p2,
    find_pupil "p-1"
      (table (handleArchive PupilsSelectionSamples.confirming "p-1" false
                (handleArchive PupilsSelectionSamples.confirming "p-1" true
                   PupilsSelectionSamples.class3))) = Some p2 /\
    archived p2 = false.
Proof.
  destruct (handleArchive_then_restore PupilsSelectionSamples.confirming "p-1"
              PupilsSelectionSamples.class3 (PupilsSamples.third_grader "p-1")
              eq_refl eq_refl eq_refl) as (_ & (p2 & F & A & _) & _).
  exists p2. now split.
Defined.

End PupilsSelectionFacts.

(** * The Users page: list filter, pages, rejection *)

Module UsersPageFacts.
Import Js Types UsersPage.

Lemma filter_split_length {A} (f : A -> bool) (l : list A) :
  (List.length (filter f l) + List.length (filter (fun x => negb (f x)) l)
   = List.length l)%nat.
Proof.
  induction l as [|a l IH]; cbn; [reflexivity|].
  destruct (f a); cbn; lia.
Qed.

Lemma filter_comm {A} (f g : A -> bool) (l : list A) :
  filter f (filter g l) = filter g (filter f l).
Proof.
  induction l as [|a l IH]; cbn; [reflexivity|].
  destruct (f a) eqn:Ef, (g a) eqn:Eg; cbn; rewrite ?Ef, ?Eg, IH; reflexivity.
Qed.

(** What the search term and the role leave of a list. *)
Lemma filterUsers_as_filter (users : list User) (activeTab searchTerm : string)
    (selectedRole : option UserRole) :
  filterUsers users activeTab searchTerm selectedRole
  = filter (fun user =>
              match selectedRole with
              | Some r => UserRole_eqb (role user) r
              | None => true
              end)
      (filter (fun user =>
                 if String.eqb searchTerm "" then true else matches searchTerm user)
         (filter (in_tab activeTab) users)).
Proof.
  unfold filterUsers.
  assert (T : forall l : list User, filter (fun _ => true) l = l).
  { induction l as [|a l IH]; cbn; [reflexivity | now rewrite IH]. }
  destruct (String.eqb searchTerm ""), selectedRole; now rewrite ?T.
Qed.

Lemma in_tab_other (tab : string) (user : User) :
  tab <> "archived" -> tab <> "users" -> in_tab tab user = true.
Proof.
  intros H1 H2. unfold in_tab.
  apply String.eqb_neq in H1, H2. now rewrite H1, H2.
Qed.

(** X25.  The tabs of the Users page split the accounts: with the same
    search term and role, an account is listed under [users] when it is not
    archived and under [archived] when it is, never under both, and the two
    lists together are as long as the list of any other tab.  Every listed
    account is one of the accounts. *)
Theorem filterUsers_tabs_split
    (users : list User) (tab searchTerm : string)
    (selectedRole : option UserRole)
    (Hnot_archived : tab <> "archived") (Hnot_users : tab <> "users") :
  let active := filterUsers users "users" searchTerm selectedRole in
  let archive := filterUsers users "archived" searchTerm selectedRole in
  let all := filterUsers users tab searchTerm selectedRole in
  (forall u, In u active <-> In u all /\ archived u = false) /\
  (forall u, In u archive <-> In u all /\ archived u = true) /\
  (List.length active + List.length archive = List.length all)%nat /\
  (forall u, In u all -> In u users).
Proof.
  cbv zeta. rewrite !filterUsers_as_filter.
  set (byRole := fun user : User =>
                   match selectedRole with
                   | Some r => UserRole_eqb (role user) r
                   | None => true
                   end).
  set (bySearch := fun user : User =>
                     if String.eqb searchTerm "" then true
                     else matches searchTerm user).
  assert (Hall : filter (in_tab tab) users = users).
  { clear -Hnot_archived Hnot_users.
    induction users as [|a l IH]; cbn; [reflexivity|].
    now rewrite in_tab_other, IH. }
  rewrite Hall.
  change (in_tab "users") with (fun user : User => negb (archived user)).
  change (in_tab "archived") with (fun user : User => archived user).
  split; [|split; [|split]].
  - intros u. rewrite !filter_In, negb_true_iff. tauto.
  - intros u. rewrite !filter_In. tauto.
  - rewrite (filter_comm bySearch), (filter_comm byRole).
    rewrite (filter_comm bySearch (fun user => archived user)),
            (filter_comm byRole (fun user => archived user)).
    rewrite Nat.add_comm. apply filter_split_length.
  - intros u. rewrite !filter_In. tauto.
Qed.

Lemma totalPages_covers (l : list User) :
  (List.length l <= totalPages l * itemsPerPage)%nat.
Proof.
  unfold totalPages, itemsPerPage.
  pose proof (Nat.div_mod_eq (List.length l + (10 - 1)) 10) as E.
  pose proof (Nat.mod_upper_bound (List.length l + (10 - 1)) 10) as B.
  lia.
Qed.

Lemma totalPages_tight (l : list User) (k : nat) :
  (1 <= k <= totalPages l)%nat -> ((k - 1) * itemsPerPage < List.length l)%nat.
Proof.
  unfold totalPages, itemsPerPage.
  pose proof (Nat.div_mod_eq (List.length l + (10 - 1)) 10) as E.
  pose proof (Nat.mod_upper_bound (List.length l + (10 - 1)) 10) as B.
  nia.
Qed.

Lemma chunks_cover {A} (n : nat) :
  forall l : list A,
    (List.length l <= n * 10)%nat ->
    List.concat (map (fun k => firstn 10 (skipn (k * 10) l)) (seq 0 n)) = l.
Proof.
  induction n as [|n IH]; intros l H.
  - destruct l; [reflexivity | cbn in H; lia].
  - cbn [seq map List.concat]. rewrite <- seq_shift, map_map.
    change (skipn (0 * 10) l) with l.
    etransitivity; [|apply (firstn_skipn 10 l)]. f_equal.
    etransitivity; [|apply (IH (skipn 10 l)); rewrite length_skipn; lia].
    f_equal. apply map_ext. intros k.
    rewrite skipn_skipn. f_equal. f_equal. lia.
Qed.

(** X26.  The pages of the Users page cover the list: put one after the
    other, pages 1 to [totalPages] give the filtered list, each account once
    and in order; each of these pages holds at least one and at most ten
    accounts, and a page after the last holds none. *)
Theorem paginatedUsers_cover_the_list
    (filteredUsers : list User) (currentPage : nat)
    (Hpage : (1 <= currentPage)%nat) :
  List.concat (map (fun k => paginatedUsers k filteredUsers)
            (seq 1 (totalPages filteredUsers)))
  = filteredUsers /\
  ((currentPage <= totalPages filteredUsers)%nat ->
     (1 <= List.length (paginatedUsers currentPage filteredUsers) <= 10)%nat) /\
  ((totalPages filteredUsers < currentPage)%nat ->
     paginatedUsers currentPage filteredUsers = []).
Proof.
  split; [|split].
  - rewrite <- seq_shift, map_map.
    rewrite <- (chunks_cover (totalPages filteredUsers) filteredUsers) at 2
      by apply totalPages_covers.
    f_equal. apply map_ext. intros k. unfold paginatedUsers, itemsPerPage.
    now rewrite Nat.sub_succ, Nat.sub_0_r.
  - intros Hle.
    pose proof (totalPages_tight filteredUsers currentPage (conj Hpage Hle)) as T.
    unfold paginatedUsers. rewrite length_firstn, length_skipn.
    unfold itemsPerPage in *. lia.
  - intros Hgt. pose proof (totalPages_covers filteredUsers) as C.
    unfold paginatedUsers. rewrite skipn_all2; [now rewrite firstn_nil|].
    unfold itemsPerPage in *. nia.
Qed.

(** X27.  [handleRejectRegistration] calls the rejection procedure at most
    once: never for a blank reason or without a signed-in admin, and
    otherwise once, with the registration, the reason as typed and the id of
    the admin.  It always shows one message, and the message is the success
    message exactly when the procedure was called, answered without an
    error and reported success. *)
Theorem handleRejectRegistration_calls_at_most_once
    (env : Env) (registrationId reason : string) (w : World) :
  let w' := handleRejectRegistration env registrationId reason w in
  reject_calls w'
  = (reject_calls w
     ++ (if blank reason then []
         else match getUser env with
              | Some admin_id => [(registrationId, reason, admin_id)]
              | None => []
              end))%list /\
  exists t,
    shown w' = (shown w ++ [t])%list /\
    (t = ToastSuccess "Registration rejected successfully" <->
     blank reason = false /\ getUser env <> None /\
     transport_error (reject_answer env) = None /\
     success (reject_answer env) = true).
Proof.
  cbv zeta. unfold handleRejectRegistration.
  destruct (blank reason).
  { cbn. rewrite app_nil_r. split; [reflexivity|]. eexists. split; [reflexivity|].
    split; [discriminate | intros (H & _); discriminate]. }
  destruct (getUser env) as [admin_id|].
  2:{ cbn. rewrite app_nil_r. split; [reflexivity|]. eexists.
      split; [reflexivity|].
      split; [discriminate | intros (_ & H & _); now elim H]. }
  destruct (transport_error (reject_answer env)) as [msg|].
  { cbn. split; [reflexivity|]. eexists. split; [reflexivity|].
    split; [discriminate | intros (_ & _ & H & _); discriminate]. }
  destruct (success (reject_answer env)); cbn.
  - split; [reflexivity|]. eexists. split; [reflexivity|].
    split; [intros _; repeat split; discriminate | reflexivity].
  - split; [reflexivity|]. eexists. split; [reflexivity|].
    split; [discriminate | intros (_ & _ & _ & H); discriminate].
Qed.

(** A reason that is a no-break space and nothing else is blank: the
    procedure is not called. *)
Lemma handleRejectRegistration_refuses_no_break_space :
  let w' := handleRejectRegistration UsersPageSamples.signed_in "reg-1"
              JsSamples.no_break_space UsersPageSamples.quiet in
  reject_calls w' = [] /\
  shown w' = [ToastError "Please provide a reason for rejection"].
Proof. vm_compute. split; reflexivity. Qed.

Lemma filterUsers_tabs_split_witness :
  (List.length (filterUsers UsersPageSamples.staff "users" "" (Some teacher))
   + List.length (filterUsers UsersPageSamples.staff "archived" "" (Some teacher))
   = List.length (filterUsers UsersPageSamples.staff "registrations" ""
                    (Some teacher)))%nat.
Proof.
  destruct (filterUsers_tabs_split UsersPageSamples.staff "registrations" ""
              (Some teacher) ltac:(discriminate) ltac:(discriminate))
    as (_ & _ & H & _).
  exact H.
Defined.

Lemma paginatedUsers_cover_the_list_witness :
  List.concat (map (fun k => paginatedUsers k UsersPageSamples.many)
            (seq 1 (totalPages UsersPageSamples.many)))
  = UsersPageSamples.many.
Proof.
  destruct (paginatedUsers_cover_the_list UsersPageSamples.many 3
              ltac:(lia)) as (H & _).
  exact H.
Defined.

End UsersPageFacts.
